(** * FX trade journal: the record store, the entry form, the filter and the
      weekly and monthly counts of [trade_journal.py]

    The program is a Streamlit script over one SQLite table, [trades].  The
    SQLite file is modelled as an explicit store that every database call
    takes and returns; a Python exception is the [Raise] branch of [res].
    Rows are finite maps from column names to SQL values, as a cursor row or
    a DataFrame row is.

    What the model leaves to the libraries:
    - every statement is followed by [conn.commit()] on the one connection
      of the process, so the store that a function returns is the committed
      one;
    - the values the program binds already have the storage class of their
      column ([str] for TEXT, [int] for INTEGER, [float] for REAL, [None]),
      so column affinity stores them as they are;
    - the integer inputs of the form ([step=1]) are Python ints and the price
      input ([step=0.01]) is a float;
    - [pd.to_datetime] is a parameter: what it does on one element (a
      timestamp, NaT or an exception) is left open, and a reference
      conversion for the timestamps that the form writes is given to run the
      code on data. *)

From Stdlib Require Import ZArith NArith Floats Ascii String Sorted.
From stdpp Require Import base option list gmap strings fin_maps.

Local Open Scope string_scope.
Local Open Scope list_scope.
Local Open Scope Z_scope.

(** ** Python and SQLite values *)

(** The storage classes the program reads and writes: [None] and NULL,
    [int] and INTEGER, [float] and REAL (IEEE binary64), [str] and TEXT. *)
Inductive value :=
| Null
| Int (n : Z)
| Real (x : float)
| Text (s : string).

(** The exceptions that can leave the modelled code. *)
Inductive exn :=
| OperationalError (msg : string)
| DatabaseError (msg : string)
| ZeroDivisionError
| KeyError (column : string)
| ParserError (text : string).

Inductive res (A : Type) :=
| Ok (a : A)
| Raise (e : exn).
Arguments Ok {A} a.
Arguments Raise {A} e.

#[global] Instance res_ret : MRet res := fun _ a => Ok a.
#[global] Instance res_bind : MBind res := fun _ _ f m =>
  match m with
  | Ok a => f a
  | Raise e => Raise e
  end.

(** ** Floats: [tp / sl] and [round(x, 2)] *)

Definition Z2SF (n : Z) : spec_float :=
  match n with
  | Z0 => S754_zero false
  | Zpos p => S754_finite false p 0
  | Zneg p => S754_finite true p 0
  end.

(** [a / b] on Python ints: the quotient rounded once to the nearest
    binary64, ties to even; [ZeroDivisionError] when [b] is zero.  (The
    [OverflowError] of a quotient beyond the float range is not modelled: the
    integers of the form stay below 2^53.) *)
Definition truediv (a b : Z) : res float :=
  if b =? 0 then Raise ZeroDivisionError
  else Ok (SF2Prim (SFdiv prec emax (Z2SF a) (Z2SF b))).

Definition round_half_even (num den : Z) : Z :=
  let q := num / den in
  match 2 * (num mod den) ?= den with
  | Lt => q
  | Eq => if Z.even q then q else q + 1
  | Gt => q + 1
  end.

(** [round(x, ndigits)] on a float, for [ndigits >= 0]: the exact binary
    value of [x] is rounded half-to-even to [ndigits] decimals, and the
    decimal result is converted back to the nearest binary64.  Zeros,
    infinities and NaN round to themselves. *)
Definition py_round (x : float) (ndigits : N) : float :=
  match Prim2SF x with
  | S754_finite s m e =>
      let p := 10 ^ Z.of_N ndigits in
      let n := round_half_even (Zpos m * p * 2 ^ Z.max e 0) (2 ^ Z.max (- e) 0) in
      let scaled := match n with
                    | Zpos k => S754_finite s k 0
                    | _ => S754_zero s
                    end in
      SF2Prim (SFdiv prec emax scaled (Z2SF p))
  | _ => x
  end.

(** [x or None] for the two optional form fields: the empty string and the
    integer zero are falsy. *)
Definition str_or_None (x : string) : option string :=
  if decide (x = "") then None else Some x.

Definition int_or_None (x : Z) : option Z :=
  if x =? 0 then None else Some x.

(** ** The store: the table [trades] of [trade_journal.db] *)

Abbreviation row := (gmap string value).

(** A table has its columns (name and declared type, in declaration order),
    its rows in rowid order, and the largest rowid ever handed out, which
    AUTOINCREMENT keeps in [sqlite_sequence]. *)
Record table := {
  columns : list (string * string);
  rows : list row;
  seq : Z
}.

(** The database file either has the table [trades] or does not have it. *)
Definition store := option table.

Definition column_names (t : table) : list string := (columns t).*1.

Definition base_columns : list (string * string) :=
  [ ("id", "INTEGER PRIMARY KEY AUTOINCREMENT");
    ("pair", "TEXT");
    ("trade_type", "TEXT");
    ("time", "TEXT");
    ("tp", "INTEGER");
    ("sl", "INTEGER");
    ("rr", "REAL");
    ("reason", "TEXT") ].

(** [CREATE TABLE IF NOT EXISTS trades (...)]. *)
Definition create_table_if_not_exists (s : store) : store :=
  match s with
  | Some t => Some t
  | None => Some {| columns := base_columns; rows := []; seq := 0 |}
  end.

(** [[row[1] for row in c.execute("PRAGMA table_info(trades)").fetchall()]]:
    the column names; no rows, and no error, for a table that is missing. *)
Definition table_info (s : store) : list string :=
  match s with
  | Some t => column_names t
  | None => []
  end.

(** Column names are compared as they are spelled: the program writes every
    column name in lower case, in its statements and in its probes. *)
Definition has_column (name : string) (t : table) : bool :=
  bool_decide (name ∈ column_names t).

(** [ALTER TABLE trades ADD COLUMN name decl]: the column is appended and
    reads NULL in every row already there; a name the table already has is
    an error. *)
Definition add_column (name decl : string) (s : store) : res store :=
  match s with
  | None => Raise (OperationalError "no such table: trades")
  | Some t =>
      if has_column name t
      then Raise (OperationalError ("duplicate column name: " +:+ name))
      else Ok (Some {| columns := columns t ++ [(name, decl)];
                       rows := (fun r => <[name := Null]> r) <$> rows t;
                       seq := seq t |})
  end.

(** The set-up the script runs at every start: the base table, then one
    probe of the column names and an ALTER for each optional column that
    the probe did not list. *)
Definition initialize (s : store) : res store :=
  let s := create_table_if_not_exists s in
  let existing_cols := table_info s in
  s ← (if bool_decide ("entry_price" ∈ existing_cols) then Ok s
        else add_column "entry_price" "REAL" s);
  s ← (if bool_decide ("result" ∈ existing_cols) then Ok s
        else add_column "result" "TEXT" s);
  s ← (if bool_decide ("pips" ∈ existing_cols) then Ok s
        else add_column "pips" "INTEGER" s);
  Ok s.

(** *** The four store functions *)

Definition opt_text (x : option string) : value :=
  match x with Some s => Text s | None => Null end.

Definition opt_int (x : option Z) : value :=
  match x with Some n => Int n | None => Null end.

(** The rowid of a row, read from its [id] column. *)
Definition rowid (r : row) : option Z :=
  match r !! "id" with
  | Some (Int n) => Some n
  | _ => None
  end.

Definition has_id (trade_id : Z) (r : row) : bool :=
  bool_decide (rowid r = Some trade_id).

Definition max_rowid (rs : list (row)) : Z :=
  foldr (fun r acc => Z.max (default 0 (rowid r)) acc) 0 rs.

Definition max_int64 : Z := 2 ^ 63 - 1.

(** The first of the named columns that the table does not have. *)
Definition missing_column (names : list string) (t : table) : option string :=
  head (filter (fun c => has_column c t = false) names).

(** The value an INSERT binds to a column: NULL for a column that the
    statement does not name. *)
Fixpoint bound_value (named : list (string * value)) (c : string) : value :=
  match named with
  | [] => Null
  | (k, v) :: rest => if decide (k = c) then v else bound_value rest c
  end.

(** The stored row: [id] is the new rowid, every other column of the table
    holds the value bound to it. *)
Definition new_row (cols : list string) (new_id : Z)
    (named : list (string * value)) : row :=
  foldr (fun c r => <[c := if decide (c = "id") then Int new_id
                           else bound_value named c]> r) ∅ cols.

Definition insert_trade (pair trade_type time : string) (entry_price : float)
    (tp sl : Z) (rr : float) (result : option string) (pips : option Z)
    (reason : string) (s : store) : res store :=
  match s with
  | None => Raise (OperationalError "no such table: trades")
  | Some t =>
      let named :=
        [ ("pair", Text pair); ("trade_type", Text trade_type);
          ("time", Text time); ("entry_price", Real entry_price);
          ("tp", Int tp); ("sl", Int sl); ("rr", Real rr);
          ("result", opt_text result); ("pips", opt_int pips);
          ("reason", Text reason) ] in
      match missing_column named.*1 t with
      | Some c => Raise (OperationalError ("table trades has no column named " +:+ c))
      | None =>
          let last := Z.max (seq t) (max_rowid (rows t)) in
          if max_int64 <=? last
          then Raise (OperationalError "database or disk is full")
          else Ok (Some {| columns := columns t;
                           rows := rows t ++ [new_row (column_names t) (last + 1) named];
                           seq := last + 1 |})
      end
  end.

(** A DataFrame: its column labels and its rows in order.  The values are
    kept as the cursor returns them; the dtype conversions of pandas are not
    modelled. *)
Record DataFrame := {
  df_columns : list string;
  df_rows : list (row)
}.

(** [pd.read_sql("SELECT * FROM trades", conn)]. *)
Definition get_all_trades (s : store) : res DataFrame :=
  match s with
  | None => Raise (DatabaseError "no such table: trades")
  | Some t => Ok {| df_columns := column_names t; df_rows := rows t |}
  end.

(** [DELETE FROM trades WHERE id = ?]. *)
Definition delete_trade (trade_id : Z) (s : store) : res store :=
  match s with
  | None => Raise (OperationalError "no such table: trades")
  | Some t =>
      match missing_column ["id"] t with
      | Some c => Raise (OperationalError ("no such column: " +:+ c))
      | None =>
          Ok (Some {| columns := columns t;
                      rows := filter (fun r => has_id trade_id r = false) (rows t);
                      seq := seq t |})
      end
  end.

Definition set_result_pips (result : string) (pips : Z)
    (r : row) : row :=
  <["result" := Text result]> (<["pips" := Int pips]> r).

(** [UPDATE trades SET result = ?, pips = ? WHERE id = ?]. *)
Definition update_result_pips (trade_id : Z) (result : string) (pips : Z)
    (s : store) : res store :=
  match s with
  | None => Raise (OperationalError "no such table: trades")
  | Some t =>
      match missing_column ["result"; "pips"; "id"] t with
      | Some c => Raise (OperationalError ("no such column: " +:+ c))
      | None =>
          Ok (Some {| columns := columns t;
                      rows := (fun r => if has_id trade_id r
                                        then set_result_pips result pips r
                                        else r) <$> rows t;
                      seq := seq t |})
      end
  end.

(** ** Dates and the clock *)

Record date := { year : Z; month : Z; day : Z }.

(** A [datetime] and a pandas [Timestamp], to the second. *)
Record datetime := { date_of : date; hour : N; minute : N; second : N }.

Definition digit (n : Z) : ascii := ascii_of_nat (48 + Z.to_nat (n mod 10)).

Definition pad2 (n : Z) : string :=
  String (digit (n / 10)) (String (digit n) "").

Definition pad4 (n : Z) : string :=
  String (digit (n / 1000)) (String (digit (n / 100)) (pad2 n)).

(** [strftime("%Y-%m-%d %H:%M:%S")], for the four-digit years. *)
Definition strftime (t : datetime) : string :=
  pad4 (year (date_of t)) +:+ "-" +:+ pad2 (month (date_of t)) +:+ "-" +:+
  pad2 (day (date_of t)) +:+ " " +:+ pad2 (Z.of_N (hour t)) +:+ ":" +:+
  pad2 (Z.of_N (minute t)) +:+ ":" +:+ pad2 (Z.of_N (second t)).

(** ** The entry form *)

(** What the page shows after a submit: [st.success] or [st.error]. *)
Inductive notice :=
| success (msg : string)
| error (msg : string).

(** The body of [if submitted:].  The widget values are the arguments:
    [entry_price] is a float input, [tp], [sl] and [pips] are integer
    inputs, [india_time] is the reading of the clock. *)
Definition trade_form_submit (pair trade_type : string) (entry_price : float)
    (tp sl : Z) (result : string) (pips : Z) (reason : string)
    (india_time : datetime) (s : store) : res (store * notice) :=
  if (0 <? tp) && (0 <? sl) && (0 <? entry_price)%float then
    q ← truediv tp sl;
    let rr := py_round q 2 in
    s' ← insert_trade pair trade_type (strftime india_time) entry_price tp sl rr
           (str_or_None result) (int_or_None pips) reason s;
    Ok (s', success "✅ Trade saved successfully!")
  else
    Ok (s, error "❌ TP, SL, and Entry Price must be greater than 0").

(** ** Calendar arithmetic *)

Definition date_compare (a b : date) : comparison :=
  match year a ?= year b with
  | Eq => match month a ?= month b with
          | Eq => day a ?= day b
          | c => c
          end
  | c => c
  end.

Definition datetime_compare (a b : datetime) : comparison :=
  match date_compare (date_of a) (date_of b) with
  | Eq => match (hour a ?= hour b)%N with
          | Eq => match (minute a ?= minute b)%N with
                  | Eq => (second a ?= second b)%N
                  | c => c
                  end
          | c => c
          end
  | c => c
  end.

Definition date_leb (a b : date) : bool :=
  match date_compare a b with Gt => false | _ => true end.

Definition datetime_leb (a b : datetime) : bool :=
  match datetime_compare a b with Gt => false | _ => true end.

(** [pd.to_datetime] of a [date]: midnight of that day. *)
Definition midnight (d : date) : datetime :=
  {| date_of := d; hour := 0; minute := 0; second := 0 |}.

Definition is_leap (y : Z) : bool :=
  (y mod 4 =? 0) && (negb (y mod 100 =? 0) || (y mod 400 =? 0)).

Definition days_in_month (y m : Z) : Z :=
  if m =? 2 then (if is_leap y then 29 else 28)
  else if (m =? 4) || (m =? 6) || (m =? 9) || (m =? 11) then 30
  else 31.

Definition valid_date (d : date) : bool :=
  (1 <=? month d) && (month d <=? 12) &&
  (1 <=? day d) && (day d <=? days_in_month (year d) (month d)).

Definition days_before_year (y : Z) : Z :=
  let y := y - 1 in y * 365 + y / 4 - y / 100 + y / 400.

Definition days_before_month (y m : Z) : Z :=
  nth (Z.to_nat m) [0; 0; 31; 59; 90; 120; 151; 181; 212; 243; 273; 304; 334] 0
  + (if (2 <? m) && is_leap y then 1 else 0).

(** The proleptic Gregorian ordinal of a day; day 1 is 0001-01-01, a Monday. *)
Definition ymd2ord (d : date) : Z :=
  days_before_year (year d) + days_before_month (year d) (month d) + day d.

(** The ordinal of the Monday that starts ISO week 1 of a year: the week
    with the year's first Thursday. *)
Definition isoweek1monday (y : Z) : Z :=
  let firstday := ymd2ord {| year := y; month := 1; day := 1 |} in
  let firstweekday := (firstday + 6) mod 7 in
  let week1monday := firstday - firstweekday in
  if 3 <? firstweekday then week1monday + 7 else week1monday.

(** [.dt.isocalendar().week]: the ISO-8601 week number of a day. *)
Definition isocalendar_week (d : date) : Z :=
  let today := ymd2ord d in
  let week := (today - isoweek1monday (year d)) / 7 in
  if week <? 0 then (today - isoweek1monday (year d - 1)) / 7 + 1
  else if (52 <=? week) && (isoweek1monday (year d + 1) <=? today) then 1
  else week + 1.

(** ** A reference conversion of the [time] column

    [pd.to_datetime] is a parameter of the frame code below.  This instance
    is used to run it: NULL and the empty string are NaT, a text of the
    shape the form writes, [YYYY-MM-DD HH:MM:SS] with a valid day and time
    in the years 1678 to 2261 (the whole years that a nanosecond Timestamp
    holds), is that timestamp, and anything else is refused. *)

Definition digit_value (a : ascii) : option Z :=
  let n := Z.of_nat (nat_of_ascii a) - 48 in
  if (0 <=? n) && (n <=? 9) then Some n else None.

Fixpoint number (cs : list ascii) (acc : Z) : option Z :=
  match cs with
  | [] => Some acc
  | c :: cs' => d ← digit_value c; number cs' (10 * acc + d)
  end.

Definition field (s : string) (i n : nat) : option Z :=
  number (list_ascii_of_string (substring i n s)) 0.

Definition parse_timestamp (s : string) : option datetime :=
  if bool_decide (String.length s = 19%nat ∧ substring 4 1 s = "-" ∧
                  substring 7 1 s = "-" ∧ substring 10 1 s = " " ∧
                  substring 13 1 s = ":" ∧ substring 16 1 s = ":")
  then
    y ← field s 0 4; mo ← field s 5 2; d ← field s 8 2;
    h ← field s 11 2; mi ← field s 14 2; se ← field s 17 2;
    let on := {| year := y; month := mo; day := d |} in
    if valid_date on && (1678 <=? y) && (y <=? 2261) &&
       (h <? 24) && (mi <? 60) && (se <? 60)
    then Some {| date_of := on; hour := Z.to_N h; minute := Z.to_N mi;
                 second := Z.to_N se |}
    else None
  else None.

Definition reference_to_datetime (v : value) : res (option datetime) :=
  match v with
  | Null => Ok None
  | Text s =>
      if decide (s = "") then Ok None
      else match parse_timestamp s with
           | Some t => Ok (Some t)
           | None => Raise (ParserError s)
           end
  | Int n => Raise (ParserError "")
  | Real x => Raise (ParserError "")
  end.

(** ** Equality of values, for [isin] *)

#[global] Instance float_eq_dec : EqDecision float.
Proof.
  intros x y. destruct (PrimFloat.Leibniz.eqb x y) eqn:E.
  - left. by apply FloatAxioms.Leibniz.eqb_spec.
  - right. intros H. apply FloatAxioms.Leibniz.eqb_spec in H. congruence.
Defined.

#[global] Instance value_eq_dec : EqDecision value.
Proof. solve_decision. Defined.

(** ** The filter and the weekly and monthly counts *)

Section Frames.

(** [pd.to_datetime] on one element of a column: a timestamp, NaT ([None]),
    or an exception. *)
Variable to_datetime1 : value -> res (option datetime).

(** [pd.to_datetime] on a column: the first element that is refused raises. *)
Fixpoint to_datetime (vs : list value) : res (list (option datetime)) :=
  match vs with
  | [] => Ok []
  | v :: vs' => t ← to_datetime1 v; ts ← to_datetime vs'; Ok (t :: ts)
  end.

(** The cell of a row under a column label. *)
Definition cell (c : string) (r : row) : value :=
  default Null (r !! c).

(** [df[c]]: the column labelled [c]. *)
Definition getitem (c : string) (df : DataFrame) : res (list value) :=
  if bool_decide (c ∈ df_columns df)
  then Ok (cell c <$> df_rows df)
  else Raise (KeyError c).

Definition isin (vs : list value) (values : list value) : list bool :=
  (fun v => bool_decide (v ∈ values)) <$> vs.

(** [col >= t]: a comparison with NaT is false. *)
Definition ge (ts : list (option datetime)) (t : datetime) : list bool :=
  (fun x => match x with
            | Some x => datetime_leb t x
            | None => false
            end) <$> ts.

(** [df[mask]]: the rows whose mask entry is true, in order. *)
Fixpoint boolean_index {A : Type} (xs : list A) (mask : list bool) : list A :=
  match xs, mask with
  | x :: xs', b :: mask' =>
      if b then x :: boolean_index xs' mask' else boolean_index xs' mask'
  | _, _ => []
  end.

(** The three-way mask and the selection of lines 111 to 113. *)
Definition filtered (all_trades : DataFrame) (pair_filter type_filter : list value)
    (date_filter : date) : res DataFrame :=
  pair ← getitem "pair" all_trades;
  trade_type ← getitem "trade_type" all_trades;
  time_col ← getitem "time" all_trades;
  time ← to_datetime time_col;
  let mask := zip_with andb (zip_with andb (isin pair pair_filter)
                                           (isin trade_type type_filter))
                            (ge time (midnight date_filter)) in
  Ok {| df_columns := df_columns all_trades;
        df_rows := boolean_index (df_rows all_trades) mask |}.

(** [df.empty]: no rows or no columns. *)
Definition df_empty (df : DataFrame) : bool :=
  match df_rows df, df_columns df with
  | [], _ | _, [] => true
  | _, _ => false
  end.

(** [groupby(key).size()]: the number of rows per key; a row whose key is
    missing belongs to no group. *)
Definition groupby_size (keys : list (option Z)) : gmap Z nat :=
  foldr (fun k m => match k with
                    | Some k => <[k := S (default 0%nat (m !! k))]> m
                    | None => m
                    end) ∅ keys.

(** [.dt.isocalendar().week] and [.dt.month] on one element: missing
    for NaT. *)
Definition week_key (x : option datetime) : option Z :=
  match x with
  | Some t => Some (isocalendar_week (date_of t))
  | None => None
  end.

Definition month_key (x : option datetime) : option Z :=
  match x with
  | Some t => Some (month (date_of t))
  | None => None
  end.

(** [all_trades["week"]] and [groupby("week").size()]. *)
Definition weekly (time : list (option datetime)) : gmap Z nat :=
  groupby_size (map week_key time).

(** [all_trades["month"]] and [groupby("month").size()]. *)
Definition monthly (time : list (option datetime)) : gmap Z nat :=
  groupby_size (map month_key time).

(** The block under [if not all_trades.empty:]: the weekly and the monthly
    counts, or [None] for the message that there is no data.  The columns
    [time], [week] and [month] that the block assigns in the frame are the
    local values here. *)
Definition stats (all_trades : DataFrame) : res (option (gmap Z nat * gmap Z nat)) :=
  if df_empty all_trades then Ok None
  else
    time_col ← getitem "time" all_trades;
    time ← to_datetime time_col;
    Ok (Some (weekly time, monthly time)).

(** *** The same, row by row: the reading that the statements below compare
    the column code with *)

(** The timestamp of a row: [None] when its [time] is NaT or is refused. *)
Definition stamp (r : row) : option datetime :=
  match to_datetime1 (cell "time" r) with
  | Ok x => x
  | Raise _ => None
  end.

(** The row's day is the given day or a later one. *)
Definition on_or_after (d : date) (r : row) : bool :=
  match stamp r with
  | Some t => date_leb d (date_of t)
  | None => false
  end.

Definition keeps (pair_set type_set : list value) (min_date : date)
    (r : row) : bool :=
  bool_decide (cell "pair" r ∈ pair_set) &&
  bool_decide (cell "trade_type" r ∈ type_set) &&
  on_or_after min_date r.

Definition week_of (r : row) : option Z := week_key (stamp r).

Definition month_of (r : row) : option Z := month_key (stamp r).

(** The row's [time] converts to a timestamp, of a day of the calendar. *)
Definition parsable (r : row) : bool :=
  match to_datetime1 (cell "time" r) with
  | Ok (Some t) => valid_date (date_of t)
  | _ => false
  end.

End Frames.

(** ** The page, one interaction at a time

    Streamlit runs the whole script for every interaction: the set-up
    first, then the handler of the button that was pressed.  The listing,
    the filter and the counts in between do not write to the store and are
    left out here, so [run] allows every change of the store that the page
    can make. *)

Inductive event :=
| Submit (pair trade_type : string) (entry_price : float) (tp sl : Z)
         (result : string) (pips : Z) (reason : string) (india_time : datetime)
| Update (update_id : Z) (result_update : string) (pips_update : Z)
| Delete (delete_id : Z).

Definition run (e : event) (s : store) : res store :=
  s ← initialize s;
  match e with
  | Submit symbol trade_type entry_price tp sl result pips reason india_time =>
      r ← trade_form_submit symbol trade_type entry_price tp sl result pips reason
            india_time s;
      Ok r.1
  | Update update_id result_update pips_update =>
      update_result_pips update_id result_update pips_update s
  | Delete delete_id => delete_trade delete_id s
  end.

(** The store after a sequence of interactions, the first one first. *)
Fixpoint runs (es : list event) (s : store) : res store :=
  match es with
  | [] => Ok s
  | e :: es' => s' ← run e s; runs es' s'
  end.

(** ** Predicates of the statements *)

(** The [rr] of a row is [round(tp / sl, 2)] for the [tp] and [sl] of the row. *)
Definition rr_consistent (r : row) : Prop :=
  exists tp sl q,
    r !! "tp" = Some (Int tp) /\ r !! "sl" = Some (Int sl) /\
    truediv tp sl = Ok q /\ r !! "rr" = Some (Real (py_round q 2)).

(** Every row of the store has the property. *)
Definition rows_all (P : row -> Prop) (s : store) : Prop :=
  match s with
  | Some t => Forall P (rows t)
  | None => True
  end.

(** A reading of the clock: a day of the calendar, in the years that a
    Timestamp holds, and a time of the day. *)
Definition valid_datetime (t : datetime) : bool :=
  valid_date (date_of t) && (1678 <=? year (date_of t)) &&
  (year (date_of t) <=? 2261) &&
  (hour t <? 24)%N && (minute t <? 60)%N && (second t <? 60)%N.

Definition clock_ok (e : event) : bool :=
  match e with
  | Submit _ _ _ _ _ _ _ _ india_time => valid_datetime india_time
  | _ => true
  end.

(** The columns of a store that the set-up has brought up to date. *)
Definition journal_columns : list string :=
  [ "id"; "pair"; "trade_type"; "time"; "tp"; "sl"; "rr"; "reason";
    "entry_price"; "result"; "pips" ].

Definition migrated (t : table) : bool :=
  forallb (fun c => has_column c t) journal_columns.

(** The count a [groupby(...).size()] result holds for a key. *)
Definition count_of (m : gmap Z nat) (k : Z) : nat := default 0%nat (m !! k).

(** The sum of the counts of a [groupby(...).size()] result. *)
Definition total (m : gmap Z nat) : nat :=
  map_fold (fun _ n acc => (n + acc)%nat) 0%nat m.

(** ** Sample data, for running the definitions *)

(** The table of a new file after the set-up. *)
Definition fresh_table : table :=
  {| columns := base_columns ++
       [("entry_price", "REAL"); ("result", "TEXT"); ("pips", "INTEGER")];
     rows := [];
     seq := 0 |}.

Definition sample_time : datetime :=
  {| date_of := {| year := 2025; month := 3; day := 4 |};
     hour := 17; minute := 5; second := 9 |}.

Definition sample_row (id : Z) (pair trade_type time : string)
    (entry_price : float) (tp sl : Z) (rr : float) (result pips : value)
    (reason : string) : row :=
  list_to_map
    [ ("id", Int id); ("pair", Text pair); ("trade_type", Text trade_type);
      ("time", Text time); ("tp", Int tp); ("sl", Int sl); ("rr", Real rr);
      ("reason", Text reason); ("entry_price", Real entry_price);
      ("result", result); ("pips", pips) ].

(** A journal of two trades; the second one has its outcome filled in. *)
Definition sample_table : table :=
  {| columns := columns fresh_table;
     rows := [ sample_row 1 "EURUSD" "Buy" "2025-03-04 17:05:09" 1.125 50 25 2
                 Null Null "breakout";
               sample_row 2 "USDJPY" "Sell" "2025-03-12 09:30:00" 150.5 30 20 1.5
                 (Text "Win") (Int 30) "range top" ];
     seq := 2 |}.

Definition jan_1_2025 : date := {| year := 2025; month := 1; day := 1 |}.

(** The listing of [sample_table]. *)
Definition sample_frame : DataFrame :=
  {| df_columns := column_names sample_table; df_rows := rows sample_table |}.

(** The same listing after the file was edited by hand: the time of the
    third trade is not a timestamp. *)
Definition edited_frame : DataFrame :=
  {| df_columns := column_names sample_table;
     df_rows := rows sample_table ++
       [ sample_row 3 "GBPUSD" "Buy" "garbage" 1.25 20 10 2 Null Null "news" ] |}.

(** The listing with a fourth trade whose time is NULL. *)
Definition frame_with_null_time : DataFrame :=
  {| df_columns := column_names sample_table;
     df_rows := rows sample_table ++
       [ <["time" := Null]>
           (sample_row 4 "XAUUSD" "Sell" "" 2400.5 90 30 3 Null Null "fade") ] |}.

(** ** The rest of the page

    The script from top to bottom, as one run of it executes: the set-up,
    the theme button, the form, the listing, the filter, the table with its
    update and delete, and the counts.  The widgets are the inputs of a run;
    what a run draws is kept as far as the script computes it (the messages,
    the filtered frame, the styles of the [trade_type] column, the counts).
    The download button is left out: [to_csv] formats floats as text, which
    is not modelled, and the button changes nothing in the store or in the
    rest of the run. *)

(** [color_trade_type], the style of a cell of the [trade_type] column. *)
Definition color_trade_type (val : value) : string :=
  let color := if decide (val = Text "Buy") then "green" else "red" in
  "color: " +:+ color +:+ "; font-weight: bold".

(** [Series.unique()]: the values of a column in the order in which they
    first appear. *)
Fixpoint unique_from (seen vs : list value) : list value :=
  match vs with
  | [] => []
  | v :: vs' =>
      if decide (v ∈ seen) then unique_from seen vs'
      else v :: unique_from (v :: seen) vs'
  end.

Definition unique (vs : list value) : list value := unique_from [] vs.

(** The theme block.  [dark_mode] is the entry of that name in
    [st.session_state], [None] while the session has not set it.  The block
    returns the entry, the theme of this run and whether the button asked
    for a rerun; the theme is read before the button flips the entry. *)
Definition toggle_theme (clicked : bool) (dark_mode : option bool)
    : bool * string * bool :=
  let dark_mode := match dark_mode with Some b => b | None => true end in
  let theme := if dark_mode then "dark" else "light" in
  if clicked then (negb dark_mode, theme, true) else (dark_mode, theme, false).

(** The button whose press started a run of the script: each run has at
    most one. *)
Inductive button :=
| ToggleTheme
| SaveTrade
| UpdateTrade
| DeleteTrade.

#[global] Instance button_eq_dec : EqDecision button.
Proof. solve_decision. Defined.

(** The values of the widgets in a run. *)
Module widget.
Record t := {
  pair : string;
  trade_type : string;
  entry_price : float;
  tp : Z;
  sl : Z;
  result : string;
  pips : Z;
  reason : string;
  pair_filter : list value;
  type_filter : list value;
  date_filter : date;
  update_id : Z;
  result_update : string;
  pips_update : Z;
  delete_id : Z
}.
End widget.

(** What a run writes on the page, besides the widgets. *)
Inductive message :=
| Notice (n : notice)
| Warning (msg : string)
| Info (msg : string).

Record view := {
  v_messages : list message;
  v_table : option DataFrame;
  v_styles : list string;
  v_charts : option (gmap Z nat * gmap Z nat)
}.

(** How a run ends: [st.rerun()], with the messages written before it, an
    exception, or the page drawn to its end. *)
Inductive outcome :=
| Rerun (said : list message)
| Crashed (e : exn)
| Rendered (v : view).

(** The end of the script, from the download button on: the counts of all
    trades, or the message that there are none. *)
Definition page_end (to_datetime1 : value -> res (option datetime))
    (said : list message) (shown : option DataFrame)
    (styles : list string) (all_trades : DataFrame) : outcome :=
  match stats to_datetime1 all_trades with
  | Raise e => Crashed e
  | Ok None =>
      Rendered {| v_messages := said ++ [Info "No data to show stats."];
                  v_table := shown; v_styles := styles; v_charts := None |}
  | Ok (Some c) =>
      Rendered {| v_messages := said; v_table := shown;
                  v_styles := styles; v_charts := Some c |}
  end.

(** The script from the filters on: the listing, the filter, the table with
    the update and the delete under it, and the counts.  [said] is what the
    form has written above. *)
Definition page_from_filters (to_datetime1 : value -> res (option datetime))
    (pressed : option button) (w : widget.t) (dark : bool)
    (said : list message) (s : store) : store * option bool * outcome :=
  match get_all_trades s with
  | Raise e => (s, Some dark, Crashed e)
  | Ok all_trades =>
  match filtered to_datetime1 all_trades (widget.pair_filter w)
          (widget.type_filter w) (widget.date_filter w) with
  | Raise e => (s, Some dark, Crashed e)
  | Ok filtered =>
  if df_empty filtered then
    (s, Some dark,
     page_end to_datetime1
       (said ++ [Info "No trades found for selected filters."]) None []
       all_trades)
  else
    let styles := color_trade_type <$> (cell "trade_type" <$> df_rows filtered) in
    match pressed with
    | Some UpdateTrade =>
        match update_result_pips (widget.update_id w) (widget.result_update w)
                (widget.pips_update w) s with
        | Raise e => (s, Some dark, Crashed e)
        | Ok s' => (s', Some dark, Rerun (said ++ [Notice (success "Trade updated!")]))
        end
    | Some DeleteTrade =>
        match delete_trade (widget.delete_id w) s with
        | Raise e => (s, Some dark, Crashed e)
        | Ok s' => (s', Some dark, Rerun (said ++ [Warning "Trade deleted!"]))
        end
    | _ =>
        (s, Some dark, page_end to_datetime1 said (Some filtered) styles all_trades)
    end
  end end.

(** One run of the script, top to bottom.  It returns the store and the
    theme entry as the run leaves them: what a statement has committed stays
    committed when a later line raises or asks for a rerun.  The script
    assigns [theme] and does not read it again. *)
Definition page (to_datetime1 : value -> res (option datetime))
    (pressed : option button) (w : widget.t) (india_time : datetime)
    (dark_mode : option bool) (s : store) : store * option bool * outcome :=
  match initialize s with
  | Raise e => (s, dark_mode, Crashed e)
  | Ok s =>
  let '(dark, theme, rerun) :=
    toggle_theme (bool_decide (pressed = Some ToggleTheme)) dark_mode in
  if rerun then (s, Some dark, Rerun []) else
  match (if bool_decide (pressed = Some SaveTrade)
         then r ← trade_form_submit (widget.pair w) (widget.trade_type w)
                    (widget.entry_price w) (widget.tp w) (widget.sl w)
                    (widget.result w) (widget.pips w) (widget.reason w)
                    india_time s;
              Ok (r.1, [Notice r.2])
         else Ok (s, [])) with
  | Raise e => (s, Some dark, Crashed e)
  | Ok (s, said) => page_from_filters to_datetime1 pressed w dark said s
  end end.

(** The runs of a session, one after the other: each has the button that
    started it, the values of the widgets and the reading of the clock, and
    finds the store and the theme entry as the run before left them.  The
    result is how each run ended, and the store at the end. *)
Fixpoint session (to_datetime1 : value -> res (option datetime))
    (steps : list (option button * widget.t * datetime))
    (dark_mode : option bool) (s : store) : list outcome * store :=
  match steps with
  | [] => ([], s)
  | (pressed, w, india_time) :: steps' =>
      let '(s', dark_mode', o) := page to_datetime1 pressed w india_time dark_mode s in
      let '(os, final) := session to_datetime1 steps' dark_mode' s' in
      (o :: os, final)
  end.

(** The [dark_mode] entry of the session after a number of presses of the
    theme button, each one a run of its own. *)
Definition dark_mode_after (presses : nat) (dark_mode : option bool) : option bool :=
  Nat.iter presses (fun d => Some (toggle_theme true d).1.1) dark_mode.

(** [weekday()]: the day of the week of a day, Monday being 0. *)
Definition weekday (d : date) : Z := (ymd2ord d + 6) mod 7.

(** ** Predicates of the further statements *)

(** The rowids of a table are in order: every row has one, each is larger
    than the one before, and none is larger than the rowid counter. *)
Fixpoint ids_above (low : Z) (rs : list row) : Prop :=
  match rs with
  | [] => True
  | r :: rs' => exists i, rowid r = Some i /\ low < i /\ ids_above i rs'
  end.

Definition ids_ordered (t : table) : Prop :=
  ids_above 0 (rows t) /\ Forall (fun r => exists i, rowid r = Some i /\ i <= seq t) (rows t).

(** A store as the page keeps it: no table yet, or a table with all its
    columns and its rowids in order. *)
Definition journal_ok (s : store) : Prop :=
  match s with
  | Some t => migrated t = true /\ 0 <= seq t /\ ids_ordered t
  | None => True
  end.

(** The rowids of the rows of a store, in the order of the listing. *)
Definition ids (s : store) : list Z :=
  match s with
  | Some t => omap rowid (rows t)
  | None => []
  end.

Definition counter (s : store) : Z :=
  match s with
  | Some t => seq t
  | None => 0
  end.

(** The conversion accepts the [time] of a row, as a timestamp or as NaT. *)
Definition converts (to_datetime1 : value -> res (option datetime)) (r : row) : Prop :=
  exists x, to_datetime1 (cell "time" r) = Ok x.

(** A journal in good order, with at most [n] rowids handed out: the table
    and its rowids as the page keeps them, the [rr] of every row computed
    from its [tp] and [sl], and the [time] of every row accepted by the
    conversion. *)
Definition journal_sound (to_datetime1 : value -> res (option datetime))
    (n : Z) (s : store) : Prop :=
  journal_ok s /\ rows_all rr_consistent s /\
  rows_all (converts to_datetime1) s /\
  counter s <= n.

(** A journal of the first version of the schema, with one trade. *)
Definition first_version_table : table :=
  {| columns := base_columns;
     rows := [list_to_map [("id", Int 1); ("pair", Text "EURUSD");
                           ("trade_type", Text "Buy");
                           ("time", Text "2024-11-05 10:00:00");
                           ("tp", Int 40); ("sl", Int 20); ("rr", Real 2);
                           ("reason", Text "trend")]];
     seq := 1 |}.

(** The interactions that write [sample_table] to a new file. *)
Definition sample_session : list event :=
  [ Submit "EURUSD" "Buy" 1.125 50 25 "" 0 "breakout" sample_time;
    Submit "USDJPY" "Sell" 150.5 30 20 "" 0 "range top"
      {| date_of := {| year := 2025; month := 3; day := 12 |};
         hour := 9; minute := 30; second := 0 |};
    Update 2 "Win" 30 ].

(** [sample_table] without its first trade. *)
Definition second_trade_only : table :=
  {| columns := columns sample_table;
     rows := drop 1 (rows sample_table);
     seq := 2 |}.

(** The listing of [sample_table], its first trade only. *)
Definition first_trade_frame : DataFrame :=
  {| df_columns := column_names sample_table; df_rows := take 1 (rows sample_table) |}.

(** [sample_table] after the outcome of its first trade was filled in. *)
Definition updated_table : table :=
  {| columns := columns sample_table;
     rows := (fun r => if has_id 1 r then set_result_pips "Loss" (-15) r else r)
             <$> rows sample_table;
     seq := seq sample_table |}.

(** A sample of widget values. *)
Definition sample_widgets : widget.t :=
  {| widget.pair := "GBPUSD"; widget.trade_type := "Buy";
     widget.entry_price := 1.25; widget.tp := 40; widget.sl := 16;
     widget.result := ""; widget.pips := 0; widget.reason := "news";
     widget.pair_filter := [Text "EURUSD"; Text "USDJPY"];
     widget.type_filter := [Text "Buy"; Text "Sell"];
     widget.date_filter := jan_1_2025;
     widget.update_id := 2; widget.result_update := "Loss";
     widget.pips_update := -20; widget.delete_id := 1 |}.

(** The row that a submit of [sample_widgets] at [sample_time] saves under
    a rowid. *)
Definition saved_row (id : Z) : row :=
  new_row (column_names fresh_table) id
    [ ("pair", Text "GBPUSD"); ("trade_type", Text "Buy");
      ("time", Text "2025-03-04 17:05:09"); ("entry_price", Real 1.25);
      ("tp", Int 40); ("sl", Int 16); ("rr", Real 2.5);
      ("result", Null); ("pips", Null); ("reason", Text "news") ].

(** The journal behind [edited_frame]. *)
Definition edited_table : table :=
  {| columns := columns sample_table; rows := df_rows edited_frame; seq := 3 |}.

(** [sample_widgets] with no pair selected. *)
Definition no_pair_widgets : widget.t :=
  {| widget.pair := "GBPUSD"; widget.trade_type := "Buy";
     widget.entry_price := 1.25; widget.tp := 40; widget.sl := 16;
     widget.result := ""; widget.pips := 0; widget.reason := "news";
     widget.pair_filter := [];
     widget.type_filter := [Text "Buy"; Text "Sell"];
     widget.date_filter := jan_1_2025;
     widget.update_id := 2; widget.result_update := "Loss";
     widget.pips_update := -20; widget.delete_id := 1 |}.

(** A session: a trade is saved, looked at, updated and deleted. *)
Definition sample_steps : list (option button * widget.t * datetime) :=
  [ (Some SaveTrade, sample_widgets, sample_time);
    (None, sample_widgets, sample_time);
    (Some ToggleTheme, sample_widgets, sample_time);
    (Some UpdateTrade, sample_widgets, sample_time);
    (Some DeleteTrade, sample_widgets, sample_time) ].

(** What the page shows for [sample_table] under [sample_widgets]. *)
Definition sample_view : view :=
  {| v_messages := [];
     v_table := Some sample_frame;
     v_styles := ["color: green; font-weight: bold"; "color: red; font-weight: bold"];
     v_charts := Some (<[10 := 1%nat]> (<[11 := 1%nat]> ∅), <[3 := 2%nat]> ∅) |}.

(** * Properties *)

(** ** The store functions *)

(** Membership in a list that is written out. *)
Ltac in_list := repeat first [apply list_elem_of_here | apply list_elem_of_further].

Lemma has_column_true c t : has_column c t = true <-> c ∈ column_names t.
Proof. unfold has_column. by rewrite bool_decide_eq_true. Qed.

Lemma migrated_columns t c :
  migrated t = true -> c ∈ journal_columns -> c ∈ column_names t.
Proof.
  unfold migrated. rewrite forallb_forall. intros H Hc.
  apply has_column_true, H. by apply list_elem_of_In.
Qed.

Lemma missing_column_none names t :
  Forall (fun c => c ∈ column_names t) names -> missing_column names t = None.
Proof.
  unfold missing_column. induction 1 as [|c names Hc _ IH]; [done|].
  rewrite filter_cons. destruct (decide (has_column c t = false)) as [E|_]; [|done].
  apply has_column_true in Hc. congruence.
Qed.

Lemma missing_column_migrated names t :
  migrated t = true -> Forall (fun c => c ∈ journal_columns) names ->
  missing_column names t = None.
Proof.
  intros Hm Hsub. apply missing_column_none.
  eapply Forall_impl; [exact Hsub|]. intros c. apply migrated_columns, Hm.
Qed.

Lemma new_row_lookup cols new_id named c :
  new_row cols new_id named !! c =
    if decide (c ∈ cols)
    then Some (if decide (c = "id") then Int new_id else bound_value named c)
    else None.
Proof.
  unfold new_row. induction cols as [|k cols IH]; simpl.
  - by rewrite lookup_empty.
  - destruct (decide (k = c)) as [->|Hne].
    + rewrite lookup_insert_eq.
      destruct (decide (c ∈ c :: cols)) as [_|Hn]; [done|].
      destruct Hn. apply list_elem_of_here.
    + rewrite lookup_insert_ne, IH by done.
      destruct (decide (c ∈ cols)) as [Hin|Hnin],
               (decide (c ∈ k :: cols)) as [Hin'|Hnin']; try done.
      * destruct Hnin'. by apply list_elem_of_further.
      * apply elem_of_cons in Hin' as [->|Hin']; done.
Qed.

Lemma new_row_lookup_in cols new_id named c :
  c ∈ cols -> c ≠ "id" -> new_row cols new_id named !! c = Some (bound_value named c).
Proof.
  intros Hin Hne. rewrite new_row_lookup.
  destruct (decide (c ∈ cols)); [|done]. by destruct (decide (c = "id")).
Qed.

Lemma new_row_rowid cols new_id named :
  "id" ∈ cols -> rowid (new_row cols new_id named) = Some new_id.
Proof.
  intros H. unfold rowid. rewrite new_row_lookup.
  by destruct (decide ("id" ∈ cols)).
Qed.

(** What [insert_trade] stores on a migrated table with a rowid to spare:
    one row more, at the end, holding the arguments as they were passed. *)
Lemma insert_trade_ok pair trade_type time entry_price tp sl rr result pips reason t :
  migrated t = true ->
  Z.max (seq t) (max_rowid (rows t)) < max_int64 ->
  exists r,
    insert_trade pair trade_type time entry_price tp sl rr result pips reason (Some t)
      = Ok (Some {| columns := columns t; rows := rows t ++ [r];
                    seq := Z.max (seq t) (max_rowid (rows t)) + 1 |}) /\
    rowid r = Some (Z.max (seq t) (max_rowid (rows t)) + 1) /\
    r !! "pair" = Some (Text pair) /\
    r !! "trade_type" = Some (Text trade_type) /\
    r !! "time" = Some (Text time) /\
    r !! "entry_price" = Some (Real entry_price) /\
    r !! "tp" = Some (Int tp) /\
    r !! "sl" = Some (Int sl) /\
    r !! "rr" = Some (Real rr) /\
    r !! "result" = Some (opt_text result) /\
    r !! "pips" = Some (opt_int pips) /\
    r !! "reason" = Some (Text reason).
Proof.
  intros Hm Hid. unfold insert_trade.
  rewrite (missing_column_migrated _ _ Hm) by (repeat constructor; in_list).
  destruct (max_int64 <=? _) eqn:E; [apply Z.leb_le in E; lia|].
  eexists. split; [reflexivity|].
  assert (Hin : forall c, c ∈ journal_columns -> c ∈ column_names t)
    by (intros c; apply migrated_columns, Hm).
  split; [apply new_row_rowid, Hin; in_list|].
  repeat split; (rewrite new_row_lookup_in; [done | apply Hin; in_list | done]).
Qed.

Lemma table_eta t :
  {| columns := columns t; rows := rows t; seq := seq t |} = t.
Proof. by destruct t. Qed.

Lemma set_result_pips_lookup result pips r c :
  set_result_pips result pips r !! c =
    if decide (c = "result") then Some (Text result)
    else if decide (c = "pips") then Some (Int pips)
    else r !! c.
Proof.
  unfold set_result_pips.
  destruct (decide (c = "result")) as [->|H1]; [by rewrite lookup_insert_eq|].
  rewrite lookup_insert_ne by done.
  destruct (decide (c = "pips")) as [->|H2]; [by rewrite lookup_insert_eq|].
  by rewrite lookup_insert_ne.
Qed.

Lemma update_result_pips_ok trade_id result pips t :
  migrated t = true ->
  update_result_pips trade_id result pips (Some t)
  = Ok (Some {| columns := columns t;
                rows := (fun r => if has_id trade_id r
                                  then set_result_pips result pips r
                                  else r) <$> rows t;
                seq := seq t |}).
Proof.
  intros Hm. unfold update_result_pips.
  by rewrite (missing_column_migrated _ _ Hm) by (repeat constructor; in_list).
Qed.

Lemma delete_trade_ok trade_id t :
  migrated t = true ->
  delete_trade trade_id (Some t)
  = Ok (Some {| columns := columns t;
                rows := filter (fun r => has_id trade_id r = false) (rows t);
                seq := seq t |}).
Proof.
  intros Hm. unfold delete_trade.
  by rewrite (missing_column_migrated _ _ Hm) by (repeat constructor; in_list).
Qed.

(** ** The entry form *)

Lemma float_le_zero_not_pos (x : float) :
  (x <=? 0)%float = true -> (0 <? x)%float = false.
Proof.
  rewrite leb_spec, ltb_spec.
  change (Prim2SF 0) with (S754_zero false).
  by destruct (Prim2SF x) as [[]|[]| |[] m e].
Qed.

Lemma truediv_ok (a b : Z) :
  b ≠ 0 -> exists q, truediv a b = Ok q.
Proof.
  intros Hb. unfold truediv. destruct (b =? 0) eqn:E; [|by eexists].
  apply Z.eqb_eq in E. done.
Qed.

(** What a valid submit does on a migrated table with a rowid to spare:
    it saves one row, built from the widget values, and reports success. *)
Lemma trade_form_submit_ok pair trade_type entry_price tp sl result pips reason
    india_time t :
  migrated t = true ->
  Z.max (seq t) (max_rowid (rows t)) < max_int64 ->
  0 < tp -> 0 < sl -> (0 <? entry_price)%float = true ->
  exists q r t',
    truediv tp sl = Ok q /\
    insert_trade pair trade_type (strftime india_time) entry_price tp sl
      (py_round q 2) (str_or_None result) (int_or_None pips) reason (Some t)
      = Ok (Some t') /\
    trade_form_submit pair trade_type entry_price tp sl result pips reason
      india_time (Some t) = Ok (Some t', success "✅ Trade saved successfully!") /\
    columns t' = columns t /\
    rows t' = rows t ++ [r] /\
    r !! "time" = Some (Text (strftime india_time)) /\
    r !! "tp" = Some (Int tp) /\
    r !! "sl" = Some (Int sl) /\
    r !! "rr" = Some (Real (py_round q 2)) /\
    r !! "result" = Some (opt_text (str_or_None result)) /\
    r !! "pips" = Some (opt_int (int_or_None pips)).
Proof.
  intros Hm Hid Htp Hsl Hep.
  destruct (truediv_ok tp sl) as [q Hq]; [lia|].
  destruct (insert_trade_ok pair trade_type (strftime india_time) entry_price tp sl
              (py_round q 2) (str_or_None result) (int_or_None pips) reason t Hm Hid)
    as (r & Hins & _ & _ & _ & Htime & _ & Hrtp & Hrsl & Hrr & Hres & Hpips & _).
  exists q, r. eexists. split; [done|]. split; [exact Hins|].
  split; [|by repeat split].
  unfold trade_form_submit.
  apply Z.ltb_lt in Htp, Hsl. rewrite Htp, Hsl, Hep, Hq.
  cbn [andb mbind res_bind]. by rewrite Hins.
Qed.

(** C1: a submit with positive [tp], [sl] and [entry_price] saves one row
    whose [rr] is [round(tp / sl, 2)], computed by the handler from the [tp]
    and [sl] it stores next to it; the form has no [rr] input. *)
Theorem submit_stores_rounded_rr pair trade_type entry_price tp sl result pips
    reason india_time t :
  migrated t = true ->
  Z.max (seq t) (max_rowid (rows t)) < max_int64 ->
  0 < tp -> 0 < sl -> (0 <? entry_price)%float = true ->
  exists q r t',
    truediv tp sl = Ok q /\
    trade_form_submit pair trade_type entry_price tp sl result pips reason
      india_time (Some t) = Ok (Some t', success "✅ Trade saved successfully!") /\
    rows t' = rows t ++ [r] /\
    r !! "tp" = Some (Int tp) /\
    r !! "sl" = Some (Int sl) /\
    r !! "rr" = Some (Real (py_round q 2)).
Proof.
  intros Hm Hid Htp Hsl Hep.
  destruct (trade_form_submit_ok pair trade_type entry_price tp sl result pips
              reason india_time t Hm Hid Htp Hsl Hep)
    as (q & r & t' & Hq & _ & Hsub & _ & Hrows & _ & Hrtp & Hrsl & Hrr & _).
  by exists q, r, t'.
Qed.

Lemma submit_stores_rounded_rr_witness :
  exists q r t',
    truediv 50 25 = Ok q /\
    trade_form_submit "EURUSD" "Buy" 1.125 50 25 "" 0 "breakout"
      sample_time (Some fresh_table)
      = Ok (Some t', success "✅ Trade saved successfully!") /\
    rows t' = rows fresh_table ++ [r] /\
    r !! "tp" = Some (Int 50) /\
    r !! "sl" = Some (Int 25) /\
    r !! "rr" = Some (Real (py_round q 2)).
Proof.
  apply submit_stores_rounded_rr;
    [reflexivity | reflexivity | lia | lia | reflexivity].
Defined.

(** The scenario of the specification: [tp = 50] and [sl = 25] give
    [rr = 2.0], in the first row of a new journal. *)
Example submit_50_25 :
  (s ← trade_form_submit "EURUSD" "Buy" 1.125 50 25 "" 0 "breakout"
         sample_time (Some fresh_table);
   df ← get_all_trades s.1;
   Ok ((fun r => (cell "id" r, cell "time" r, cell "rr" r, cell "pips" r))
         <$> df_rows df))
  = Ok [(Int 1, Text "2025-03-04 17:05:09", Real 2, Null)].
Proof. vm_compute. reflexivity. Qed.

(** Division and rounding are those of binary64: [round(1 / 3, 2)] is the
    float nearest to 0.33 and [round(1 / 200, 2)] is the one nearest to 0.01. *)
Example rr_1_3 :
  (q ← truediv 1 3; Ok (py_round q 2)) = Ok 0x1.51eb851eb851fp-2%float.
Proof. vm_compute. reflexivity. Qed.

Example rr_1_200 :
  (q ← truediv 1 200; Ok (py_round q 2)) = Ok 0x1.47ae147ae147bp-7%float.
Proof. vm_compute. reflexivity. Qed.

(** [insert_trade] itself stores the [rr] it is passed; the handler is its
    only caller. *)
Lemma insert_trade_stores_rr pair trade_type time entry_price tp sl rr result pips
    reason t t' :
  insert_trade pair trade_type time entry_price tp sl rr result pips reason (Some t)
    = Ok (Some t') ->
  "rr" ∈ column_names t ->
  exists r, rows t' = rows t ++ [r] /\ r !! "rr" = Some (Real rr).
Proof.
  unfold insert_trade. intros H Hin.
  destruct (missing_column _ t); [done|].
  destruct (max_int64 <=? _); [done|].
  injection H as <-. eexists. split; [done|]. by rewrite new_row_lookup_in.
Qed.

(** C2: a submit in which [tp], [sl] or [entry_price] is not positive
    leaves the store as it was and reports the error; nothing is written. *)
Theorem submit_rejects_nonpositive pair trade_type entry_price tp sl result pips
    reason india_time s :
  tp <= 0 \/ sl <= 0 \/ (entry_price <=? 0)%float = true ->
  trade_form_submit pair trade_type entry_price tp sl result pips reason
    india_time s
  = Ok (s, error "❌ TP, SL, and Entry Price must be greater than 0").
Proof.
  intros H. unfold trade_form_submit.
  destruct H as [H|[H|H]].
  - apply Z.ltb_ge in H. by rewrite H.
  - apply Z.ltb_ge in H. rewrite H. by rewrite andb_false_r.
  - apply float_le_zero_not_pos in H. rewrite H. by rewrite andb_false_r.
Qed.

Lemma submit_rejects_nonpositive_witness :
  trade_form_submit "EURUSD" "Buy" 1.125 50 0 "Win" 12 "breakout"
    sample_time (Some fresh_table)
  = Ok (Some fresh_table, error "❌ TP, SL, and Entry Price must be greater than 0").
Proof.
  apply submit_rejects_nonpositive. right. left. lia.
Defined.

(** A float that is not a number is not positive either: the form rejects
    it as well. *)
Example submit_rejects_nan :
  trade_form_submit "EURUSD" "Buy" nan 50 25 "" 0 "" sample_time (Some fresh_table)
  = Ok (Some fresh_table, error "❌ TP, SL, and Entry Price must be greater than 0").
Proof. vm_compute. reflexivity. Qed.

(** C10: on a submit that passes the check, an empty [result] is stored as
    NULL and a [pips] of 0 is stored as NULL, as [insert_trade] called with
    [None] stores them; any other value is stored as it is. *)
Theorem submit_stores_falsy_as_null pair trade_type entry_price tp sl result pips
    reason india_time t :
  migrated t = true ->
  Z.max (seq t) (max_rowid (rows t)) < max_int64 ->
  0 < tp -> 0 < sl -> (0 <? entry_price)%float = true ->
  exists q r t',
    truediv tp sl = Ok q /\
    trade_form_submit pair trade_type entry_price tp sl result pips reason
      india_time (Some t) = Ok (Some t', success "✅ Trade saved successfully!") /\
    rows t' = rows t ++ [r] /\
    r !! "result" = Some (if decide (result = "") then Null else Text result) /\
    r !! "pips" = Some (if pips =? 0 then Null else Int pips) /\
    insert_trade pair trade_type (strftime india_time) entry_price tp sl
      (py_round q 2) (if decide (result = "") then None else Some result)
      (if pips =? 0 then None else Some pips) reason (Some t) = Ok (Some t').
Proof.
  intros Hm Hid Htp Hsl Hep.
  destruct (trade_form_submit_ok pair trade_type entry_price tp sl result pips
              reason india_time t Hm Hid Htp Hsl Hep)
    as (q & r & t' & Hq & Hins & Hsub & _ & Hrows & _ & _ & _ & _ & Hres & Hpips).
  exists q, r, t'. repeat split; try done.
  - rewrite Hres. unfold str_or_None. by destruct (decide (result = "")).
  - rewrite Hpips. unfold int_or_None. by destruct (pips =? 0).
Qed.

Lemma submit_stores_falsy_as_null_witness :
  exists q r t',
    truediv 50 25 = Ok q /\
    trade_form_submit "EURUSD" "Buy" 1.125 50 25 "" 0 "breakout"
      sample_time (Some fresh_table)
      = Ok (Some t', success "✅ Trade saved successfully!") /\
    rows t' = rows fresh_table ++ [r] /\
    r !! "result" = Some Null /\
    r !! "pips" = Some Null /\
    insert_trade "EURUSD" "Buy" (strftime sample_time) 1.125 50 25
      (py_round q 2) None None "breakout" (Some fresh_table) = Ok (Some t').
Proof.
  apply (submit_stores_falsy_as_null "EURUSD" "Buy" 1.125 50 25 "" 0 "breakout"
           sample_time fresh_table);
    [reflexivity | reflexivity | lia | lia | reflexivity].
Defined.

(** ** Update and delete *)

Lemma fmap_no_match trade_id (f : row -> row) rs :
  Forall (fun r => has_id trade_id r = false) rs ->
  (fun r => if has_id trade_id r then f r else r) <$> rs = rs.
Proof.
  induction 1 as [|r rs Hr _ IH]; [done|]. by rewrite fmap_cons, Hr, IH.
Qed.

Lemma filter_no_match trade_id rs :
  Forall (fun r => has_id trade_id r = false) rs ->
  filter (fun r => has_id trade_id r = false) rs = rs.
Proof.
  induction 1 as [|r rs Hr _ IH]; [done|].
  rewrite filter_cons_True by done. by rewrite IH.
Qed.

(** C4: [update_result_pips] keeps the columns, the rowid counter and the
    number and order of the rows; in a row with the given id it overwrites
    [result] and [pips] and leaves every other column as it was; a row with
    another id is left as it was. *)
Theorem update_result_pips_frame trade_id result pips t :
  migrated t = true ->
  exists t',
    update_result_pips trade_id result pips (Some t) = Ok (Some t') /\
    columns t' = columns t /\
    seq t' = seq t /\
    length (rows t') = length (rows t) /\
    forall i r, rows t !! i = Some r ->
      exists r', rows t' !! i = Some r' /\
        if has_id trade_id r
        then r' !! "result" = Some (Text result) /\
             r' !! "pips" = Some (Int pips) /\
             forall c, c ≠ "result" -> c ≠ "pips" -> r' !! c = r !! c
        else r' = r.
Proof.
  intros Hm. eexists. split; [by apply update_result_pips_ok|]. simpl.
  split; [done|]. split; [done|]. split; [by rewrite length_fmap|].
  intros i r Hi. eexists. split; [by rewrite list_lookup_fmap, Hi|].
  destruct (has_id trade_id r); [|done].
  split; [by rewrite set_result_pips_lookup|].
  split; [by rewrite set_result_pips_lookup|].
  intros c H1 H2. rewrite set_result_pips_lookup.
  by rewrite !decide_False.
Qed.

Lemma update_result_pips_frame_witness :
  exists t',
    update_result_pips 1 "Win" 25 (Some sample_table) = Ok (Some t') /\
    columns t' = columns sample_table /\
    seq t' = seq sample_table /\
    length (rows t') = length (rows sample_table) /\
    forall i r, rows sample_table !! i = Some r ->
      exists r', rows t' !! i = Some r' /\
        if has_id 1 r
        then r' !! "result" = Some (Text "Win") /\
             r' !! "pips" = Some (Int 25) /\
             forall c, c ≠ "result" -> c ≠ "pips" -> r' !! c = r !! c
        else r' = r.
Proof.
  apply (update_result_pips_frame 1 "Win" 25 sample_table). reflexivity.
Defined.

(** The scenario of the specification: after [update_result_pips(1, "Win", 25)]
    the listing shows the first trade with that outcome and the second trade
    as it was. *)
Example update_1_win_25 :
  (s ← update_result_pips 1 "Win" 25 (Some sample_table);
   df ← get_all_trades s;
   Ok ((fun r => (cell "id" r, cell "pair" r, cell "rr" r, cell "result" r,
                  cell "pips" r)) <$> df_rows df))
  = Ok [ (Int 1, Text "EURUSD", Real 2, Text "Win", Int 25);
         (Int 2, Text "USDJPY", Real 1.5, Text "Win", Int 30) ].
Proof. vm_compute. reflexivity. Qed.

(** The update stores the [pips] it is given, also a 0: only the form turns
    a 0 into NULL. *)
Example update_stores_zero :
  (s ← update_result_pips 1 "Breakeven" 0 (Some sample_table);
   df ← get_all_trades s;
   Ok ((fun r => (cell "id" r, cell "result" r, cell "pips" r)) <$> df_rows df))
  = Ok [ (Int 1, Text "Breakeven", Int 0); (Int 2, Text "Win", Int 30) ].
Proof. vm_compute. reflexivity. Qed.

(** C5: with an id that no row has, [update_result_pips] and [delete_trade]
    return without an error and leave the store as it was. *)
Theorem not_found_is_noop trade_id result pips t :
  migrated t = true ->
  Forall (fun r => has_id trade_id r = false) (rows t) ->
  update_result_pips trade_id result pips (Some t) = Ok (Some t) /\
  delete_trade trade_id (Some t) = Ok (Some t).
Proof.
  intros Hm Hno. rewrite update_result_pips_ok, delete_trade_ok by done.
  by rewrite fmap_no_match, filter_no_match, table_eta.
Qed.

Lemma not_found_is_noop_witness :
  update_result_pips 7 "Loss" (-10) (Some sample_table) = Ok (Some sample_table) /\
  delete_trade 7 (Some sample_table) = Ok (Some sample_table).
Proof.
  apply not_found_is_noop; [reflexivity | by repeat constructor].
Defined.

(** C6: after [delete_trade] the listing has no row with the given id; the
    rows it has are the other rows, in their order. *)
Theorem delete_then_list trade_id t :
  migrated t = true ->
  exists s' df,
    delete_trade trade_id (Some t) = Ok s' /\
    get_all_trades s' = Ok df /\
    df_rows df = filter (fun r => rowid r ≠ Some trade_id) (rows t) /\
    forall r, r ∈ df_rows df -> rowid r ≠ Some trade_id.
Proof.
  intros Hm. eexists. eexists. split; [by apply delete_trade_ok|].
  split; [done|]. simpl.
  assert (Hfil : filter (fun r => has_id trade_id r = false) (rows t)
                 = filter (fun r => rowid r ≠ Some trade_id) (rows t)).
  { apply list_filter_iff. intros r. unfold has_id.
    by rewrite bool_decide_eq_false. }
  rewrite Hfil. split; [done|].
  intros r Hr. by apply list_elem_of_filter in Hr as [Hr _].
Qed.

Lemma delete_then_list_witness :
  exists s' df,
    delete_trade 1 (Some sample_table) = Ok s' /\
    get_all_trades s' = Ok df /\
    df_rows df = filter (fun r => rowid r ≠ Some 1) (rows sample_table) /\
    forall r, r ∈ df_rows df -> rowid r ≠ Some 1.
Proof.
  apply (delete_then_list 1 sample_table). reflexivity.
Defined.

Example delete_1 :
  (s ← delete_trade 1 (Some sample_table); df ← get_all_trades s;
   Ok ((fun r => (cell "id" r, cell "pair" r)) <$> df_rows df))
  = Ok [ (Int 2, Text "USDJPY") ].
Proof. vm_compute. reflexivity. Qed.

(** ** The set-up *)

Lemma column_names_add cs name decl rs n :
  column_names {| columns := cs ++ [(name, decl)]; rows := rs; seq := n |}
  = cs.*1 ++ [name].
Proof. unfold column_names. simpl. by rewrite fmap_app. Qed.

Lemma add_column_ok name decl t :
  name ∉ column_names t ->
  add_column name decl (Some t)
  = Ok (Some {| columns := columns t ++ [(name, decl)];
                rows := (fun r => <[name := Null]> r) <$> rows t;
                seq := seq t |}).
Proof.
  intros H. unfold add_column, has_column. by rewrite bool_decide_eq_false_2.
Qed.

(** Membership of a name in the columns of a table that ALTERs have extended. *)
Ltac names :=
  rewrite ?column_names_add, ?fmap_app, ?elem_of_app, ?list_elem_of_singleton;
  cbn [fmap list_fmap fst];
  rewrite ?elem_of_app, ?list_elem_of_singleton;
  fold (@fmap list _ _ _ (@fst string string)).

(** The two outcomes of one probe of the column names. *)
Ltac probe c t H :=
  destruct (decide (c ∈ column_names t)) as [H|H];
  [rewrite (bool_decide_eq_true_2 _ H) | rewrite (bool_decide_eq_false_2 _ H)].

(** The set-up over the eight outcomes of its three probes, every ALTER
    carried out. *)
Ltac run_probes t He Hr Hp :=
  cbn [table_info];
  probe "entry_price" t He; probe "result" t Hr; probe "pips" t Hp;
  cbn [mbind res_bind];
  repeat (rewrite add_column_ok;
          [cbn [mbind res_bind columns rows seq]
          | names; intuition discriminate]).

Ltac run_initialize s t He Hr Hp :=
  unfold initialize;
  assert (exists t, create_table_if_not_exists s = Some t) as [t ->]
    by (destruct s; by eexists);
  run_probes t He Hr Hp.

(** The set-up of a new file. *)
Lemma initialize_new : initialize None = Ok (Some fresh_table).
Proof. reflexivity. Qed.

(** The set-up never fails, whatever the file holds. *)
Lemma initialize_total s : exists s', initialize s = Ok s'.
Proof. run_initialize s t He Hr Hp; by eexists. Qed.

(** After the set-up the table has the three optional columns. *)
Lemma initialize_columns s s' :
  initialize s = Ok s' ->
  exists t', s' = Some t' /\
    "entry_price" ∈ column_names t' /\ "result" ∈ column_names t' /\
    "pips" ∈ column_names t'.
Proof.
  run_initialize s t He Hr Hp.
  all: intros [= <-]; eexists; (split; [done|]).
  all: names; intuition auto.
Qed.

(** On a table that has the three optional columns the set-up changes
    nothing. *)
Lemma initialize_migrated t :
  "entry_price" ∈ column_names t -> "result" ∈ column_names t ->
  "pips" ∈ column_names t ->
  initialize (Some t) = Ok (Some t).
Proof.
  intros He Hr Hp. unfold initialize. cbn [create_table_if_not_exists table_info].
  by rewrite !bool_decide_eq_true_2.
Qed.

(** C7: on a store that the set-up has already brought up to date, the
    set-up succeeds again and returns the store as it is: the same columns,
    the same rows, the same rowid counter. *)
Theorem initialize_idempotent s s' :
  initialize s = Ok s' -> initialize s' = Ok s'.
Proof.
  intros H. apply initialize_columns in H as (t' & -> & He & Hr & Hp).
  by apply initialize_migrated.
Qed.

Lemma initialize_idempotent_witness :
  initialize (Some fresh_table) = Ok (Some fresh_table).
Proof.
  apply (initialize_idempotent None (Some fresh_table)). reflexivity.
Defined.

Example initialize_sample : initialize (Some sample_table) = Ok (Some sample_table).
Proof. vm_compute. reflexivity. Qed.

(** A journal of the first version of the schema, with one trade, gains the
    three columns, NULL in the row it has. *)
Example initialize_first_version :
  initialize
    (Some {| columns := base_columns;
             rows := [list_to_map [("id", Int 1); ("pair", Text "EURUSD");
                                   ("trade_type", Text "Buy");
                                   ("time", Text "2024-11-05 10:00:00");
                                   ("tp", Int 40); ("sl", Int 20); ("rr", Real 2);
                                   ("reason", Text "trend")]];
             seq := 1 |})
  = Ok (Some {| columns := columns fresh_table;
                rows := [list_to_map [("id", Int 1); ("pair", Text "EURUSD");
                                      ("trade_type", Text "Buy");
                                      ("time", Text "2024-11-05 10:00:00");
                                      ("tp", Int 40); ("sl", Int 20); ("rr", Real 2);
                                      ("reason", Text "trend");
                                      ("entry_price", Null); ("result", Null);
                                      ("pips", Null)]];
                seq := 1 |}).
Proof. vm_compute. reflexivity. Qed.

(** X3: the first set-up of an older journal is additive: the columns it had
    come first, and every row keeps the values of those columns. *)
Lemma initialize_keeps_rows t t' :
  initialize (Some t) = Ok (Some t') ->
  seq t' = seq t /\
  columns t `prefix_of` columns t' /\
  length (rows t') = length (rows t) /\
  forall i r, rows t !! i = Some r ->
    exists r', rows t' !! i = Some r' /\
      forall c, c ∈ column_names t -> r' !! c = r !! c.
Proof.
  unfold initialize. cbn [create_table_if_not_exists].
  run_probes t He Hr Hp.
  all: intros [= <-]; cbn [columns rows seq].
  all: split; [done|].
  all: split; [rewrite <- ?app_assoc;
               first [by eexists | by exists []; rewrite app_nil_r]|].
  all: split; [by rewrite ?length_fmap|].
  all: intros i r Hi; rewrite ?list_lookup_fmap, Hi; eexists; (split; [done|]).
  all: intros c Hc; rewrite ?lookup_insert_ne by congruence; done.
Qed.

(** ** The page: what every row of the journal satisfies *)

Lemma missing_column_none_inv names t :
  missing_column names t = None -> Forall (fun c => c ∈ column_names t) names.
Proof.
  unfold missing_column. induction names as [|c names IH]; [by constructor|].
  rewrite filter_cons. destruct (decide (has_column c t = false)) as [E|E]; [done|].
  intros H. constructor; [|by apply IH].
  apply has_column_true. by destruct (has_column c t).
Qed.

(** Whenever [insert_trade] returns, it has added one row, the last one,
    which holds the [time], [tp], [sl] and [rr] it was passed. *)
Lemma insert_trade_inv symbol trade_type time entry_price tp sl rr result pips
    reason t s' :
  insert_trade symbol trade_type time entry_price tp sl rr result pips reason (Some t)
    = Ok s' ->
  exists r t',
    s' = Some t' /\ rows t' = rows t ++ [r] /\
    r !! "time" = Some (Text time) /\
    r !! "tp" = Some (Int tp) /\ r !! "sl" = Some (Int sl) /\
    r !! "rr" = Some (Real rr).
Proof.
  unfold insert_trade.
  destruct (missing_column _ t) eqn:Hm; [done|].
  apply missing_column_none_inv in Hm. rewrite Forall_forall in Hm.
  destruct (max_int64 <=? _); [done|]. intros [= <-].
  eexists _, _. split; [done|]. split; [done|].
  repeat split; (rewrite new_row_lookup_in; [done | apply Hm; cbn; in_list | done]).
Qed.

(** Whenever the handler returns, it has left the store as it was or has
    added one row, with the time of the clock and with [round(tp / sl, 2)]
    as its [rr]. *)
Lemma trade_form_submit_inv symbol trade_type entry_price tp sl result pips reason
    india_time s s' n :
  trade_form_submit symbol trade_type entry_price tp sl result pips reason
    india_time s = Ok (s', n) ->
  s' = s \/
  exists t t' r q,
    s = Some t /\ s' = Some t' /\ rows t' = rows t ++ [r] /\
    truediv tp sl = Ok q /\
    r !! "time" = Some (Text (strftime india_time)) /\
    r !! "tp" = Some (Int tp) /\ r !! "sl" = Some (Int sl) /\
    r !! "rr" = Some (Real (py_round q 2)).
Proof.
  unfold trade_form_submit.
  destruct ((0 <? tp) && (0 <? sl) && (0 <? entry_price)%float);
    [|intros [= <- _]; by left].
  destruct (truediv tp sl) as [q|e] eqn:Hq; cbn [mbind res_bind]; [|done].
  destruct (insert_trade _ _ _ _ _ _ _ _ _ _ s) as [s1|e] eqn:Hins;
    cbn [mbind res_bind]; [|done].
  intros [= <- _]. right.
  destruct s as [t|]; [|done].
  apply insert_trade_inv in Hins as (r & t' & -> & Hrows & Htime & Htp & Hsl & Hrr).
  by exists t, t', r, q.
Qed.

Lemma migrated_same_columns t t' :
  columns t' = columns t -> migrated t' = migrated t.
Proof. intros H. unfold migrated, has_column, column_names. by rewrite H. Qed.

Lemma run_migrated e s s' :
  s = None \/ (exists t, s = Some t /\ migrated t = true) ->
  run e s = Ok s' ->
  exists t', s' = Some t' /\ migrated t' = true.
Proof.
  intros Hs. unfold run.
  assert (Hi : exists t, initialize s = Ok (Some t) /\ migrated t = true).
  { destruct Hs as [->|(t & -> & Hm)].
    - exists fresh_table. by rewrite initialize_new.
    - exists t. split; [|done].
      apply initialize_migrated; apply (migrated_columns _ _ Hm); in_list. }
  destruct Hi as (t & -> & Hm). cbn [mbind res_bind].
  destruct e as [symbol trade_type entry_price tp sl result pips reason india_time
                |update_id result_update pips_update|delete_id].
  - destruct (trade_form_submit _ _ _ _ _ _ _ _ _ (Some t)) as [[s2 n]|?] eqn:Hsub;
      cbn [mbind res_bind]; [|done].
    intros [= <-]. cbn. revert Hsub. unfold trade_form_submit.
    destruct (_ && _ && _); [|intros [= <- _]; by exists t].
    destruct (truediv tp sl); cbn [mbind res_bind]; [|done].
    unfold insert_trade. destruct (missing_column _ t); [done|].
    destruct (max_int64 <=? _); [done|]. cbn [mbind res_bind].
    intros [= <- _]. eexists. split; [done|].
    exact (eq_trans (migrated_same_columns t _ eq_refl) Hm).
  - rewrite update_result_pips_ok by done. intros [= <-].
    eexists. split; [done|].
    exact (eq_trans (migrated_same_columns t _ eq_refl) Hm).
  - rewrite delete_trade_ok by done. intros [= <-].
    eexists. split; [done|].
    exact (eq_trans (migrated_same_columns t _ eq_refl) Hm).
Qed.

(** X4: the set-up is what makes a store migrated, and the page keeps it so:
    every store that the page reaches from a new file has the table with
    all its columns. *)
Lemma runs_migrated e es s' :
  runs (e :: es) None = Ok s' ->
  exists t', s' = Some t' /\ migrated t' = true.
Proof.
  assert (Hgen : forall es s0, (exists t, s0 = Some t /\ migrated t = true) ->
                   runs es s0 = Ok s' ->
                   exists t', s' = Some t' /\ migrated t' = true).
  { clear. intros es. induction es as [|e es IH]; intros s0 Hs0; cbn [runs].
    - by intros [= <-].
    - destruct (run e s0) as [s1|?] eqn:Hrun; cbn [mbind res_bind]; [|done].
      apply IH. eapply run_migrated; [|done]. by right. }
  cbn [runs].
  destruct (run e None) as [s1|?] eqn:Hrun; cbn [mbind res_bind]; [|done].
  apply Hgen. eapply run_migrated; [|done]. by left.
Qed.

Section RowInvariant.

(** A property of rows that does not depend on the three optional columns
    that the set-up adds and the update overwrites. *)
Variable P : row -> Prop.
Hypothesis P_insert : forall c v r,
  c ∈ ["entry_price"; "result"; "pips"] -> P r -> P (<[c := v]> r).

Lemma initialize_rows_all s s' :
  initialize s = Ok s' -> rows_all P s -> rows_all P s'.
Proof.
  destruct s as [t|]; [|rewrite initialize_new; intros [= <-] _; by constructor].
  intros H Ht. revert H. unfold initialize. cbn [create_table_if_not_exists].
  cbn [rows_all] in Ht.
  run_probes t He Hr Hp.
  all: intros [= <-]; cbn [rows_all rows].
  all: rewrite ?Forall_fmap; try done.
  all: eapply Forall_impl; [exact Ht|]; intros r Hr'; cbn.
  all: repeat (apply P_insert; [in_list|]); done.
Qed.

Lemma update_result_pips_rows_all update_id result pips s s' :
  update_result_pips update_id result pips s = Ok s' ->
  rows_all P s -> rows_all P s'.
Proof.
  unfold update_result_pips. destruct s as [t|]; [|done].
  destruct (missing_column _ t); [done|]. intros [= <-] Hs.
  cbn [rows_all rows] in *. rewrite Forall_fmap.
  eapply Forall_impl; [exact Hs|]. intros r Hr. cbn.
  destruct (has_id update_id r); [|done].
  unfold set_result_pips. repeat (apply P_insert; [in_list|]). done.
Qed.

Lemma delete_trade_rows_all delete_id s s' :
  delete_trade delete_id s = Ok s' -> rows_all P s -> rows_all P s'.
Proof.
  unfold delete_trade. destruct s as [t|]; [|done].
  destruct (missing_column _ t); [done|]. intros [= <-] Hs.
  cbn [rows_all rows] in *. rewrite Forall_forall in *.
  intros r Hr. apply list_elem_of_filter in Hr as [_ Hr]. by apply Hs.
Qed.

(** The events in whose saved row the property holds. *)
Variable admitted : event -> Prop.
Hypothesis P_submit :
  forall symbol trade_type entry_price tp sl result pips reason india_time r q,
    admitted (Submit symbol trade_type entry_price tp sl result pips reason
                india_time) ->
    truediv tp sl = Ok q ->
    r !! "time" = Some (Text (strftime india_time)) ->
    r !! "tp" = Some (Int tp) -> r !! "sl" = Some (Int sl) ->
    r !! "rr" = Some (Real (py_round q 2)) ->
    P r.

Lemma run_rows_all e s s' :
  admitted e -> run e s = Ok s' -> rows_all P s -> rows_all P s'.
Proof.
  intros Hadm. unfold run.
  destruct (initialize s) as [s1|?] eqn:Hi; cbn [mbind res_bind]; [|done].
  intros H Hs. apply (initialize_rows_all _ _ Hi) in Hs.
  destruct e as [symbol trade_type entry_price tp sl result pips reason india_time
                |update_id result_update pips_update|delete_id].
  - destruct (trade_form_submit _ _ _ _ _ _ _ _ _ s1) as [[s2 n]|?] eqn:Hsub;
      cbn [mbind res_bind] in H; [|done].
    injection H as <-. cbn.
    apply trade_form_submit_inv in Hsub
      as [->|(t & t' & r & q & -> & -> & Hrows & Hq & Htime & Htp & Hsl & Hrr)];
      [done|].
    cbn [rows_all] in *. rewrite Hrows. apply Forall_app. split; [done|].
    constructor; [|done]. by eapply P_submit.
  - by eapply update_result_pips_rows_all.
  - by eapply delete_trade_rows_all.
Qed.

Lemma runs_rows_all es s s' :
  Forall admitted es -> runs es s = Ok s' -> rows_all P s -> rows_all P s'.
Proof.
  intros Hes. revert s. induction Hes as [|e es He _ IH]; intros s; cbn [runs].
  - by intros [= <-].
  - destruct (run e s) as [s1|?] eqn:Hrun; cbn [mbind res_bind]; [|done].
    intros H Hs. apply (IH s1 H). by eapply run_rows_all.
Qed.

End RowInvariant.

(** X5: in every store that the page reaches from a new file, the [rr] of
    every row is [round(tp / sl, 2)] for the [tp] and [sl] of that row: no
    interaction sets it to anything else. *)
Theorem runs_consistent es s' :
  runs es None = Ok s' -> rows_all rr_consistent s'.
Proof.
  intros H.
  apply (runs_rows_all rr_consistent) with (admitted := fun _ => True) (es := es)
                                            (s := None); try done.
  - intros c v r Hc (tp & sl & q & Htp & Hsl & Hq & Hrr).
    exists tp, sl, q.
    rewrite !lookup_insert_ne; [done|..];
      intros ->; repeat (apply elem_of_cons in Hc as [Hc|Hc]; [done|]);
      by apply not_elem_of_nil in Hc.
  - intros. by eexists _, _, _.
  - by apply Forall_forall.
Qed.

Lemma runs_consistent_witness :
  rows_all rr_consistent
    (Some {| columns := columns fresh_table;
             rows := [ new_row (column_names fresh_table) 2
                         [ ("pair", Text "USDJPY"); ("trade_type", Text "Sell");
                           ("time", Text "2025-03-12 09:30:00");
                           ("entry_price", Real 150.5); ("tp", Int 30);
                           ("sl", Int 20); ("rr", Real 1.5);
                           ("result", Text "Win"); ("pips", Int 30);
                           ("reason", Text "range top") ] ];
             seq := 2 |}).
Proof.
  apply (runs_consistent
           [ Submit "EURUSD" "Buy" 1.125 50 25 "" 0 "breakout" sample_time;
             Submit "USDJPY" "Sell" 150.5 30 20 "" 0 "range top"
               {| date_of := {| year := 2025; month := 3; day := 12 |};
                  hour := 9; minute := 30; second := 0 |};
             Update 2 "Win" 30;
             Delete 1 ]).
  vm_compute. reflexivity.
Defined.

(** ** The calendar *)

Lemma days_before_year_succ y :
  days_before_year (y + 1) = days_before_year y + (if is_leap y then 366 else 365).
Proof.
  unfold days_before_year, is_leap.
  replace (y + 1 - 1) with y by lia.
  destruct (Z.eqb_spec (y mod 4) 0), (Z.eqb_spec (y mod 100) 0),
    (Z.eqb_spec (y mod 400) 0); cbn [andb orb negb];
    Z.to_euclidean_division_equations; lia.
Qed.

(** The day of the year of a day of the calendar. *)
Lemma day_of_year_range d :
  valid_date d = true ->
  1 <= days_before_month (year d) (month d) + day d
    <= (if is_leap (year d) then 366 else 365).
Proof.
  unfold valid_date. rewrite !andb_true_iff, !Z.leb_le.
  intros [[[Hm1 Hm2] Hd1] Hd2].
  assert (Hm : month d = 1 \/ month d = 2 \/ month d = 3 \/ month d = 4 \/
               month d = 5 \/ month d = 6 \/ month d = 7 \/ month d = 8 \/
               month d = 9 \/ month d = 10 \/ month d = 11 \/ month d = 12) by lia.
  unfold days_before_month.
  destruct Hm as [H|[H|[H|[H|[H|[H|[H|[H|[H|[H|[H|H]]]]]]]]]]];
    rewrite H in *; unfold days_in_month in Hd2; simpl in Hd2 |- *;
    destruct (is_leap (year d)); simpl in *; lia.
Qed.

Lemma ymd2ord_jan1 y :
  ymd2ord {| year := y; month := 1; day := 1 |} = days_before_year y + 1.
Proof. unfold ymd2ord, days_before_month. simpl. lia. Qed.

(** Week 1 starts on a Monday, at most three days before 1 January and at
    most three days after it. *)
Lemma isoweek1monday_spec y :
  days_before_year y - 2 <= isoweek1monday y <= days_before_year y + 4 /\
  (isoweek1monday y + 6) mod 7 = 0.
Proof.
  unfold isoweek1monday. rewrite ymd2ord_jan1.
  generalize (days_before_year y). intros F.
  destruct (Z.ltb_spec 3 ((F + 1 + 6) mod 7));
  Z.to_euclidean_division_equations; lia.
Qed.

(** The ISO week of a day of the calendar is a number from 1 to 53. *)
Lemma isocalendar_week_range d :
  valid_date d = true -> 1 <= isocalendar_week d <= 53.
Proof.
  intros Hv. pose proof (day_of_year_range d Hv) as Hdoy.
  unfold isocalendar_week, ymd2ord.
  pose proof (isoweek1monday_spec (year d)) as [H0 M0].
  pose proof (isoweek1monday_spec (year d - 1)) as [Hp Mp].
  pose proof (isoweek1monday_spec (year d + 1)) as [Hn Mn].
  pose proof (days_before_year_succ (year d)) as Sn.
  pose proof (days_before_year_succ (year d - 1)) as Sp.
  replace (year d - 1 + 1) with (year d) in Sp by lia.
  revert Hdoy H0 M0 Hp Mp Hn Mn Sn Sp.
  rewrite <- Z.add_assoc.
  generalize (days_before_month (year d) (month d) + day d).
  generalize (isoweek1monday (year d)) (isoweek1monday (year d - 1))
    (isoweek1monday (year d + 1)) (days_before_year (year d))
    (days_before_year (year d - 1)) (days_before_year (year d + 1)).
  intros W0 Wp Wn F Fp Fn doy Hdoy H0 M0 Hp Mp Hn Mn Sn Sp.
  destruct (is_leap (year d)), (is_leap (year d - 1));
  destruct (Z.ltb_spec ((F + doy - W0) / 7) 0);
  destruct (Z.leb_spec 52 ((F + doy - W0) / 7));
  destruct (Z.leb_spec Wn (F + doy)); cbn [andb];
  Z.to_euclidean_division_equations; lia.
Qed.

Lemma month_range d : valid_date d = true -> 1 <= month d <= 12.
Proof. unfold valid_date. rewrite !andb_true_iff, !Z.leb_le. lia. Qed.

(** A timestamp is at or after the midnight of a day exactly when its day
    is that day or a later one. *)
Lemma datetime_leb_midnight d t :
  datetime_leb (midnight d) t = date_leb d (date_of t).
Proof.
  unfold datetime_leb, datetime_compare, date_leb. cbn [midnight date_of hour minute second].
  destruct (date_compare d (date_of t)); try done.
  destruct (hour t); [|done]. destruct (minute t); [|done]. by destruct (second t).
Qed.

Example iso_weeks :
  (fun '(y, m, d) => isocalendar_week {| year := y; month := m; day := d |})
    <$> [ (2025, 1, 1); (2024, 12, 30); (2021, 1, 1); (2020, 12, 31);
          (2026, 12, 31); (2027, 1, 3); (2027, 1, 4); (2025, 3, 4) ]
  = [1; 1; 53; 53; 53; 53; 1; 10].
Proof. reflexivity. Qed.

(** ** Counting by key *)

Lemma groupby_size_cons_Some k keys :
  groupby_size (Some k :: keys)
  = <[k := S (default 0%nat (groupby_size keys !! k))]> (groupby_size keys).
Proof. done. Qed.

Lemma groupby_size_cons_None keys :
  groupby_size (None :: keys) = groupby_size keys.
Proof. done. Qed.

Lemma groupby_size_count keys k :
  count_of (groupby_size keys) k = length (filter (fun x => x = Some k) keys).
Proof.
  unfold count_of. induction keys as [|[j|] keys IH].
  - done.
  - rewrite groupby_size_cons_Some. destruct (decide (j = k)) as [->|Hne].
    + rewrite lookup_insert_eq, filter_cons_True by done. simpl. by rewrite <- IH.
    + rewrite lookup_insert_ne, filter_cons_False by congruence. done.
  - by rewrite groupby_size_cons_None, filter_cons_False.
Qed.

(** A key of the result has a count of at least one, and some row has it. *)
Lemma groupby_size_lookup keys k n :
  groupby_size keys !! k = Some n -> (0 < n)%nat /\ Some k ∈ keys.
Proof.
  revert n. induction keys as [|[j|] keys IH]; intros n.
  - done.
  - rewrite groupby_size_cons_Some. destruct (decide (j = k)) as [->|Hne].
    + rewrite lookup_insert_eq. intros [= <-]. split; [lia | apply list_elem_of_here].
    + rewrite lookup_insert_ne by done. intros H. apply IH in H as [? ?].
      split; [done | by apply list_elem_of_further].
  - rewrite groupby_size_cons_None. intros H. apply IH in H as [? ?].
    split; [done | by apply list_elem_of_further].
Qed.

Lemma groupby_size_elem keys k :
  Some k ∈ keys -> is_Some (groupby_size keys !! k).
Proof.
  induction keys as [|[j|] keys IH]; intros Hk.
  - by apply not_elem_of_nil in Hk.
  - rewrite groupby_size_cons_Some. destruct (decide (j = k)) as [->|Hne].
    + rewrite lookup_insert_eq. by eexists.
    + rewrite lookup_insert_ne by done. apply IH.
      apply elem_of_cons in Hk as [Hk|Hk]; [congruence | done].
  - rewrite groupby_size_cons_None. apply IH.
    by apply elem_of_cons in Hk as [Hk|Hk].
Qed.

Lemma total_insert m k n :
  m !! k = None -> total (<[k := n]> m) = (n + total m)%nat.
Proof.
  intros H. unfold total. rewrite map_fold_insert_L; [done | | done].
  intros. lia.
Qed.

Lemma total_bump m k :
  total (<[k := S (default 0%nat (m !! k))]> m) = S (total m).
Proof.
  destruct (m !! k) as [n|] eqn:E; simpl.
  - rewrite <- (insert_delete_id m k n E) at 2.
    rewrite <- insert_delete_eq.
    rewrite !total_insert by apply lookup_delete_eq. lia.
  - by rewrite total_insert.
Qed.

(** The counts add up to the number of rows that have a key. *)
Lemma groupby_size_total keys :
  total (groupby_size keys) = length (filter is_Some keys).
Proof.
  induction keys as [|[j|] keys IH].
  - done.
  - rewrite groupby_size_cons_Some, total_bump, filter_cons_True by done.
    simpl. by rewrite IH.
  - rewrite groupby_size_cons_None, filter_cons_False; [done|]. by intros [? ?].
Qed.

(** ** The filter *)

Lemma length_filter_fmap {A B : Type} (f : A -> B) (P : B -> Prop)
    `{!forall x, Decision (P x)} (Q : A -> Prop) `{!forall x, Decision (Q x)}
    (l : list A) :
  (forall x, P (f x) <-> Q x) ->
  length (filter P (f <$> l)) = length (filter Q l).
Proof.
  intros HPQ. induction l as [|a l IH]; [done|]. rewrite fmap_cons.
  destruct (decide (Q a)) as [Ha|Ha].
  - rewrite !filter_cons_True by (done || by apply HPQ). simpl. by rewrite IH.
  - rewrite !filter_cons_False by (done || by rewrite HPQ). done.
Qed.

Lemma filter_none {A : Type} (P : A -> Prop) `{!forall x, Decision (P x)}
    (l : list A) :
  (forall x, ¬ P x) -> filter P l = [].
Proof.
  intros HP. induction l as [|a l IH]; [done|]. by rewrite filter_cons_False.
Qed.

Lemma getitem_ok c df :
  c ∈ df_columns df -> getitem c df = Ok (cell c <$> df_rows df).
Proof. intros H. unfold getitem. by rewrite bool_decide_eq_true_2. Qed.

Section FramesProperties.

Variable to_datetime1 : value -> res (option datetime).

(** The converted column holds the timestamp of every row. *)
Lemma to_datetime_stamp rs ts :
  to_datetime to_datetime1 (cell "time" <$> rs) = Ok ts ->
  ts = stamp to_datetime1 <$> rs.
Proof.
  revert ts. induction rs as [|r rs IH]; intros ts; rewrite ?fmap_cons; cbn [to_datetime].
  - by intros [= <-].
  - unfold stamp at 1.
    destruct (to_datetime1 (cell "time" r)) as [x|e]; cbn [mbind res_bind]; [|done].
    destruct (to_datetime to_datetime1 (cell "time" <$> rs)) as [ts'|e];
      cbn [mbind res_bind]; [|done].
    intros [= <-]. by rewrite (IH ts').
Qed.

(** The conversion of the column succeeds exactly when every element
    converts. *)
Lemma to_datetime_ok_iff rs :
  (exists ts, to_datetime to_datetime1 (cell "time" <$> rs) = Ok ts) <->
  Forall (fun r => exists x, to_datetime1 (cell "time" r) = Ok x) rs.
Proof.
  induction rs as [|r rs IH]; rewrite ?fmap_cons; cbn [to_datetime].
  - split; [by constructor | by eexists].
  - rewrite Forall_cons, <- IH.
    destruct (to_datetime1 (cell "time" r)) as [x|e]; cbn [mbind res_bind].
    + destruct (to_datetime to_datetime1 (cell "time" <$> rs)) as [ts'|e];
        cbn [mbind res_bind].
      * split; [intros _; split; by eexists | intros _; by eexists].
      * split; [by intros [? ?] | by intros [_ [? ?]]].
    + split; [by intros [? ?] | by intros [[? ?] _]].
Qed.

(** It raises exactly when some element is refused. *)
Lemma to_datetime_raise_iff rs :
  (exists e, to_datetime to_datetime1 (cell "time" <$> rs) = Raise e) <->
  Exists (fun r => exists e, to_datetime1 (cell "time" r) = Raise e) rs.
Proof.
  induction rs as [|r rs IH]; rewrite ?fmap_cons; cbn [to_datetime].
  - split; [by intros [? ?] | by intros ?%Exists_nil].
  - rewrite Exists_cons, <- IH.
    destruct (to_datetime1 (cell "time" r)) as [x|e]; cbn [mbind res_bind].
    + destruct (to_datetime to_datetime1 (cell "time" <$> rs)) as [ts'|e];
        cbn [mbind res_bind].
      * split; [by intros [? ?] | by intros [[? ?]|[? ?]]].
      * split; [intros _; right; by eexists | intros _; by eexists].
    + split; [intros _; left; by eexists | intros _; by eexists].
Qed.

(** The mask of the three column tests selects the rows that [keeps] keeps. *)
Lemma boolean_index_mask rs pair_filter type_filter date_filter :
  boolean_index rs
    (zip_with andb
       (zip_with andb (isin (cell "pair" <$> rs) pair_filter)
                      (isin (cell "trade_type" <$> rs) type_filter))
       (ge (stamp to_datetime1 <$> rs) (midnight date_filter)))
  = filter (fun r => keeps to_datetime1 pair_filter type_filter date_filter r = true) rs.
Proof.
  induction rs as [|r rs IH]; [done|].
  unfold isin, ge in *. rewrite !fmap_cons. cbn [zip_with boolean_index].
  rewrite IH.
  assert (Hk : keeps to_datetime1 pair_filter type_filter date_filter r
               = bool_decide (cell "pair" r ∈ pair_filter) &&
                 bool_decide (cell "trade_type" r ∈ type_filter) &&
                 match stamp to_datetime1 r with
                 | Some x => datetime_leb (midnight date_filter) x
                 | None => false
                 end).
  { unfold keeps, on_or_after. destruct (stamp to_datetime1 r); [|done].
    by rewrite datetime_leb_midnight. }
  rewrite <- Hk.
  destruct (keeps to_datetime1 pair_filter type_filter date_filter r) eqn:E.
  - by rewrite filter_cons_True.
  - rewrite filter_cons_False; [done|]. by rewrite E.
Qed.

(** What [keeps] says, spelled out. *)
Lemma keeps_true pair_set type_set min_date r :
  keeps to_datetime1 pair_set type_set min_date r = true <->
  cell "pair" r ∈ pair_set /\ cell "trade_type" r ∈ type_set /\
  exists t, to_datetime1 (cell "time" r) = Ok (Some t) /\
            date_leb min_date (date_of t) = true.
Proof.
  unfold keeps, on_or_after, stamp.
  rewrite !andb_true_iff, !bool_decide_eq_true.
  destruct (to_datetime1 (cell "time" r)) as [[t|]|e].
  - split; [intros [[? ?] ?]; by eauto | by intros (? & ? & t' & [= <-] & ?)].
  - split; [by intros [_ ?] | by intros (_ & _ & ? & ? & _)].
  - split; [by intros [_ ?] | by intros (_ & _ & ? & ? & _)].
Qed.

(** C3, as the code has it: when every [time] converts, the filter returns
    the frame of the rows whose [pair] is in the pair set, whose
    [trade_type] is in the type set and whose timestamp falls on the given
    day or later, in the order of the input; an empty pair set or type set
    gives no rows.  When some [time] is refused, the filter raises that
    error and returns no frame. *)
Theorem filtered_spec all_trades pair_filter type_filter date_filter :
  "pair" ∈ df_columns all_trades ->
  "trade_type" ∈ df_columns all_trades ->
  "time" ∈ df_columns all_trades ->
  match to_datetime to_datetime1 (cell "time" <$> df_rows all_trades) with
  | Ok _ =>
      exists out,
        filtered to_datetime1 all_trades pair_filter type_filter date_filter = Ok out /\
        df_columns out = df_columns all_trades /\
        df_rows out
          = filter (fun r => keeps to_datetime1 pair_filter type_filter date_filter r = true)
                   (df_rows all_trades) /\
        df_rows out `sublist_of` df_rows all_trades /\
        (forall r, r ∈ df_rows out <->
           r ∈ df_rows all_trades /\
           cell "pair" r ∈ pair_filter /\ cell "trade_type" r ∈ type_filter /\
           exists t, to_datetime1 (cell "time" r) = Ok (Some t) /\
                     date_leb date_filter (date_of t) = true) /\
        (pair_filter = [] \/ type_filter = [] -> df_rows out = [])
  | Raise e =>
      filtered to_datetime1 all_trades pair_filter type_filter date_filter = Raise e
  end.
Proof.
  intros Hp Ht Htime. unfold filtered. rewrite !getitem_ok by done.
  cbn [mbind res_bind].
  destruct (to_datetime to_datetime1 (cell "time" <$> df_rows all_trades))
    as [ts|e] eqn:E; cbn [mbind res_bind]; [|done].
  apply to_datetime_stamp in E as ->. rewrite boolean_index_mask.
  eexists. split; [done|]. cbn [df_columns df_rows].
  split; [done|]. split; [done|]. split; [apply sublist_filter|]. split.
  - intros r. rewrite list_elem_of_filter, keeps_true. tauto.
  - intros Hempty. apply filter_none. intros r Hr. apply keeps_true in Hr.
    destruct Hr as (Hpair & Htype & _).
    destruct Hempty as [-> | ->]; by apply not_elem_of_nil in Hpair || by apply not_elem_of_nil in Htype.
Qed.

(** ** The weekly and monthly counts *)

Lemma weekly_stamp rs :
  weekly (stamp to_datetime1 <$> rs) = groupby_size (week_of to_datetime1 <$> rs).
Proof. unfold weekly, week_of. by rewrite <- list_fmap_compose. Qed.

Lemma monthly_stamp rs :
  monthly (stamp to_datetime1 <$> rs) = groupby_size (month_of to_datetime1 <$> rs).
Proof. unfold monthly, month_of. by rewrite <- list_fmap_compose. Qed.

(** The count of a week is the number of rows whose timestamp is in it. *)
Lemma weekly_count rs k :
  count_of (weekly (stamp to_datetime1 <$> rs)) k
  = length (filter (fun r => week_of to_datetime1 r = Some k) rs).
Proof. rewrite weekly_stamp, groupby_size_count. by apply length_filter_fmap. Qed.

Lemma monthly_count rs k :
  count_of (monthly (stamp to_datetime1 <$> rs)) k
  = length (filter (fun r => month_of to_datetime1 r = Some k) rs).
Proof. rewrite monthly_stamp, groupby_size_count. by apply length_filter_fmap. Qed.

(** The counts add up to the number of rows that have a timestamp. *)
Lemma weekly_total rs :
  total (weekly (stamp to_datetime1 <$> rs))
  = length (filter (fun r => is_Some (stamp to_datetime1 r)) rs).
Proof.
  rewrite weekly_stamp, groupby_size_total. apply length_filter_fmap.
  intros r. unfold week_of.
  destruct (stamp to_datetime1 r); simpl;
    [split; intros _; by eexists | split; by intros [? ?]].
Qed.

Lemma monthly_total rs :
  total (monthly (stamp to_datetime1 <$> rs))
  = length (filter (fun r => is_Some (stamp to_datetime1 r)) rs).
Proof.
  rewrite monthly_stamp, groupby_size_total. apply length_filter_fmap.
  intros r. unfold month_of.
  destruct (stamp to_datetime1 r); simpl;
    [split; intros _; by eexists | split; by intros [? ?]].
Qed.

(** What the block computes on a frame that has rows and a [time] column. *)
Lemma stats_nonempty all_trades :
  df_empty all_trades = false ->
  "time" ∈ df_columns all_trades ->
  stats to_datetime1 all_trades
  = ts ← to_datetime to_datetime1 (cell "time" <$> df_rows all_trades);
    Ok (Some (weekly ts, monthly ts)).
Proof.
  intros He Ht. unfold stats. rewrite He, getitem_ok by done. done.
Qed.

(** C8, as the code has it: on a frame with rows, one [time] that the
    conversion refuses makes the block raise, and no count is computed.
    When every [time] converts, the block returns the counts, and the rows
    whose [time] is missing (NaT) are in no week and in no month: each count
    is a number of rows that have a timestamp, and the counts add up to the
    number of such rows. *)
Theorem stats_refused_or_counted all_trades :
  df_empty all_trades = false ->
  "time" ∈ df_columns all_trades ->
  ((exists r e, r ∈ df_rows all_trades /\ to_datetime1 (cell "time" r) = Raise e) ->
   exists e, stats to_datetime1 all_trades = Raise e) /\
  ((forall r, r ∈ df_rows all_trades -> exists x, to_datetime1 (cell "time" r) = Ok x) ->
   exists weekly_counts monthly_counts,
     stats to_datetime1 all_trades = Ok (Some (weekly_counts, monthly_counts)) /\
     (forall k, count_of weekly_counts k
                = length (filter (fun r => week_of to_datetime1 r = Some k)
                                 (df_rows all_trades))) /\
     (forall k, count_of monthly_counts k
                = length (filter (fun r => month_of to_datetime1 r = Some k)
                                 (df_rows all_trades))) /\
     total weekly_counts = length (filter (fun r => is_Some (stamp to_datetime1 r))
                                 (df_rows all_trades)) /\
     total monthly_counts = length (filter (fun r => is_Some (stamp to_datetime1 r))
                                  (df_rows all_trades))).
Proof.
  intros He Ht. rewrite stats_nonempty by done. split.
  - intros (r & e & Hr & Hre).
    destruct (proj2 (to_datetime_raise_iff (df_rows all_trades))) as [e' He'].
    { apply Exists_exists. exists r. split; [done | by exists e]. }
    exists e'. by rewrite He'.
  - intros Hall.
    destruct (proj2 (to_datetime_ok_iff (df_rows all_trades))) as [ts Hts].
    { by apply Forall_forall. }
    rewrite Hts. cbn [mbind res_bind]. apply to_datetime_stamp in Hts as ->.
    eexists _, _. split; [done|].
    split; [apply weekly_count|]. split; [apply monthly_count|].
    split; [apply weekly_total | apply monthly_total].
Qed.

Lemma parsable_stamp r :
  parsable to_datetime1 r = true ->
  exists t, to_datetime1 (cell "time" r) = Ok (Some t) /\
            stamp to_datetime1 r = Some t /\ valid_date (date_of t) = true.
Proof.
  unfold parsable, stamp.
  destruct (to_datetime1 (cell "time" r)) as [[t|]|e]; [|done..].
  intros H. by exists t.
Qed.

(** C9: on a frame in which every [time] converts to a timestamp, the block
    raises nothing; the count of a week number is the number of rows whose
    timestamp has that ISO week, the count of a month number is the number
    of rows whose timestamp has that month; the keys are week numbers from 1
    to 53 and month numbers from 1 to 12, each with a row to count; every
    row has one week and one month, both keys of the counts; and the weekly
    counts, like the monthly ones, add up to the number of rows.  For a
    frame without rows the block computes no counts, which reads as a count
    of zero everywhere. *)
Theorem stats_counts all_trades :
  "time" ∈ df_columns all_trades ->
  Forall (fun r => parsable to_datetime1 r = true) (df_rows all_trades) ->
  exists result,
    stats to_datetime1 all_trades = Ok result /\
    let weekly_counts := default ∅ (fst <$> result) in
    let monthly_counts := default ∅ (snd <$> result) in
    (forall k, count_of weekly_counts k
               = length (filter (fun r => week_of to_datetime1 r = Some k)
                                (df_rows all_trades))) /\
    (forall k, count_of monthly_counts k
               = length (filter (fun r => month_of to_datetime1 r = Some k)
                                (df_rows all_trades))) /\
    (forall k n, weekly_counts !! k = Some n -> 1 <= k <= 53 /\ (0 < n)%nat) /\
    (forall k n, monthly_counts !! k = Some n -> 1 <= k <= 12 /\ (0 < n)%nat) /\
    (forall r, r ∈ df_rows all_trades ->
       exists t, stamp to_datetime1 r = Some t /\
                 is_Some (weekly_counts !! isocalendar_week (date_of t)) /\
                 is_Some (monthly_counts !! month (date_of t))) /\
    total weekly_counts = length (df_rows all_trades) /\
    total monthly_counts = length (df_rows all_trades).
Proof.
  intros Ht Hall.
  destruct (df_empty all_trades) eqn:He.
  - assert (Hnil : df_rows all_trades = []).
    { unfold df_empty in He. destruct (df_rows all_trades); [done|].
      destruct (df_columns all_trades); [by apply not_elem_of_nil in Ht | done]. }
    exists None. unfold stats. rewrite He, Hnil. cbn.
    repeat split; try done;
      first [ intros k n Hk; by rewrite lookup_empty in Hk
            | intros r Hr; by apply not_elem_of_nil in Hr ].
  - rewrite stats_nonempty by done.
    destruct (proj2 (to_datetime_ok_iff (df_rows all_trades))) as [ts Hts].
    { eapply Forall_impl; [exact Hall|]. intros r Hr.
      apply parsable_stamp in Hr as (t & Hr & _). by eexists. }
    rewrite Hts. cbn [mbind res_bind]. apply to_datetime_stamp in Hts as ->.
    eexists. split; [done|]. cbn.
    assert (Hsome : filter (fun r => is_Some (stamp to_datetime1 r)) (df_rows all_trades)
                    = df_rows all_trades).
    { induction Hall as [|r rs Hr _ IH]; [done|].
      rewrite filter_cons_True, IH; [done|].
      apply parsable_stamp in Hr as (t & _ & -> & _). by eexists. }
    split; [apply weekly_count|]. split; [apply monthly_count|].
    split; [|split; [|split; [|split]]].
    + intros k n Hk. rewrite weekly_stamp in Hk.
      apply groupby_size_lookup in Hk as [Hn Hin]. split; [|done].
      apply list_elem_of_fmap in Hin as (r & Hrk & Hr).
      rewrite Forall_forall in Hall. apply Hall, parsable_stamp in Hr as (t & _ & Hs & Hv).
      unfold week_of in Hrk. rewrite Hs in Hrk. injection Hrk as ->.
      by apply isocalendar_week_range.
    + intros k n Hk. rewrite monthly_stamp in Hk.
      apply groupby_size_lookup in Hk as [Hn Hin]. split; [|done].
      apply list_elem_of_fmap in Hin as (r & Hrk & Hr).
      rewrite Forall_forall in Hall. apply Hall, parsable_stamp in Hr as (t & _ & Hs & Hv).
      unfold month_of in Hrk. rewrite Hs in Hrk. injection Hrk as ->.
      by apply month_range.
    + intros r Hr. rewrite Forall_forall in Hall.
      destruct (parsable_stamp r (Hall r Hr)) as (t & _ & Hs & _).
      exists t. split; [done|].
      rewrite weekly_stamp, monthly_stamp.
      split; apply groupby_size_elem, list_elem_of_fmap; exists r;
        (split; [|done]); unfold week_of, month_of; by rewrite Hs.
    + by rewrite weekly_total, Hsome.
    + by rewrite monthly_total, Hsome.
Qed.

End FramesProperties.

(** ** The timestamps that the form writes *)

Lemma digit_value_digit n : digit_value (digit n) = Some (n mod 10).
Proof.
  unfold digit_value, digit.
  assert (Hn : 0 <= n mod 10 < 10) by (apply Z.mod_pos_bound; lia).
  rewrite nat_ascii_embedding by lia.
  replace (Z.of_nat (48 + Z.to_nat (n mod 10)) - 48) with (n mod 10) by lia.
  destruct (Z.leb_spec 0 (n mod 10)), (Z.leb_spec (n mod 10) 9); simpl; (done || lia).
Qed.

Lemma number_pad2 n :
  0 <= n < 100 -> number [digit (n / 10); digit n] 0 = Some n.
Proof.
  intros Hn. cbn [number].
  repeat (rewrite digit_value_digit; cbn -[digit Z.mul Z.add Z.modulo Z.div]).
  f_equal. Z.to_euclidean_division_equations; lia.
Qed.

Lemma number_pad4 n :
  0 <= n < 10000 ->
  number [digit (n / 1000); digit (n / 100); digit (n / 10); digit n] 0 = Some n.
Proof.
  intros Hn. cbn [number].
  repeat (rewrite digit_value_digit; cbn -[digit Z.mul Z.add Z.modulo Z.div]).
  f_equal. Z.to_euclidean_division_equations; lia.
Qed.

(** The reference conversion reads back the timestamp that [strftime] wrote. *)
Lemma parse_strftime t :
  valid_datetime t = true -> parse_timestamp (strftime t) = Some t.
Proof.
  destruct t as [[y m d] h mi s]. unfold valid_datetime.
  cbn [date_of year month day hour minute second].
  rewrite !andb_true_iff, !Z.leb_le, !N.ltb_lt.
  intros [[[[[Hv Hy1] Hy2] Hh] Hmi] Hs].
  assert (Hmd : 1 <= m <= 12 /\ 1 <= d <= 31).
  { pose proof (month_range _ Hv) as Hm. unfold valid_date in Hv. cbn in Hv, Hm.
    rewrite !andb_true_iff, !Z.leb_le in Hv. split; [done|].
    unfold days_in_month in Hv.
    destruct (m =? 2), (is_leap y), ((m =? 4) || (m =? 6) || (m =? 9) || (m =? 11)); lia. }
  unfold parse_timestamp, strftime, field, pad4, pad2.
  cbv [String.append substring String.length list_ascii_of_string].
  cbn [date_of year month day hour minute second].
  rewrite bool_decide_eq_true_2 by done.
  rewrite (number_pad4 y) by lia. cbn [mbind option_bind].
  rewrite (number_pad2 m) by lia. cbn [mbind option_bind].
  rewrite (number_pad2 d) by lia. cbn [mbind option_bind].
  rewrite (number_pad2 (Z.of_N h)) by lia. cbn [mbind option_bind].
  rewrite (number_pad2 (Z.of_N mi)) by lia. cbn [mbind option_bind].
  rewrite (number_pad2 (Z.of_N s)) by lia. cbn [mbind option_bind].
  rewrite Hv.
  destruct (Z.leb_spec 1678 y), (Z.leb_spec y 2261),
    (Z.ltb_spec (Z.of_N h) 24), (Z.ltb_spec (Z.of_N mi) 60),
    (Z.ltb_spec (Z.of_N s) 60); try lia.
  cbn [andb]. by rewrite !N2Z.id.
Qed.

Lemma reference_to_datetime_strftime t :
  valid_datetime t = true ->
  reference_to_datetime (Text (strftime t)) = Ok (Some t).
Proof.
  intros Hv. unfold reference_to_datetime. rewrite parse_strftime by done.
  destruct (decide (strftime t = "")) as [E|]; [|done].
  by destruct t as [[y m d] h mi s].
Qed.

(** X6: in every store that the page reaches from a new file, with a clock
    that shows a day of the calendar, the [time] of every row converts to a
    timestamp: on the journals the page writes itself, the conversion of
    the [time] column does not raise. *)
Theorem runs_parsable es s' :
  Forall (fun e => clock_ok e = true) es ->
  runs es None = Ok s' ->
  rows_all (fun r => parsable reference_to_datetime r = true) s'.
Proof.
  intros Hes H.
  apply (runs_rows_all _) with (admitted := fun e => clock_ok e = true) (es := es)
                                (s := None); try done.
  - intros c v r Hc Hr. unfold parsable, cell in *.
    rewrite lookup_insert_ne; [done|].
    intros ->; repeat (apply elem_of_cons in Hc as [Hc|Hc]; [done|]);
      by apply not_elem_of_nil in Hc.
  - intros symbol trade_type entry_price tp sl result pips reason india_time r q
           Hclock _ Htime _ _ _.
    unfold parsable, cell. rewrite Htime. cbn [default from_option id].
    rewrite reference_to_datetime_strftime by done.
    cbn in Hclock. unfold valid_datetime in Hclock.
    rewrite !andb_true_iff in Hclock. tauto.
Qed.

Lemma runs_parsable_witness :
  rows_all (fun r => parsable reference_to_datetime r = true)
    (Some {| columns := columns fresh_table;
             rows := [ new_row (column_names fresh_table) 1
                         [ ("pair", Text "EURUSD"); ("trade_type", Text "Buy");
                           ("time", Text "2025-03-04 17:05:09");
                           ("entry_price", Real 1.125); ("tp", Int 50);
                           ("sl", Int 25); ("rr", Real 2);
                           ("result", Null); ("pips", Null);
                           ("reason", Text "breakout") ] ];
             seq := 1 |}).
Proof.
  apply (runs_parsable
           [ Submit "EURUSD" "Buy" 1.125 50 25 "" 0 "breakout" sample_time ]).
  - by repeat constructor.
  - vm_compute. reflexivity.
Defined.

(** ** The filter and the counts on the sample data *)

(** A label of the sample listing. *)
Ltac label := cbn; in_list.

Lemma filtered_spec_witness :
  exists out,
    filtered reference_to_datetime sample_frame [Text "EURUSD"] [Text "Buy"] jan_1_2025
      = Ok out /\
    df_columns out = df_columns sample_frame /\
    df_rows out
      = filter (fun r => keeps reference_to_datetime [Text "EURUSD"] [Text "Buy"]
                           jan_1_2025 r = true)
               (df_rows sample_frame) /\
    df_rows out `sublist_of` df_rows sample_frame /\
    (forall r, r ∈ df_rows out <->
       r ∈ df_rows sample_frame /\
       cell "pair" r ∈ [Text "EURUSD"] /\ cell "trade_type" r ∈ [Text "Buy"] /\
       exists t, reference_to_datetime (cell "time" r) = Ok (Some t) /\
                 date_leb jan_1_2025 (date_of t) = true) /\
    ([Text "EURUSD"] = [] \/ [Text "Buy"] = [] -> df_rows out = []).
Proof.
  exact (filtered_spec reference_to_datetime sample_frame [Text "EURUSD"]
           [Text "Buy"] jan_1_2025 ltac:(label) ltac:(label) ltac:(label)).
Defined.

(** C3 as it was stated fails on a frame with a [time] that does not
    parse: with an empty pair set the filter does not return an empty
    result, it raises. *)
Lemma filtered_raises_on_unparsable_time :
  filtered reference_to_datetime edited_frame [] [Text "Buy"] jan_1_2025
  = Raise (ParserError "garbage").
Proof. vm_compute. reflexivity. Qed.

(** The scenario of the specification: EURUSD, Buy, from 1 January 2025. *)
Example filtered_eurusd_buy :
  (out ← filtered reference_to_datetime sample_frame [Text "EURUSD"] [Text "Buy"]
           jan_1_2025;
   Ok (cell "id" <$> df_rows out))
  = Ok [Int 1].
Proof. vm_compute. reflexivity. Qed.

(** The date test compares with the midnight that starts the day: the last
    second of 31 December is out, the first second of 1 January is in. *)
Example filtered_midnight :
  (out ← filtered reference_to_datetime
           {| df_columns := column_names sample_table;
              df_rows := [ sample_row 1 "EURUSD" "Buy" "2024-12-31 23:59:59" 1.125
                             50 25 2 Null Null "";
                           sample_row 2 "EURUSD" "Buy" "2025-01-01 00:00:00" 1.125
                             50 25 2 Null Null "" ] |}
           [Text "EURUSD"] [Text "Buy"] jan_1_2025;
   Ok (cell "id" <$> df_rows out))
  = Ok [Int 2].
Proof. vm_compute. reflexivity. Qed.

(** A row whose [time] is NULL is dropped by the date test, without an error. *)
Example filtered_null_time :
  (out ← filtered reference_to_datetime frame_with_null_time
           [Text "EURUSD"; Text "USDJPY"; Text "XAUUSD"] [Text "Buy"; Text "Sell"]
           jan_1_2025;
   Ok (cell "id" <$> df_rows out))
  = Ok [Int 1; Int 2].
Proof. vm_compute. reflexivity. Qed.

Lemma stats_refused_or_counted_witness :
  ((exists r e, r ∈ df_rows edited_frame /\
                reference_to_datetime (cell "time" r) = Raise e) ->
   exists e, stats reference_to_datetime edited_frame = Raise e) /\
  ((forall r, r ∈ df_rows edited_frame ->
              exists x, reference_to_datetime (cell "time" r) = Ok x) ->
   exists weekly_counts monthly_counts,
     stats reference_to_datetime edited_frame = Ok (Some (weekly_counts, monthly_counts)) /\
     (forall k, count_of weekly_counts k
                = length (filter (fun r => week_of reference_to_datetime r = Some k)
                                 (df_rows edited_frame))) /\
     (forall k, count_of monthly_counts k
                = length (filter (fun r => month_of reference_to_datetime r = Some k)
                                 (df_rows edited_frame))) /\
     total weekly_counts = length (filter (fun r => is_Some (stamp reference_to_datetime r))
                                 (df_rows edited_frame)) /\
     total monthly_counts = length (filter (fun r => is_Some (stamp reference_to_datetime r))
                                  (df_rows edited_frame))).
Proof.
  apply (stats_refused_or_counted reference_to_datetime edited_frame);
    [reflexivity | label].
Defined.

(** C8 as it was stated fails on the same frame: the row whose [time] does
    not parse is not left out of the counts, the block raises. *)
Lemma stats_raises_on_unparsable_time :
  stats reference_to_datetime edited_frame = Raise (ParserError "garbage").
Proof. vm_compute. reflexivity. Qed.

(** A row whose [time] is NULL is left out: two trades are counted, in
    weeks 10 and 11 and in month 3. *)
Example stats_null_time :
  (r ← stats reference_to_datetime frame_with_null_time;
   Ok (match r with
       | Some (week, month) =>
           Some (count_of week 10, count_of week 11, total week,
                 count_of month 3, total month)
       | None => None
       end))
  = Ok (Some (1, 1, 2, 2, 2)%nat).
Proof. vm_compute. reflexivity. Qed.

Lemma stats_counts_witness :
  exists result,
    stats reference_to_datetime sample_frame = Ok result /\
    let weekly_counts := default ∅ (fst <$> result) in
    let monthly_counts := default ∅ (snd <$> result) in
    (forall k, count_of weekly_counts k
               = length (filter (fun r => week_of reference_to_datetime r = Some k)
                                (df_rows sample_frame))) /\
    (forall k, count_of monthly_counts k
               = length (filter (fun r => month_of reference_to_datetime r = Some k)
                                (df_rows sample_frame))) /\
    (forall k n, weekly_counts !! k = Some n -> 1 <= k <= 53 /\ (0 < n)%nat) /\
    (forall k n, monthly_counts !! k = Some n -> 1 <= k <= 12 /\ (0 < n)%nat) /\
    (forall r, r ∈ df_rows sample_frame ->
       exists t, stamp reference_to_datetime r = Some t /\
                 is_Some (weekly_counts !! isocalendar_week (date_of t)) /\
                 is_Some (monthly_counts !! month (date_of t))) /\
    total weekly_counts = length (df_rows sample_frame) /\
    total monthly_counts = length (df_rows sample_frame).
Proof.
  apply (stats_counts reference_to_datetime sample_frame);
    [label | repeat constructor].
Defined.

(** The scenario of the specification: one trade, saved through the form,
    is counted once, in the ISO week and in the month of its timestamp. *)
Example stats_after_submit :
  (s ← trade_form_submit "EURUSD" "Buy" 1.125 50 25 "" 0 "breakout"
         sample_time (Some fresh_table);
   df ← get_all_trades s.1;
   r ← stats reference_to_datetime df;
   Ok (match r with
       | Some (week, month) => Some (map_to_list week, map_to_list month)
       | None => None
       end))
  = Ok (Some ([(10, 1%nat)], [(3, 1%nat)])).
Proof. vm_compute. reflexivity. Qed.

(** * Further properties *)

(** ** The set-up on any file *)





Lemma initialize_keeps_rows_witness :
  exists t',
    initialize (Some first_version_table) = Ok (Some t') /\
    seq t' = seq first_version_table /\
    columns first_version_table `prefix_of` columns t' /\
    length (rows t') = length (rows first_version_table) /\
    forall i r, rows first_version_table !! i = Some r ->
      exists r', rows t' !! i = Some r' /\
        forall c, c ∈ column_names first_version_table -> r' !! c = r !! c.
Proof.
  eexists. split; [reflexivity|].
  apply (initialize_keeps_rows first_version_table). reflexivity.
Defined.

Lemma runs_migrated_witness :
  exists t', Some fresh_table = Some t' /\ migrated t' = true.
Proof.
  apply (runs_migrated (Delete 5) [] (Some fresh_table)). reflexivity.
Defined.

(** ** Rowids: in order, never used twice *)

Lemma rowid_insert c v (r : row) : c ≠ "id" -> rowid (<[c := v]> r) = rowid r.
Proof. intros H. unfold rowid. by rewrite lookup_insert_ne. Qed.

Lemma rowid_set_result_pips result pips r :
  rowid (set_result_pips result pips r) = rowid r.
Proof. unfold set_result_pips. by rewrite !rowid_insert. Qed.

Lemma ids_above_weaken low low' rs :
  low' <= low -> ids_above low rs -> ids_above low' rs.
Proof.
  destruct rs as [|r rs]; [done|]. intros Hle (i & Hi & Hlt & Hrs).
  exists i. repeat split; [done | lia | done].
Qed.

Lemma ids_above_snoc low rs r i :
  ids_above low rs ->
  Forall (fun r => exists j, rowid r = Some j /\ j < i) rs ->
  rowid r = Some i -> low < i ->
  ids_above low (rs ++ [r]).
Proof.
  revert low. induction rs as [|r0 rs IH]; intros low Hrs Hall Hr Hlow.
  - by exists i.
  - destruct Hrs as (j & Hj & Hlt & Hrs). apply Forall_cons in Hall as [Hr0 Hall].
    destruct Hr0 as (j' & Hj' & Hlt'). rewrite Hj in Hj'. injection Hj' as <-.
    exists j. repeat split; [done | done |]. by apply IH.
Qed.

Lemma ids_above_filter (P : row -> Prop) `{!forall r, Decision (P r)} low rs :
  ids_above low rs -> ids_above low (filter P rs).
Proof.
  revert low. induction rs as [|r rs IH]; intros low Hrs; [done|].
  destruct Hrs as (i & Hi & Hlt & Hrs). rewrite filter_cons.
  destruct (decide (P r)).
  - exists i. repeat split; [done | done |]. by apply IH.
  - apply ids_above_weaken with i; [lia|]. by apply IH.
Qed.

Lemma ids_above_fmap (f : row -> row) low rs :
  (forall r, rowid (f r) = rowid r) ->
  ids_above low rs -> ids_above low (f <$> rs).
Proof.
  intros Hf. revert low. induction rs as [|r rs IH]; intros low Hrs; [done|].
  destruct Hrs as (i & Hi & Hlt & Hrs). rewrite fmap_cons.
  exists i. rewrite Hf. repeat split; [done | done |]. by apply IH.
Qed.

Lemma ids_above_sorted low rs :
  ids_above low rs ->
  StronglySorted Z.lt (omap rowid rs) /\
  Forall (fun i => low < i) (omap rowid rs) /\
  length (omap rowid rs) = length rs.
Proof.
  revert low. induction rs as [|r rs IH]; intros low Hrs.
  - repeat split; constructor.
  - destruct Hrs as (i & Hi & Hlt & Hrs). cbn [omap list_omap]. rewrite Hi.
    destruct (IH i Hrs) as (Hs & Hall & Hlen).
    repeat split.
    + by constructor.
    + constructor; [done|]. eapply Forall_impl; [exact Hall|]. intros j Hj. cbn in Hj. lia.
    + cbn. by rewrite Hlen.
Qed.

Lemma max_rowid_le n rs :
  0 <= n ->
  Forall (fun r => exists i, rowid r = Some i /\ i <= n) rs ->
  max_rowid rs <= n.
Proof.
  intros Hn. induction 1 as [|r rs (i & Hi & Hle) _ IH]; cbn [max_rowid foldr].
  - done.
  - rewrite Hi. cbn [default from_option id]. fold (max_rowid rs). lia.
Qed.

(** On a table with its columns, a successful insert hands out the rowid
    after the largest one used so far. *)
Lemma insert_trade_rowid symbol trade_type time entry_price tp sl rr result pips
    reason t s' :
  migrated t = true ->
  insert_trade symbol trade_type time entry_price tp sl rr result pips reason (Some t)
    = Ok s' ->
  exists r,
    s' = Some {| columns := columns t; rows := rows t ++ [r];
                 seq := Z.max (seq t) (max_rowid (rows t)) + 1 |} /\
    rowid r = Some (Z.max (seq t) (max_rowid (rows t)) + 1).
Proof.
  intros Hm. unfold insert_trade.
  rewrite (missing_column_migrated _ _ Hm) by (repeat constructor; in_list).
  destruct (max_int64 <=? _); [done|]. intros [= <-].
  eexists. split; [done|].
  apply new_row_rowid, (migrated_columns _ _ Hm). in_list.
Qed.

Lemma omap_rowid_fmap (f : row -> row) (rs : list row) :
  (forall r, rowid (f r) = rowid r) -> omap rowid (f <$> rs) = omap rowid rs.
Proof.
  intros Hf. induction rs as [|r rs IH]; [done|].
  rewrite fmap_cons. cbn [omap list_omap]. by rewrite Hf, IH.
Qed.

Lemma elem_of_omap_filter (P : row -> Prop) `{!forall r, Decision (P r)} i
    (rs : list row) :
  i ∈ omap rowid (filter P rs) -> i ∈ omap rowid rs.
Proof.
  rewrite !list_elem_of_omap. intros (r & Hr & Hi).
  apply list_elem_of_filter in Hr as [_ Hr]. by exists r.
Qed.

(** One handler on a table with its columns: the order of the rowids is
    kept, the counter does not go down, and a rowid at or below the old
    counter is in the table only if it was there before. *)
Lemma handler_ids e t s' :
  journal_ok (Some t) ->
  match e with
  | Submit symbol trade_type entry_price tp sl result pips reason india_time =>
      r ← trade_form_submit symbol trade_type entry_price tp sl result pips reason
            india_time (Some t);
      Ok r.1
  | Update update_id result_update pips_update =>
      update_result_pips update_id result_update pips_update (Some t)
  | Delete delete_id => delete_trade delete_id (Some t)
  end = Ok s' ->
  journal_ok s' /\ seq t <= counter s' <= seq t + 1 /\
  forall i, i ∈ ids s' -> i <= seq t -> i ∈ ids (Some t).
Proof.
  intros (Hm & Hseq & Habove & Hall).
  destruct e as [symbol trade_type entry_price tp sl result pips reason india_time
                |update_id result_update pips_update|delete_id].
  - destruct (trade_form_submit _ _ _ _ _ _ _ _ _ (Some t)) as [[s2 n]|?] eqn:Hsub;
      cbn [mbind res_bind]; [|done].
    intros [= <-]. cbn [fst]. revert Hsub. unfold trade_form_submit.
    destruct (_ && _ && _);
      [|intros [= <- _]; split; [done|]; split; [cbn; lia | done]].
    destruct (truediv tp sl); cbn [mbind res_bind]; [|done].
    destruct (insert_trade _ _ _ _ _ _ _ _ _ _ (Some t)) as [s3|?] eqn:Hins;
      cbn [mbind res_bind]; [|done].
    intros [= <- _].
    apply insert_trade_rowid in Hins as (r & -> & Hr); [|done].
    pose proof (max_rowid_le _ _ Hseq Hall) as Hmax.
    replace (Z.max (seq t) (max_rowid (rows t))) with (seq t) in * by lia.
    split; [|split].
    + split; [exact (eq_trans (migrated_same_columns t _ eq_refl) Hm)|].
      cbn [seq rows]. split; [lia|]. split.
      * apply ids_above_snoc with (seq t + 1); [done | | done | lia].
        eapply Forall_impl; [exact Hall|]. intros r0 (j & Hj & Hle). exists j. split; [done | lia].
      * apply Forall_app. split.
        -- eapply Forall_impl; [exact Hall|]. intros r0 (j & Hj & Hle).
           exists j. split; [done | cbn; lia].
        -- constructor; [|done]. exists (seq t + 1). split; [done | cbn; lia].
    + cbn. lia.
    + cbn [ids rows]. intros i. rewrite omap_app, elem_of_app. cbn [omap list_omap].
      rewrite Hr. intros [Hi|Hi] Hle; [done|].
      apply list_elem_of_singleton in Hi. lia.
  - rewrite update_result_pips_ok by done. intros [= <-].
    assert (Hf : forall r, rowid (if has_id update_id r
                                  then set_result_pips result_update pips_update r
                                  else r) = rowid r).
    { intros r. destruct (has_id update_id r); [apply rowid_set_result_pips | done]. }
    split; [|split].
    + split; [exact (eq_trans (migrated_same_columns t _ eq_refl) Hm)|].
      cbn [seq rows]. split; [done|]. split.
      * by apply ids_above_fmap.
      * cbn [seq rows]. rewrite Forall_fmap. eapply Forall_impl; [exact Hall|].
        intros r Hr. cbn. by rewrite Hf.
    + cbn. lia.
    + cbn [ids rows]. intros i. by rewrite omap_rowid_fmap.
  - rewrite delete_trade_ok by done. intros [= <-].
    split; [|split].
    + split; [exact (eq_trans (migrated_same_columns t _ eq_refl) Hm)|].
      cbn [seq rows]. split; [done|]. split.
      * by apply ids_above_filter.
      * cbn [seq rows]. rewrite Forall_forall in *. intros r Hr.
        apply list_elem_of_filter in Hr as [_ Hr]. by apply Hall.
    + cbn. lia.
    + cbn [ids rows]. intros i Hi _. by eapply elem_of_omap_filter.
Qed.

Lemma run_ids e s s' :
  journal_ok s -> run e s = Ok s' ->
  journal_ok s' /\ counter s <= counter s' <= counter s + 1 /\
  forall i, i ∈ ids s' -> i <= counter s -> i ∈ ids s.
Proof.
  intros Hs. unfold run.
  destruct s as [t|].
  - destruct Hs as (Hm & Hrest).
    rewrite initialize_migrated by (apply (migrated_columns _ _ Hm); in_list).
    cbn [mbind res_bind]. intros H. by apply (handler_ids e t s').
  - rewrite initialize_new. cbn [mbind res_bind]. intros H.
    apply (handler_ids e fresh_table s') in H as (Hok & Hc & Hids).
    + split; [done|]. split; [done|]. intros i Hi Hle. by apply Hids.
    + split; [reflexivity|]. split; [done|]. split; [exact I | constructor].
Qed.

Lemma runs_ids es s s' :
  journal_ok s -> runs es s = Ok s' ->
  journal_ok s' /\ counter s <= counter s' /\
  forall i, i ∈ ids s' -> i <= counter s -> i ∈ ids s.
Proof.
  revert s. induction es as [|e es IH]; intros s Hs; cbn [runs].
  - intros [= <-]. split; [done|]. split; [lia | done].
  - destruct (run e s) as [s1|?] eqn:Hrun; cbn [mbind res_bind]; [|done].
    intros H. apply run_ids in Hrun as (Hok1 & Hc1 & Hids1); [|done].
    apply IH in H as (Hok & Hc & Hids); [|done].
    split; [done|]. split; [lia|].
    intros i Hi Hle. apply Hids1; [apply Hids; [done | lia] | done].
Qed.

Lemma Forall_rowid_le n (rs : list row) :
  Forall (fun r => exists i, rowid r = Some i /\ i <= n) rs ->
  Forall (fun i => i <= n) (omap rowid rs).
Proof.
  intros H. apply Forall_forall. intros i Hi.
  apply list_elem_of_omap in Hi as (r & Hr & Hi).
  rewrite Forall_forall in H. destruct (H r Hr) as (j & Hj & Hle).
  rewrite Hi in Hj. injection Hj as <-. done.
Qed.

(** X7: in every listing of a journal that the page has written from a new
    file, every row has a rowid, each rowid is larger than the one of the
    row before (so no two rows share one, and the order of the listing is
    the order of the rowids), and all of them lie between 1 and the rowid
    counter. *)
Theorem listing_ids_increasing es s df :
  runs es None = Ok s ->
  get_all_trades s = Ok df ->
  StronglySorted Z.lt (omap rowid (df_rows df)) /\
  length (omap rowid (df_rows df)) = length (df_rows df) /\
  Forall (fun i => 0 < i <= counter s) (omap rowid (df_rows df)).
Proof.
  intros Hruns Hlist.
  apply runs_ids in Hruns as (Hok & _ & _); [|exact I].
  destruct s as [t|]; [|done]. injection Hlist as <-. cbn [df_rows counter].
  destruct Hok as (_ & _ & Habove & Hall).
  apply ids_above_sorted in Habove as (Hsorted & Hlow & Hlen).
  split; [done|]. split; [done|].
  apply Forall_rowid_le in Hall.
  rewrite Forall_forall in Hlow, Hall. apply Forall_forall.
  intros i Hi. split; [by apply Hlow | by apply Hall].
Qed.

Lemma listing_ids_increasing_witness :
  StronglySorted Z.lt (omap rowid (df_rows sample_frame)) /\
  length (omap rowid (df_rows sample_frame)) = length (df_rows sample_frame) /\
  Forall (fun i => 0 < i <= counter (Some sample_table))
    (omap rowid (df_rows sample_frame)).
Proof.
  apply (listing_ids_increasing sample_session (Some sample_table) sample_frame).
  - vm_compute. reflexivity.
  - reflexivity.
Defined.

Lemma has_id_rowid i r : has_id i r = true <-> rowid r = Some i.
Proof. unfold has_id. apply bool_decide_eq_true. Qed.

(** X8: a rowid is never handed out twice.  Once the trade with a rowid
    has been deleted, no later listing has a row with that rowid, whatever
    is submitted, updated or deleted afterwards. *)
Theorem deleted_id_never_returns es1 es2 i s1 s2 :
  runs es1 None = Ok s1 ->
  i ∈ ids s1 ->
  runs (Delete i :: es2) s1 = Ok s2 ->
  i ∉ ids s2.
Proof.
  intros H1 Hi H2.
  apply runs_ids in H1 as (Hok1 & _ & _); [|exact I].
  cbn [runs] in H2.
  destruct (run (Delete i) s1) as [s1'|?] eqn:Hdel; cbn [mbind res_bind] in H2; [|done].
  destruct s1 as [t|]; [|by apply not_elem_of_nil in Hi].
  assert (Hle : i <= seq t).
  { destruct Hok1 as (_ & _ & _ & Hall). apply Forall_rowid_le in Hall.
    rewrite Forall_forall in Hall. by apply Hall. }
  assert (Hgone : i ∉ ids s1').
  { revert Hdel. unfold run. destruct Hok1 as (Hm & _).
    rewrite initialize_migrated by (apply (migrated_columns _ _ Hm); in_list).
    cbn [mbind res_bind]. rewrite delete_trade_ok by done. intros [= <-].
    cbn [ids rows]. intros Hin.
    apply list_elem_of_omap in Hin as (r & Hr & Hri).
    apply list_elem_of_filter in Hr as [Hno _].
    apply has_id_rowid in Hri. by rewrite Hri in Hno. }
  apply run_ids in Hdel as (Hok1' & Hc1 & _); [|done].
  apply runs_ids in H2 as (_ & _ & Hids); [|done].
  intros Hin. apply Hgone, Hids; [done|]. cbn [counter] in Hc1. lia.
Qed.

Lemma deleted_id_never_returns_witness :
  1 ∈ ids (Some sample_table) /\ ~ 1 ∈ ids (Some second_trade_only).
Proof.
  split; [cbn; in_list|].
  apply (deleted_id_never_returns sample_session [] 1 (Some sample_table)
           (Some second_trade_only)).
  - vm_compute. reflexivity.
  - cbn. in_list.
  - vm_compute. reflexivity.
Defined.

Lemma filter_all {A} (P : A -> Prop) `{!forall x, Decision (P x)} (l : list A) :
  Forall P l -> filter P l = l.
Proof.
  induction 1 as [|x l Hx _ IH]; [done|]. by rewrite filter_cons_True, IH.
Qed.

(** In a list of rows with increasing rowids, a rowid names one row. *)
Lemma ids_above_split low rs i :
  ids_above low rs -> i ∈ omap rowid rs ->
  exists l1 r l2,
    rs = l1 ++ r :: l2 /\ rowid r = Some i /\
    Forall (fun r => rowid r ≠ Some i) l1 /\
    Forall (fun r => rowid r ≠ Some i) l2.
Proof.
  revert low. induction rs as [|r0 rs IH]; intros low Hrs Hi.
  - by apply not_elem_of_nil in Hi.
  - destruct Hrs as (j & Hj & Hlt & Hrs).
    destruct (decide (i = j)) as [->|Hne].
    + exists [], r0, rs. split; [done|]. split; [done|]. split; [constructor|].
      apply ids_above_sorted in Hrs as (_ & Hlow & _).
      rewrite Forall_forall in Hlow. apply Forall_forall. intros r Hr Hrj.
      assert (Hin : j ∈ omap rowid rs) by (apply list_elem_of_omap; by exists r).
      apply Hlow in Hin. lia.
    + cbn [omap list_omap] in Hi. rewrite Hj in Hi.
      apply elem_of_cons in Hi as [->|Hi]; [done|].
      destruct (IH j Hrs Hi) as (l1 & r & l2 & -> & Hr & H1 & H2).
      exists (r0 :: l1), r, l2. split; [done|]. split; [done|]. split; [|done].
      constructor; [|done]. rewrite Hj. by intros [= ->].
Qed.

(** X9: in a journal that the page has written from a new file, the rowid
    of a listed trade names that one row: deleting it takes exactly this
    row out of the listing and leaves the rows before it and after it as
    they are, in their order. *)
Theorem delete_removes_exactly_one es t i :
  runs es None = Ok (Some t) ->
  i ∈ ids (Some t) ->
  exists before r after,
    rows t = before ++ r :: after /\ rowid r = Some i /\
    delete_trade i (Some t)
    = Ok (Some {| columns := columns t; rows := before ++ after; seq := seq t |}) /\
    get_all_trades (Some {| columns := columns t; rows := before ++ after; seq := seq t |})
    = Ok {| df_columns := column_names t; df_rows := before ++ after |}.
Proof.
  intros Hruns Hi.
  apply runs_ids in Hruns as ((Hm & _ & Habove & _) & _ & _); [|exact I].
  destruct (ids_above_split 0 (rows t) i Habove Hi) as (l1 & r & l2 & Hrows & Hr & H1 & H2).
  exists l1, r, l2. split; [done|]. split; [done|]. split; [|done].
  rewrite delete_trade_ok by done. rewrite Hrows.
  rewrite filter_app, filter_cons_False, !filter_all; [done| | |].
  - eapply Forall_impl; [exact H2|]. intros r0 Hr0. cbn.
    destruct (has_id i r0) eqn:E; [|done]. by apply has_id_rowid in E.
  - eapply Forall_impl; [exact H1|]. intros r0 Hr0. cbn.
    destruct (has_id i r0) eqn:E; [|done]. by apply has_id_rowid in E.
  - apply has_id_rowid in Hr. by rewrite Hr.
Qed.

Lemma delete_removes_exactly_one_witness :
  exists before r after,
    rows sample_table = before ++ r :: after /\ rowid r = Some 1 /\
    delete_trade 1 (Some sample_table)
    = Ok (Some {| columns := columns sample_table; rows := before ++ after;
                  seq := seq sample_table |}) /\
    get_all_trades (Some {| columns := columns sample_table; rows := before ++ after;
                            seq := seq sample_table |})
    = Ok {| df_columns := column_names sample_table; df_rows := before ++ after |}.
Proof.
  apply (delete_removes_exactly_one sample_session sample_table 1).
  - vm_compute. reflexivity.
  - cbn. in_list.
Defined.

(** ** How the statements compose *)

Lemma missing_column_cons c names t :
  missing_column (c :: names) t
  = if has_column c t then missing_column names t else Some c.
Proof.
  unfold missing_column. rewrite filter_cons.
  destruct (has_column c t); by destruct (decide _).
Qed.

Lemma missing_column_same_columns names t t' :
  columns t' = columns t -> missing_column names t' = missing_column names t.
Proof.
  intros H. unfold missing_column, has_column, column_names. by rewrite H.
Qed.

Lemma has_id_set_result_pips i result pips r :
  has_id i (set_result_pips result pips r) = has_id i r.
Proof. unfold has_id. by rewrite rowid_set_result_pips. Qed.

Lemma set_result_pips_twice result1 pips1 result2 pips2 r :
  set_result_pips result2 pips2 (set_result_pips result1 pips1 r)
  = set_result_pips result2 pips2 r.
Proof.
  unfold set_result_pips. apply map_eq. intros k.
  destruct (decide (k = "result")) as [->|?]; [by rewrite !lookup_insert_eq|].
  destruct (decide (k = "pips")) as [->|?].
  - rewrite !(lookup_insert_ne _ "result") by done. by rewrite !lookup_insert_eq.
  - by repeat (rewrite lookup_insert_ne by congruence).
Qed.

(** X10: the last update of a trade wins.  Two updates of the same id, one
    after the other, leave the store, or fail, exactly as the second one
    alone does: nothing of the first outcome is kept. *)
Theorem update_last_wins trade_id result1 pips1 result2 pips2 s :
  (s1 ← update_result_pips trade_id result1 pips1 s;
   update_result_pips trade_id result2 pips2 s1)
  = update_result_pips trade_id result2 pips2 s.
Proof.
  destruct s as [t|]; [|done]. unfold update_result_pips.
  destruct (missing_column ["result"; "pips"; "id"] t) eqn:Hmiss;
    cbn [mbind res_bind]; [done|].
  rewrite (missing_column_same_columns _ t) by done. rewrite Hmiss.
  cbn [columns rows seq]. do 3 f_equal.
  rewrite <- list_fmap_compose. apply list_fmap_ext. intros k r _. cbn.
  destruct (has_id trade_id r) eqn:E.
  - by rewrite has_id_set_result_pips, E, set_result_pips_twice.
  - by rewrite E.
Qed.

Lemma filter_fmap_commute {A} (P : A -> Prop) `{!forall x, Decision (P x)}
    (f : A -> A) (l : list A) :
  (forall x, P (f x) <-> P x) ->
  filter P (f <$> l) = f <$> filter P l.
Proof.
  intros Hf. induction l as [|x l IH]; [done|].
  rewrite fmap_cons, !filter_cons.
  destruct (decide (P (f x))) as [Hfx|Hfx], (decide (P x)) as [Hx|Hx].
  - by rewrite fmap_cons, IH.
  - destruct Hx. by apply Hf.
  - destruct Hfx. by apply Hf.
  - by rewrite IH.
Qed.

(** After the set-up, an update and a delete fail on the same tables, the
    ones without an [id] column, and with the same error. *)
Lemma update_delete_errors update_id result_update pips_update delete_id t :
  "result" ∈ column_names t -> "pips" ∈ column_names t ->
  match missing_column ["id"] t with
  | Some c =>
      update_result_pips update_id result_update pips_update (Some t)
      = Raise (OperationalError ("no such column: " +:+ c)) /\
      delete_trade delete_id (Some t)
      = Raise (OperationalError ("no such column: " +:+ c))
  | None =>
      update_result_pips update_id result_update pips_update (Some t)
      = Ok (Some {| columns := columns t;
                    rows := (fun r => if has_id update_id r
                                      then set_result_pips result_update pips_update r
                                      else r) <$> rows t;
                    seq := seq t |}) /\
      delete_trade delete_id (Some t)
      = Ok (Some {| columns := columns t;
                    rows := filter (fun r => has_id delete_id r = false) (rows t);
                    seq := seq t |})
  end.
Proof.
  intros Hr Hp. unfold update_result_pips, delete_trade.
  rewrite (missing_column_cons "result"), (missing_column_cons "pips").
  rewrite (proj2 (has_column_true _ _) Hr), (proj2 (has_column_true _ _) Hp).
  by destruct (missing_column ["id"] t).
Qed.

(** X11: an update and a delete can be done in either order.  Whatever the
    file holds, the run that updates one trade followed by the run that
    deletes a trade leaves the same store, or fails with the same error, as
    the two runs in the other order. *)
Theorem update_delete_commute update_id result_update pips_update delete_id s :
  runs [Update update_id result_update pips_update; Delete delete_id] s
  = runs [Delete delete_id; Update update_id result_update pips_update] s.
Proof.
  cbn [runs]. unfold run.
  destruct (initialize_total s) as [s1 Hs1]. rewrite Hs1. cbn [mbind res_bind].
  destruct (initialize_columns _ _ Hs1) as (t & -> & He & Hr & Hp).
  pose proof (update_delete_errors update_id result_update pips_update delete_id t Hr Hp)
    as Hfirst.
  destruct (missing_column ["id"] t) as [c|] eqn:Hid.
  - destruct Hfirst as [-> ->]. done.
  - destruct Hfirst as [-> ->]. cbn [mbind res_bind].
    rewrite !initialize_migrated by done. cbn [mbind res_bind].
    match goal with
    | |- context [delete_trade _ (Some ?t1)] =>
        pose proof (update_delete_errors update_id result_update pips_update
                      delete_id t1 Hr Hp) as H1;
        rewrite (missing_column_same_columns _ t t1 eq_refl), Hid in H1;
        destruct H1 as [_ ->]
    end.
    match goal with
    | |- context [update_result_pips _ _ _ (Some ?t2)] =>
        pose proof (update_delete_errors update_id result_update pips_update
                      delete_id t2 Hr Hp) as H2;
        rewrite (missing_column_same_columns _ t t2 eq_refl), Hid in H2;
        destruct H2 as [-> _]
    end.
    cbn [mbind res_bind columns rows seq]. do 3 f_equal.
    apply filter_fmap_commute. intros r.
    destruct (has_id update_id r); [|done].
    by rewrite has_id_set_result_pips.
Qed.

(** ** The entry form and the insert *)

(** X12: a submit never fails on the division.  Whatever the widgets hold
    and whatever the file holds, [tp / sl] is computed only after [sl] was
    found positive, so the only error that a submit can end in is an error
    of the database. *)
Theorem submit_raises_only_database_errors pair trade_type entry_price tp sl
    result pips reason india_time s e :
  trade_form_submit pair trade_type entry_price tp sl result pips reason
    india_time s = Raise e ->
  exists msg, e = OperationalError msg.
Proof.
  unfold trade_form_submit.
  destruct (0 <? tp) eqn:Htp; cbn [andb]; [|done].
  destruct (0 <? sl) eqn:Hsl; cbn [andb]; [|done].
  destruct (0 <? entry_price)%float; [|done].
  apply Z.ltb_lt in Hsl.
  destruct (truediv_ok tp sl) as [q ->]; [lia|]. cbn [mbind res_bind].
  destruct (insert_trade _ _ _ _ _ _ _ _ _ _ s) as [s1|e1] eqn:Hins;
    cbn [mbind res_bind]; [done|].
  intros [= <-]. revert Hins. unfold insert_trade.
  destruct s as [t|]; [|intros [= <-]; by eexists].
  destruct (missing_column _ t); [intros [= <-]; by eexists|].
  destruct (max_int64 <=? _); [intros [= <-]; by eexists | done].
Qed.

Lemma submit_raises_only_database_errors_witness :
  exists msg, OperationalError "no such table: trades" = OperationalError msg.
Proof.
  apply (submit_raises_only_database_errors "EURUSD" "Buy" 1.125 50 25 "" 0
           "breakout" sample_time None).
  vm_compute. reflexivity.
Defined.

(** X13: what is inserted is what the listing returns.  On a journal that
    the page has written from a new file, with a rowid to spare, the insert
    succeeds; the listing after it is the listing before it with one row
    more at its end; that row has the rowid after the counter, which no
    other row has, and reads back, column by column, the values that were
    passed, with NULL for a result or a pips that was passed as None. *)
Theorem insert_then_list es t pair trade_type time entry_price tp sl rr result
    pips reason :
  runs es None = Ok (Some t) ->
  seq t < max_int64 ->
  exists s' r,
    insert_trade pair trade_type time entry_price tp sl rr result pips reason (Some t)
      = Ok s' /\
    get_all_trades s'
      = Ok {| df_columns := column_names t; df_rows := rows t ++ [r] |} /\
    counter s' = seq t + 1 /\
    cell "id" r = Int (seq t + 1) /\ ~ (seq t + 1) ∈ ids (Some t) /\
    cell "pair" r = Text pair /\
    cell "trade_type" r = Text trade_type /\
    cell "time" r = Text time /\
    cell "entry_price" r = Real entry_price /\
    cell "tp" r = Int tp /\
    cell "sl" r = Int sl /\
    cell "rr" r = Real rr /\
    cell "result" r = opt_text result /\
    cell "pips" r = opt_int pips /\
    cell "reason" r = Text reason.
Proof.
  intros Hruns Hspare.
  apply runs_ids in Hruns as ((Hm & Hseq & Habove & Hall) & _ & _); [|exact I].
  pose proof (max_rowid_le _ _ Hseq Hall) as Hmax.
  destruct (insert_trade_ok pair trade_type time entry_price tp sl rr result pips
              reason t Hm) as (r & Hins & Hid & Hcells); [lia|].
  replace (Z.max (seq t) (max_rowid (rows t))) with (seq t) in * by lia.
  exists (Some {| columns := columns t; rows := rows t ++ [r]; seq := seq t + 1 |}), r.
  split; [done|]. split; [done|]. split; [done|].
  split.
  { unfold cell. unfold rowid in Hid. destruct (r !! "id") as [[| n | |]|]; try done.
    by injection Hid as ->. }
  split.
  { intros Hin. cbn [ids] in Hin. apply Forall_rowid_le in Hall.
    rewrite Forall_forall in Hall. apply Hall in Hin. lia. }
  unfold cell.
  destruct Hcells as (-> & -> & -> & -> & -> & -> & -> & -> & -> & ->).
  by repeat split.
Qed.

Lemma insert_then_list_witness :
  exists s' r,
    insert_trade "GBPUSD" "Buy" "2025-03-14 11:00:00" 1.25 40 16 2.5 None (Some 12)
      "news" (Some sample_table) = Ok s' /\
    get_all_trades s'
      = Ok {| df_columns := column_names sample_table;
              df_rows := rows sample_table ++ [r] |} /\
    counter s' = seq sample_table + 1 /\
    cell "id" r = Int (seq sample_table + 1) /\
    ~ (seq sample_table + 1) ∈ ids (Some sample_table) /\
    cell "pair" r = Text "GBPUSD" /\
    cell "trade_type" r = Text "Buy" /\
    cell "time" r = Text "2025-03-14 11:00:00" /\
    cell "entry_price" r = Real 1.25 /\
    cell "tp" r = Int 40 /\
    cell "sl" r = Int 16 /\
    cell "rr" r = Real 2.5 /\
    cell "result" r = opt_text None /\
    cell "pips" r = opt_int (Some 12) /\
    cell "reason" r = Text "news".
Proof.
  apply (insert_then_list sample_session sample_table).
  - vm_compute. reflexivity.
  - reflexivity.
Defined.

(** ** The filter, once more *)

Lemma date_leb_spec a b :
  date_leb a b = true <->
  year a < year b \/
  (year a = year b /\ (month a < month b \/ (month a = month b /\ day a <= day b))).
Proof.
  unfold date_leb, date_compare.
  destruct (Z.compare_spec (year a) (year b));
    [destruct (Z.compare_spec (month a) (month b));
       [destruct (Z.compare_spec (day a) (day b))|..]|..];
    split; (done || lia).
Qed.

Lemma date_leb_trans a b c :
  date_leb a b = true -> date_leb b c = true -> date_leb a c = true.
Proof. rewrite !date_leb_spec. lia. Qed.

Lemma sublist_filter_impl {A} (P Q : A -> Prop) `{!forall x, Decision (P x)}
    `{!forall x, Decision (Q x)} (l : list A) :
  (forall x, P x -> Q x) -> filter P l `sublist_of` filter Q l.
Proof.
  intros HPQ. induction l as [|x l IH]; [done|].
  rewrite !filter_cons.
  destruct (decide (P x)) as [HP|HP], (decide (Q x)) as [HQ|HQ].
  - by apply sublist_skip.
  - destruct HQ. by apply HPQ.
  - by apply sublist_cons.
  - done.
Qed.

Lemma unique_from_elem v seen vs :
  v ∈ unique_from seen vs <-> v ∈ vs /\ v ∉ seen.
Proof.
  revert seen. induction vs as [|x vs IH]; intros seen; cbn [unique_from].
  - split; [by intros ?%not_elem_of_nil | by intros [?%not_elem_of_nil _]].
  - destruct (decide (x ∈ seen)) as [Hx|Hx].
    + rewrite IH, elem_of_cons. split; [tauto|]. intros [[->|?] ?]; tauto.
    + rewrite !elem_of_cons, IH, elem_of_cons.
      destruct (decide (v = x)) as [->|Hne]; [tauto|]. tauto.
Qed.

Lemma unique_elem v vs : v ∈ unique vs <-> v ∈ vs.
Proof.
  unfold unique. rewrite unique_from_elem. split; [tauto|].
  intros ?. split; [done | apply not_elem_of_nil].
Qed.

Section FilterProperties.

Variable to_datetime1 : value -> res (option datetime).

(** The filter returns a frame exactly when the three columns are there and
    every [time] converts; the frame is then the rows that [keeps] keeps. *)
Lemma filtered_inv all_trades pair_filter type_filter date_filter out :
  filtered to_datetime1 all_trades pair_filter type_filter date_filter = Ok out ->
  "pair" ∈ df_columns all_trades /\ "trade_type" ∈ df_columns all_trades /\
  "time" ∈ df_columns all_trades /\
  (exists ts, to_datetime to_datetime1 (cell "time" <$> df_rows all_trades) = Ok ts) /\
  out = {| df_columns := df_columns all_trades;
           df_rows := filter (fun r => keeps to_datetime1 pair_filter type_filter
                                         date_filter r = true)
                             (df_rows all_trades) |}.
Proof.
  unfold filtered, getitem.
  destruct (bool_decide ("pair" ∈ df_columns all_trades)) eqn:Hp;
    cbn [mbind res_bind]; [|done].
  destruct (bool_decide ("trade_type" ∈ df_columns all_trades)) eqn:Ht;
    cbn [mbind res_bind]; [|done].
  destruct (bool_decide ("time" ∈ df_columns all_trades)) eqn:Hti;
    cbn [mbind res_bind]; [|done].
  apply bool_decide_eq_true in Hp, Ht, Hti.
  destruct (to_datetime to_datetime1 (cell "time" <$> df_rows all_trades))
    as [ts|e] eqn:E; cbn [mbind res_bind]; [|done].
  intros [= <-]. split; [done|]. split; [done|]. split; [done|].
  split; [by eexists|].
  apply to_datetime_stamp in E as ->. by rewrite boolean_index_mask.
Qed.

Lemma filtered_ok all_trades pair_filter type_filter date_filter :
  "pair" ∈ df_columns all_trades -> "trade_type" ∈ df_columns all_trades ->
  "time" ∈ df_columns all_trades ->
  (exists ts, to_datetime to_datetime1 (cell "time" <$> df_rows all_trades) = Ok ts) ->
  filtered to_datetime1 all_trades pair_filter type_filter date_filter
  = Ok {| df_columns := df_columns all_trades;
          df_rows := filter (fun r => keeps to_datetime1 pair_filter type_filter
                                        date_filter r = true)
                            (df_rows all_trades) |}.
Proof.
  intros Hp Ht Hti [ts E]. unfold filtered. rewrite !getitem_ok by done.
  cbn [mbind res_bind]. rewrite E. cbn [mbind res_bind].
  apply to_datetime_stamp in E as ->. by rewrite boolean_index_mask.
Qed.


(** X15: the pair filter at its default hides no trade.  With the pair
    selection that the page offers by default, the pairs of the listing
    itself, the filter shows exactly the trades of the listing that have a
    selected trade type and a day on or after the given one. *)
Theorem default_pair_filter_hides_none all_trades type_filter date_filter out :
  filtered to_datetime1 all_trades (unique (cell "pair" <$> df_rows all_trades))
    type_filter date_filter = Ok out ->
  forall r, r ∈ df_rows out <->
    r ∈ df_rows all_trades /\ cell "trade_type" r ∈ type_filter /\
    on_or_after to_datetime1 date_filter r = true.
Proof.
  intros H r. apply filtered_inv in H as (_ & _ & _ & _ & ->). cbn [df_rows].
  rewrite list_elem_of_filter. unfold keeps.
  rewrite !andb_true_iff, !bool_decide_eq_true, unique_elem.
  split; [tauto|]. intros (Hr & Ht & Hd). repeat split; try done.
  apply list_elem_of_fmap. by exists r.
Qed.

(** X16: widening a filter never hides a trade.  When the filter returns a
    frame, it also returns one for a larger pair selection, a larger type
    selection and an earlier day, and the rows shown before are all among
    the rows shown then, in the same order. *)
Theorem filtered_monotone all_trades pair_filter pair_filter' type_filter
    type_filter' date_filter date_filter' out :
  pair_filter ⊆ pair_filter' ->
  type_filter ⊆ type_filter' ->
  date_leb date_filter' date_filter = true ->
  filtered to_datetime1 all_trades pair_filter type_filter date_filter = Ok out ->
  exists out',
    filtered to_datetime1 all_trades pair_filter' type_filter' date_filter' = Ok out' /\
    df_rows out `sublist_of` df_rows out'.
Proof.
  intros Hp Ht Hd H. apply filtered_inv in H as (Hcp & Hct & Hcti & Hts & ->).
  eexists. split; [by apply filtered_ok|]. cbn [df_rows].
  apply sublist_filter_impl. intros r.
  rewrite !keeps_true. intros (Hrp & Hrt & t & Hrt' & Hrd).
  split; [by apply Hp|]. split; [by apply Ht|].
  exists t. split; [done|]. by apply date_leb_trans with date_filter.
Qed.

End FilterProperties.


Lemma default_pair_filter_hides_none_witness :
  unique (cell "pair" <$> df_rows sample_frame) = [Text "EURUSD"; Text "USDJPY"] /\
  forall r, r ∈ df_rows sample_frame <->
    r ∈ df_rows sample_frame /\ cell "trade_type" r ∈ [Text "Buy"; Text "Sell"] /\
    on_or_after reference_to_datetime jan_1_2025 r = true.
Proof.
  split; [reflexivity|].
  apply (default_pair_filter_hides_none reference_to_datetime sample_frame
           [Text "Buy"; Text "Sell"] jan_1_2025 sample_frame).
  vm_compute. reflexivity.
Defined.

Lemma filtered_monotone_witness :
  exists out',
    filtered reference_to_datetime sample_frame [Text "EURUSD"; Text "USDJPY"]
      [Text "Buy"; Text "Sell"] {| year := 2024; month := 12; day := 31 |} = Ok out' /\
    df_rows first_trade_frame `sublist_of` df_rows out'.
Proof.
  apply (filtered_monotone reference_to_datetime sample_frame [Text "EURUSD"]
           [Text "EURUSD"; Text "USDJPY"] [Text "Buy"; Text "Sell"]
           [Text "Buy"; Text "Sell"] jan_1_2025
           {| year := 2024; month := 12; day := 31 |} first_trade_frame).
  - intros v Hv. apply list_elem_of_singleton in Hv as ->. in_list.
  - done.
  - reflexivity.
  - vm_compute. reflexivity.
Defined.

(** ** The filter and the counts after a change *)

Lemma cell_set_result_pips c result pips r :
  c ≠ "result" -> c ≠ "pips" -> cell c (set_result_pips result pips r) = cell c r.
Proof.
  intros Hr Hp. unfold cell, set_result_pips. by rewrite !lookup_insert_ne.
Qed.

Lemma boolean_index_fmap {A} (f : A -> A) (xs : list A) mask :
  boolean_index (f <$> xs) mask = f <$> boolean_index xs mask.
Proof.
  revert mask. induction xs as [|x xs IH]; intros [|b mask]; try done.
  rewrite fmap_cons. cbn [boolean_index]. destruct b; [|done].
  by rewrite fmap_cons, IH.
Qed.

Section ChangeProperties.

Variable to_datetime1 : value -> res (option datetime).

(** X17: an update touches neither the filter nor the counts.  After an
    update of [result] and [pips], the filter shows the same trades as
    before, the updated trade with its new values, and fails where it
    failed before; the weekly and monthly counts are what they were. *)
Theorem update_keeps_filter_and_stats trade_id result pips s s' all_trades
    all_trades' pair_filter type_filter date_filter :
  update_result_pips trade_id result pips s = Ok s' ->
  get_all_trades s = Ok all_trades ->
  get_all_trades s' = Ok all_trades' ->
  filtered to_datetime1 all_trades' pair_filter type_filter date_filter
  = (out ← filtered to_datetime1 all_trades pair_filter type_filter date_filter;
     Ok {| df_columns := df_columns out;
           df_rows := (fun r => if has_id trade_id r
                                then set_result_pips result pips r else r)
                      <$> df_rows out |}) /\
  stats to_datetime1 all_trades' = stats to_datetime1 all_trades.
Proof.
  destruct s as [t|]; [|done]. unfold update_result_pips.
  destruct (missing_column _ t); [done|]. intros [= <-] [= <-] [= <-].
  set (f := fun r => if has_id trade_id r then set_result_pips result pips r else r).
  assert (Hcell : forall c, c ≠ "result" -> c ≠ "pips" ->
            cell c <$> (f <$> rows t) = cell c <$> rows t).
  { intros c Hr Hp. rewrite <- list_fmap_compose. apply list_fmap_ext.
    intros k r _. cbn. unfold f. destruct (has_id trade_id r); [|done].
    by apply cell_set_result_pips. }
  split.
  - unfold filtered, getitem, column_names. cbn [df_columns df_rows columns rows].
    rewrite !Hcell by done.
    destruct (bool_decide ("pair" ∈ (columns t).*1)); cbn [mbind res_bind]; [|done].
    destruct (bool_decide ("trade_type" ∈ (columns t).*1)); cbn [mbind res_bind]; [|done].
    destruct (bool_decide ("time" ∈ (columns t).*1)); cbn [mbind res_bind]; [|done].
    destruct (to_datetime to_datetime1 (cell "time" <$> rows t));
      cbn [mbind res_bind df_columns df_rows]; [|done].
    by rewrite boolean_index_fmap.
  - unfold stats, getitem, df_empty, column_names.
    cbn [df_columns df_rows columns rows].
    rewrite Hcell by done. by destruct (rows t).
Qed.

(** X18: a saved trade adds one to the week and to the month of the clock.
    After a valid submit on a journal whose times all convert, the block of
    the counts returns counts for the new listing: the count of a week is
    the number of earlier trades in that week, plus one for the week of the
    clock reading; the count of a month likewise. *)
Theorem submit_counts_one_more pair trade_type entry_price tp sl result pips
    reason india_time t :
  migrated t = true ->
  Z.max (seq t) (max_rowid (rows t)) < max_int64 ->
  0 < tp -> 0 < sl -> (0 <? entry_price)%float = true ->
  to_datetime1 (Text (strftime india_time)) = Ok (Some india_time) ->
  Forall (fun r => exists x, to_datetime1 (cell "time" r) = Ok x) (rows t) ->
  exists t' weekly_counts monthly_counts,
    trade_form_submit pair trade_type entry_price tp sl result pips reason
      india_time (Some t) = Ok (Some t', success "✅ Trade saved successfully!") /\
    (all_trades ← get_all_trades (Some t'); stats to_datetime1 all_trades)
      = Ok (Some (weekly_counts, monthly_counts)) /\
    (forall k, count_of weekly_counts k
       = (length (filter (fun r => week_of to_datetime1 r = Some k) (rows t)) +
          if decide (k = isocalendar_week (date_of india_time)) then 1 else 0)%nat) /\
    (forall k, count_of monthly_counts k
       = (length (filter (fun r => month_of to_datetime1 r = Some k) (rows t)) +
          if decide (k = month (date_of india_time)) then 1 else 0)%nat).
Proof.
  intros Hm Hid Htp Hsl Hep Hclock Hall.
  destruct (trade_form_submit_ok pair trade_type entry_price tp sl result pips
              reason india_time t Hm Hid Htp Hsl Hep)
    as (q & r & t' & _ & _ & Hsub & Hcols & Hrows & Htime & _).
  assert (Hcell : cell "time" r = Text (strftime india_time))
    by (unfold cell; by rewrite Htime).
  assert (Hstamp : stamp to_datetime1 r = Some india_time)
    by (unfold stamp; by rewrite Hcell, Hclock).
  assert (Hts : exists ts,
            to_datetime to_datetime1 (cell "time" <$> rows t') = Ok ts).
  { apply to_datetime_ok_iff. rewrite Hrows. apply Forall_app. split; [done|].
    constructor; [|done]. rewrite Hcell, Hclock. by eexists. }
  destruct Hts as [ts Hts].
  exists t'. eexists _, _. split; [done|].
  cbn [get_all_trades mbind res_bind]. split.
  - rewrite stats_nonempty; cbn [df_columns df_rows].
    + rewrite Hts. cbn [mbind res_bind]. reflexivity.
    + unfold df_empty. cbn [df_columns df_rows]. rewrite Hrows.
      destruct (rows t); cbn [app].
      all: destruct (column_names t') eqn:Hnames; [|done].
      all: assert (Hin : "time" ∈ column_names t')
             by (unfold column_names; rewrite Hcols;
                 apply (migrated_columns _ _ Hm); in_list).
      all: rewrite Hnames in Hin; by apply not_elem_of_nil in Hin.
    + unfold column_names. rewrite Hcols. apply (migrated_columns _ _ Hm). in_list.
  - apply to_datetime_stamp in Hts as ->. rewrite Hrows. split.
    + intros k. rewrite weekly_count, filter_app, length_app. f_equal.
      unfold week_of at 2. unfold week_key.
      destruct (decide (k = isocalendar_week (date_of india_time))) as [->|Hne].
      * rewrite filter_cons_True; [done|]. unfold week_of, week_key. by rewrite Hstamp.
      * rewrite filter_cons_False; [done|]. unfold week_of, week_key. rewrite Hstamp.
        by intros [= <-].
    + intros k. rewrite monthly_count, filter_app, length_app. f_equal.
      destruct (decide (k = month (date_of india_time))) as [->|Hne].
      * rewrite filter_cons_True; [done|]. unfold month_of, month_key. by rewrite Hstamp.
      * rewrite filter_cons_False; [done|]. unfold month_of, month_key. rewrite Hstamp.
        by intros [= <-].
Qed.

End ChangeProperties.

Lemma update_keeps_filter_and_stats_witness :
  filtered reference_to_datetime
    {| df_columns := column_names updated_table; df_rows := rows updated_table |}
    [Text "EURUSD"] [Text "Buy"] jan_1_2025
  = (out ← filtered reference_to_datetime sample_frame [Text "EURUSD"] [Text "Buy"]
             jan_1_2025;
     Ok {| df_columns := df_columns out;
           df_rows := (fun r => if has_id 1 r
                                then set_result_pips "Loss" (-15) r else r)
                      <$> df_rows out |}) /\
  stats reference_to_datetime
    {| df_columns := column_names updated_table; df_rows := rows updated_table |}
  = stats reference_to_datetime sample_frame.
Proof.
  apply (update_keeps_filter_and_stats reference_to_datetime 1 "Loss" (-15)
           (Some sample_table) (Some updated_table)); reflexivity.
Defined.

Lemma submit_counts_one_more_witness :
  exists t' weekly_counts monthly_counts,
    trade_form_submit "GBPUSD" "Buy" 1.25 40 16 "" 0 "news" sample_time
      (Some sample_table) = Ok (Some t', success "✅ Trade saved successfully!") /\
    (all_trades ← get_all_trades (Some t'); stats reference_to_datetime all_trades)
      = Ok (Some (weekly_counts, monthly_counts)) /\
    (forall k, count_of weekly_counts k
       = (length (filter (fun r => week_of reference_to_datetime r = Some k)
                         (rows sample_table)) +
          if decide (k = isocalendar_week (date_of sample_time)) then 1 else 0)%nat) /\
    (forall k, count_of monthly_counts k
       = (length (filter (fun r => month_of reference_to_datetime r = Some k)
                         (rows sample_table)) +
          if decide (k = month (date_of sample_time)) then 1 else 0)%nat).
Proof.
  apply (submit_counts_one_more reference_to_datetime).
  - reflexivity.
  - reflexivity.
  - lia.
  - lia.
  - reflexivity.
  - vm_compute. reflexivity.
  - repeat constructor; eexists; vm_compute; reflexivity.
Defined.

(** ** The whole page *)

Lemma rr_consistent_insert c v r :
  c ∈ ["entry_price"; "result"; "pips"] -> rr_consistent r ->
  rr_consistent (<[c := v]> r).
Proof.
  intros Hc (tp & sl & q & Htp & Hsl & Hq & Hrr). exists tp, sl, q.
  rewrite !lookup_insert_ne; [done|..];
    intros ->; repeat (apply elem_of_cons in Hc as [Hc|Hc]; [done|]);
    by apply not_elem_of_nil in Hc.
Qed.

Lemma run_on_migrated e t :
  migrated t = true ->
  run e (Some t)
  = match e with
    | Submit symbol trade_type entry_price tp sl result pips reason india_time =>
        r ← trade_form_submit symbol trade_type entry_price tp sl result pips reason
              india_time (Some t);
        Ok r.1
    | Update update_id result_update pips_update =>
        update_result_pips update_id result_update pips_update (Some t)
    | Delete delete_id => delete_trade delete_id (Some t)
    end.
Proof.
  intros Hm. unfold run.
  by rewrite initialize_migrated by (apply (migrated_columns _ _ Hm); in_list).
Qed.

(** On a table with its columns and a rowid to spare, a submit returns. *)
Lemma trade_form_submit_total symbol trade_type entry_price tp sl result pips reason
    india_time t :
  migrated t = true ->
  Z.max (seq t) (max_rowid (rows t)) < max_int64 ->
  exists s' n,
    trade_form_submit symbol trade_type entry_price tp sl result pips reason
      india_time (Some t) = Ok (s', n).
Proof.
  intros Hm Hid.
  destruct (0 <? tp) eqn:Htp; [|by eexists _, _; unfold trade_form_submit; rewrite Htp].
  destruct (0 <? sl) eqn:Hsl;
    [|by eexists _, _; unfold trade_form_submit; rewrite Htp, Hsl].
  destruct (0 <? entry_price)%float eqn:Hep;
    [|by eexists _, _; unfold trade_form_submit; rewrite Htp, Hsl, Hep].
  apply Z.ltb_lt in Htp, Hsl.
  destruct (trade_form_submit_ok symbol trade_type entry_price tp sl result pips
              reason india_time t Hm Hid Htp Hsl Hep)
    as (q & r & t' & _ & _ & -> & _).
  by eexists _, _.
Qed.

Section PageProperties.

Variable to_datetime1 : value -> res (option datetime).

Lemma converts_insert c v r :
  c ∈ ["entry_price"; "result"; "pips"] -> converts to_datetime1 r ->
  converts to_datetime1 (<[c := v]> r).
Proof.
  intros Hc. unfold converts, cell. rewrite lookup_insert_ne; [done|].
  intros ->; repeat (apply elem_of_cons in Hc as [Hc|Hc]; [done|]);
    by apply not_elem_of_nil in Hc.
Qed.

Lemma journal_sound_weaken n n' s :
  n <= n' -> journal_sound to_datetime1 n s -> journal_sound to_datetime1 n' s.
Proof. intros Hle (Hok & Hrr & Hconv & Hcnt). repeat split; try done. lia. Qed.

(** The counts return on a frame with a [time] column whose times all
    convert. *)
Lemma stats_total all_trades :
  "time" ∈ df_columns all_trades ->
  Forall (converts to_datetime1) (df_rows all_trades) ->
  exists c, stats to_datetime1 all_trades = Ok c.
Proof.
  intros Ht Hall. unfold stats. destruct (df_empty all_trades); [by eexists|].
  rewrite getitem_ok by done. cbn [mbind res_bind].
  destruct (proj2 (to_datetime_ok_iff to_datetime1 (df_rows all_trades)) Hall)
    as [ts ->].
  by eexists.
Qed.

Lemma page_end_not_crashed said shown styles all_trades e :
  "time" ∈ df_columns all_trades ->
  Forall (converts to_datetime1) (df_rows all_trades) ->
  page_end to_datetime1 said shown styles all_trades ≠ Crashed e.
Proof.
  intros Ht Hall. unfold page_end.
  destruct (stats_total all_trades Ht Hall) as [[c|] ->]; done.
Qed.

(** What the script does from the filters on, on a journal in good order:
    it does not crash, and it leaves the store as it is, or as the one
    update or the one delete leaves it. *)
Lemma page_from_filters_sound n pressed w dark said t :
  journal_sound to_datetime1 n (Some t) ->
  (forall e, (page_from_filters to_datetime1 pressed w dark said (Some t)).2
             ≠ Crashed e) /\
  ((page_from_filters to_datetime1 pressed w dark said (Some t)).1.1 = Some t \/
   (pressed = Some UpdateTrade /\
    run (Update (widget.update_id w) (widget.result_update w) (widget.pips_update w))
      (Some t)
    = Ok (page_from_filters to_datetime1 pressed w dark said (Some t)).1.1) \/
   (pressed = Some DeleteTrade /\
    run (Delete (widget.delete_id w)) (Some t)
    = Ok (page_from_filters to_datetime1 pressed w dark said (Some t)).1.1)).
Proof.
  intros ((Hm & _) & _ & Hconv & _). cbn [rows_all] in Hconv.
  assert (Hcol : forall c, c ∈ journal_columns -> c ∈ column_names t)
    by (intros c; apply migrated_columns, Hm).
  unfold page_from_filters. cbn [get_all_trades].
  rewrite (filtered_ok to_datetime1); cbn [df_columns df_rows];
    [|apply Hcol; in_list..|by apply to_datetime_ok_iff].
  match goal with |- context [df_empty ?f] => destruct (df_empty f) end.
  - cbn [fst snd]. split; [|by left].
    intros e. apply page_end_not_crashed; cbn [df_columns df_rows];
      [apply Hcol; in_list | done].
  - destruct pressed as [[]|]; cbn [fst snd].
    1,2,5: split; [|by left].
    1,2,3: intros e; apply page_end_not_crashed; cbn [df_columns df_rows];
      [apply Hcol; in_list | done].
    + rewrite (run_on_migrated (Update _ _ _)) by done.
      rewrite update_result_pips_ok by done. cbn [fst snd].
      split; [done|]. right. left. done.
    + rewrite (run_on_migrated (Delete _)) by done.
      rewrite delete_trade_ok by done. cbn [fst snd].
      split; [done|]. right. right. done.
Qed.

Hypothesis reads_back :
  forall t, valid_datetime t = true ->
            to_datetime1 (Text (strftime t)) = Ok (Some t).

(** One interaction keeps a journal in good order. *)
Lemma run_sound e n s s' :
  clock_ok e = true -> journal_sound to_datetime1 n s -> run e s = Ok s' ->
  journal_sound to_datetime1 (n + 1) s' /\ exists t', s' = Some t'.
Proof.
  intros Hclock (Hok & Hrr & Hconv & Hcnt) Hrun.
  destruct (run_ids e s s' Hok Hrun) as (Hok' & Hc & _).
  split; [split; [done|]; split; [|split]|].
  - apply (run_rows_all rr_consistent rr_consistent_insert (fun _ => True))
      with (e := e) (s := s); try done.
    intros. by eexists _, _, _.
  - apply (run_rows_all (converts to_datetime1) converts_insert
             (fun e => clock_ok e = true)) with (e := e) (s := s); try done.
    intros symbol trade_type entry_price tp sl result pips reason india_time r q
           Hv _ Htime _ _ _.
    unfold converts, cell. rewrite Htime. cbn [default from_option id].
    rewrite reads_back by done. by eexists.
  - lia.
  - destruct (run_migrated e s s') as (t' & -> & _); [|done|by eexists].
    destruct s as [t|]; [right|by left]. exists t. split; [done|]. by destruct Hok.
Qed.

(** One run of the page on a journal in good order, with a rowid to spare:
    it does not crash and leaves a journal in good order. *)
Lemma page_sound n pressed w india_time dark_mode s :
  journal_sound to_datetime1 n s ->
  valid_datetime india_time = true ->
  n < max_int64 ->
  (forall e, (page to_datetime1 pressed w india_time dark_mode s).2 ≠ Crashed e) /\
  journal_sound to_datetime1 (n + 1)
    (page to_datetime1 pressed w india_time dark_mode s).1.1.
Proof.
  intros Hs Hclock Hn.
  assert (Hinit : exists t1, initialize s = Ok (Some t1) /\
                             journal_sound to_datetime1 n (Some t1)).
  { destruct s as [t|].
    - exists t. split; [|done]. destruct Hs as ((Hm & _) & _).
      apply initialize_migrated; apply (migrated_columns _ _ Hm); in_list.
    - exists fresh_table. split; [done|]. destruct Hs as (_ & _ & _ & Hcnt).
      split; [|split; [constructor|]; split; [constructor | exact Hcnt]].
      split; [reflexivity|]. split; [done|]. split; [exact I | constructor]. }
  destruct Hinit as (t1 & Hinit & Hs1).
  pose proof (journal_sound_weaken n (n + 1) _ ltac:(lia) Hs1) as Hs1'.
  unfold page. rewrite Hinit. unfold toggle_theme.
  destruct (decide (pressed = Some ToggleTheme)) as [->|Htoggle].
  { rewrite bool_decide_eq_true_2 by done. cbn [fst snd]. done. }
  rewrite (bool_decide_eq_false_2 (pressed = Some ToggleTheme)) by done.
  destruct (decide (pressed = Some SaveTrade)) as [->|Hsave].
  - rewrite bool_decide_eq_true_2 by done.
    destruct Hs1 as (Hok1 & Hrest1). pose proof Hok1 as (Hm1 & Hseq1 & _ & Hall1).
    pose proof (max_rowid_le _ _ Hseq1 Hall1) as Hmax.
    destruct Hrest1 as (Hrr1 & Hconv1 & Hcnt1). cbn [counter] in Hcnt1.
    destruct (trade_form_submit_total (widget.pair w) (widget.trade_type w)
                (widget.entry_price w) (widget.tp w) (widget.sl w) (widget.result w)
                (widget.pips w) (widget.reason w) india_time t1 Hm1)
      as (s2 & notice & Hsub); [lia|].
    rewrite Hsub. cbn [mbind res_bind fst snd].
    destruct (run_sound (Submit (widget.pair w) (widget.trade_type w)
                (widget.entry_price w) (widget.tp w) (widget.sl w) (widget.result w)
                (widget.pips w) (widget.reason w) india_time) n (Some t1) s2)
      as (Hs2 & t2 & ->); [done | done | |].
    { rewrite run_on_migrated by done. by rewrite Hsub. }
    destruct (page_from_filters_sound (n + 1) (Some SaveTrade) w
                match dark_mode with Some b => b | None => true end
                [Notice notice] t2 Hs2) as (Hno & [-> | [[? _] | [? _]]]); done.
  - rewrite (bool_decide_eq_false_2 (pressed = Some SaveTrade)) by done.
    destruct (page_from_filters_sound n pressed w
                match dark_mode with Some b => b | None => true end [] t1 Hs1)
      as (Hno & Hstore).
    split; [done|].
    destruct Hstore as [-> | [[_ Hrun] | [_ Hrun]]]; [done|..].
    + by apply (run_sound _ n (Some t1)) in Hrun as [? _].
    + by apply (run_sound _ n (Some t1)) in Hrun as [? _].
Qed.

(** A session keeps a journal in good order and none of its runs crashes,
    as long as rowids are left. *)
Lemma session_sound steps n dark_mode s :
  journal_sound to_datetime1 n s ->
  Forall (fun step => valid_datetime step.2 = true) steps ->
  n + Z.of_nat (length steps) <= max_int64 ->
  Forall (fun o => forall e, o ≠ Crashed e)
    (session to_datetime1 steps dark_mode s).1 /\
  journal_sound to_datetime1 (n + Z.of_nat (length steps))
    (session to_datetime1 steps dark_mode s).2.
Proof.
  intros Hs Hclocks. revert n dark_mode s Hs.
  induction Hclocks as [|[[pressed w] india_time] steps Hclock _ IH];
    intros n dark_mode s Hs Hn; cbn [session length].
  - split; [constructor|]. by rewrite Z.add_0_r.
  - cbn [snd] in Hclock. cbn [length] in Hn. rewrite Nat2Z.inj_succ in Hn.
    destruct (page_sound n pressed w india_time dark_mode s Hs Hclock ltac:(lia))
      as (Hno & Hs').
    destruct (page to_datetime1 pressed w india_time dark_mode s) as [[s' d'] o].
    cbn [fst snd] in Hno, Hs'.
    destruct (IH (n + 1) d' s' Hs' ltac:(lia)) as (Hos & Hfinal).
    destruct (session to_datetime1 steps d' s') as [os final].
    cbn [fst snd] in *. split; [by constructor|].
    by replace (n + Z.of_nat (S (length steps)))
      with (n + 1 + Z.of_nat (length steps)) by lia.
Qed.

End PageProperties.

(** X19: on a new file the page never crashes.  Whatever buttons are
    pressed and whatever the widgets hold, run after run, with a clock that
    shows a day of the calendar and a conversion that reads back the
    timestamps the form writes, no run of the script ends in an exception
    of the set-up, the store functions, the form, the filter or the counts,
    as long as rowids are left. *)
Theorem session_never_crashes to_datetime1 steps dark_mode :
  (forall t, valid_datetime t = true ->
             to_datetime1 (Text (strftime t)) = Ok (Some t)) ->
  Forall (fun step => valid_datetime step.2 = true) steps ->
  Z.of_nat (length steps) <= max_int64 ->
  Forall (fun o => forall e, o ≠ Crashed e)
    (session to_datetime1 steps dark_mode None).1.
Proof.
  intros Hread Hclocks Hlen.
  apply (session_sound to_datetime1 Hread steps 0 dark_mode None); [|done|lia].
  split; [exact I|]. split; [exact I|]. split; [exact I | done].
Qed.

(** X20: the journal that a session leaves on a new file is in good order.
    In its listing every row has a rowid, the rowids increase along the
    listing and none is larger than the number of runs; the [rr] of every
    row is [round(tp / sl, 2)] for its [tp] and [sl]; and the conversion
    accepts the [time] of every row. *)
Theorem session_keeps_journal to_datetime1 steps dark_mode all_trades :
  (forall t, valid_datetime t = true ->
             to_datetime1 (Text (strftime t)) = Ok (Some t)) ->
  Forall (fun step => valid_datetime step.2 = true) steps ->
  Z.of_nat (length steps) <= max_int64 ->
  get_all_trades (session to_datetime1 steps dark_mode None).2 = Ok all_trades ->
  StronglySorted Z.lt (omap rowid (df_rows all_trades)) /\
  length (omap rowid (df_rows all_trades)) = length (df_rows all_trades) /\
  Forall (fun i => 0 < i <= Z.of_nat (length steps)) (omap rowid (df_rows all_trades)) /\
  Forall rr_consistent (df_rows all_trades) /\
  Forall (converts to_datetime1) (df_rows all_trades).
Proof.
  intros Hread Hclocks Hlen Hlist.
  destruct (session_sound to_datetime1 Hread steps 0 dark_mode None)
    as (_ & Hok & Hrr & Hconv & Hcnt); [|done|lia|].
  { split; [exact I|]. split; [exact I|]. split; [exact I | done]. }
  destruct (session to_datetime1 steps dark_mode None).2 as [t|]; [|done].
  injection Hlist as <-. cbn [df_rows rows_all counter] in *.
  destruct Hok as (_ & _ & Habove & Hall).
  apply ids_above_sorted in Habove as (Hsorted & Hlow & Hlen').
  split; [done|]. split; [done|]. split; [|done].
  apply Forall_rowid_le in Hall.
  rewrite Forall_forall in Hlow, Hall. apply Forall_forall.
  intros i Hi. split; [by apply Hlow|]. apply Hall in Hi. lia.
Qed.

Lemma page_from_filters_dark to_datetime1 pressed w dark dark' said s :
  (page_from_filters to_datetime1 pressed w dark said s).1.1
  = (page_from_filters to_datetime1 pressed w dark' said s).1.1 /\
  (page_from_filters to_datetime1 pressed w dark said s).2
  = (page_from_filters to_datetime1 pressed w dark' said s).2.
Proof. unfold page_from_filters. by repeat case_match. Qed.

(** X21: the theme entry changes nothing.  The script assigns the theme
    and does not read it again: whatever the session holds for
    [dark_mode], a run leaves the same store and ends in the same way, with
    the same messages, table, styles and counts. *)
Theorem page_ignores_theme to_datetime1 pressed w india_time dark_mode dark_mode' s :
  (page to_datetime1 pressed w india_time dark_mode s).1.1
  = (page to_datetime1 pressed w india_time dark_mode' s).1.1 /\
  (page to_datetime1 pressed w india_time dark_mode s).2
  = (page to_datetime1 pressed w india_time dark_mode' s).2.
Proof.
  unfold page. destruct (initialize s) as [s1|e]; [|done].
  unfold toggle_theme. destruct (bool_decide (pressed = Some ToggleTheme)); [done|].
  match goal with
  | |- context [match ?x with Ok _ => _ | Raise _ => _ end] =>
      destruct x as [[s2 said]|e]
  end; [|done].
  apply page_from_filters_dark.
Qed.

Lemma dark_mode_after_default n dark_mode :
  default true (dark_mode_after n dark_mode)
  = if Nat.even n then default true dark_mode else negb (default true dark_mode).
Proof.
  assert (Hstep : forall d, default true (Some (toggle_theme true d).1.1)
                            = negb (default true d)) by (by intros [b|]).
  induction n as [|n IH]; [done|].
  unfold dark_mode_after. rewrite Nat.iter_succ. fold (dark_mode_after n dark_mode).
  rewrite Hstep, IH, Nat.even_succ, <- Nat.negb_even.
  by destruct (Nat.even n), (default true dark_mode).
Qed.

(** X22: the theme button alternates.  After a number of presses in a new
    session, the next run finds the dark theme when the number is even and
    the light theme when it is odd. *)
Theorem theme_after_presses n :
  (toggle_theme false (dark_mode_after n None)).1.1 = Nat.even n /\
  (toggle_theme false (dark_mode_after n None)).1.2
  = if Nat.even n then "dark" else "light".
Proof.
  pose proof (dark_mode_after_default n None) as H.
  cbn [default from_option id] in H. unfold toggle_theme. cbn [fst snd].
  destruct (dark_mode_after n None) as [b|]; cbn [default from_option id] in H;
    subst; by destruct (Nat.even n).
Qed.

Lemma page_from_filters_store to_datetime1 pressed w dark said s :
  pressed ≠ Some UpdateTrade -> pressed ≠ Some DeleteTrade ->
  (page_from_filters to_datetime1 pressed w dark said s).1.1 = s.
Proof. intros Hu Hd. unfold page_from_filters. by repeat case_match. Qed.

(** X23: looking at the page writes nothing.  A run in which none of the
    save, update and delete buttons was pressed leaves the store as the
    set-up at the top of the script leaves it, whatever the filters select
    and however the run ends. *)
Theorem page_view_keeps_store to_datetime1 pressed w india_time dark_mode s s1 :
  initialize s = Ok s1 ->
  pressed ≠ Some SaveTrade -> pressed ≠ Some UpdateTrade ->
  pressed ≠ Some DeleteTrade ->
  (page to_datetime1 pressed w india_time dark_mode s).1.1 = s1.
Proof.
  intros Hinit Hs Hu Hd. unfold page. rewrite Hinit. unfold toggle_theme.
  destruct (bool_decide (pressed = Some ToggleTheme)); [done|].
  rewrite bool_decide_eq_false_2 by done.
  by apply page_from_filters_store.
Qed.

(** X24: a trade is saved before the listing is read.  When the submit has
    stored the trade and the filter then raises, as it does on a [time] that
    the conversion refuses, the run ends in that exception and the store
    keeps the new trade. *)
Theorem page_commits_before_crash to_datetime1 w india_time dark_mode s s1 s2 n
    all_trades e :
  initialize s = Ok s1 ->
  trade_form_submit (widget.pair w) (widget.trade_type w) (widget.entry_price w)
    (widget.tp w) (widget.sl w) (widget.result w) (widget.pips w) (widget.reason w)
    india_time s1 = Ok (s2, n) ->
  get_all_trades s2 = Ok all_trades ->
  filtered to_datetime1 all_trades (widget.pair_filter w) (widget.type_filter w)
    (widget.date_filter w) = Raise e ->
  page to_datetime1 (Some SaveTrade) w india_time dark_mode s
  = (s2, Some (default true dark_mode), Crashed e).
Proof.
  intros Hinit Hsub Hlist Hfilter. unfold page. rewrite Hinit. unfold toggle_theme.
  rewrite bool_decide_eq_false_2 by done. rewrite bool_decide_eq_true_2 by done.
  rewrite Hsub. cbn [mbind res_bind fst snd].
  unfold page_from_filters. rewrite Hlist, Hfilter. by destruct dark_mode.
Qed.

(** X25: with nothing to show, the update and the delete are out of reach.
    When the filter leaves no row, the script does not come to the update
    and the delete under the table: a run started by one of these buttons
    leaves the store as the set-up leaves it and asks for no rerun. *)
Theorem page_empty_filter_blocks_write to_datetime1 pressed w india_time dark_mode
    s s1 all_trades out :
  initialize s = Ok s1 ->
  pressed = Some UpdateTrade \/ pressed = Some DeleteTrade ->
  get_all_trades s1 = Ok all_trades ->
  filtered to_datetime1 all_trades (widget.pair_filter w) (widget.type_filter w)
    (widget.date_filter w) = Ok out ->
  df_empty out = true ->
  (page to_datetime1 pressed w india_time dark_mode s).1.1 = s1 /\
  forall said, (page to_datetime1 pressed w india_time dark_mode s).2 ≠ Rerun said.
Proof.
  intros Hinit Hpressed Hlist Hfilter Hempty. unfold page. rewrite Hinit.
  unfold toggle_theme.
  rewrite (bool_decide_eq_false_2 (pressed = Some ToggleTheme))
    by (destruct Hpressed as [-> | ->]; done).
  rewrite (bool_decide_eq_false_2 (pressed = Some SaveTrade))
    by (destruct Hpressed as [-> | ->]; done).
  unfold page_from_filters. rewrite Hlist, Hfilter, Hempty. cbn [fst snd].
  split; [done|]. intros said. unfold page_end. by repeat case_match.
Qed.

(** X26: a page that is drawn to its end shows the store as the run leaves
    it.  The table is the filter of the listing of that store, a trade saved
    in the same run included, with one style for each row shown, green for
    a Buy and red for anything else; the counts are the counts of the whole
    listing, whatever the filters select. *)
Theorem page_rendered_shows_store to_datetime1 pressed w india_time dark_mode s s'
    dark_mode' v :
  page to_datetime1 pressed w india_time dark_mode s = (s', dark_mode', Rendered v) ->
  exists all_trades out,
    get_all_trades s' = Ok all_trades /\
    filtered to_datetime1 all_trades (widget.pair_filter w) (widget.type_filter w)
      (widget.date_filter w) = Ok out /\
    stats to_datetime1 all_trades = Ok (v_charts v) /\
    (if df_empty out
     then v_table v = None /\ v_styles v = [] /\
          Info "No trades found for selected filters." ∈ v_messages v
     else v_table v = Some out /\
          v_styles v
          = (fun r => if decide (cell "trade_type" r = Text "Buy")
                      then "color: green; font-weight: bold"
                      else "color: red; font-weight: bold") <$> df_rows out).
Proof.
  unfold page. destruct (initialize s) as [s1|]; [|done].
  unfold toggle_theme. destruct (bool_decide (pressed = Some ToggleTheme)); [done|].
  match goal with
  | |- context [match ?x with Ok _ => _ | Raise _ => _ end] =>
      destruct x as [[s2 said]|]
  end; [|done].
  unfold page_from_filters.
  destruct (get_all_trades s2) as [all_trades|] eqn:Hlist; [|done].
  destruct (filtered _ _ _ _ _) as [out|] eqn:Hfilter; [|done].
  assert (Hend : forall said shown styles,
            page_end to_datetime1 said shown styles all_trades = Rendered v ->
            stats to_datetime1 all_trades = Ok (v_charts v) /\
            v_table v = shown /\ v_styles v = styles /\
            forall m, m ∈ said -> m ∈ v_messages v).
  { intros said0 shown styles. unfold page_end.
    destruct (stats to_datetime1 all_trades) as [[c|]|]; [| |done].
    - intros [= <-]. by cbn.
    - intros [= <-]. cbn. repeat split; try done.
      intros m Hm. apply elem_of_app. by left. }
  destruct (df_empty out) eqn:Hempty.
  - intros [= <- _ Hv]. apply Hend in Hv as (Hstats & Htable & Hstyles & Hsaid).
    exists all_trades, out. rewrite Hempty. repeat split; try done.
    apply Hsaid, elem_of_app. right. apply list_elem_of_here.
  - assert (Hshown : (s2, Some match dark_mode with Some b => b | None => true end,
                      page_end to_datetime1 said (Some out)
                        (color_trade_type <$> (cell "trade_type" <$> df_rows out))
                        all_trades) = (s', dark_mode', Rendered v) ->
                     exists all_trades0 out0,
                       get_all_trades s' = Ok all_trades0 /\
                       filtered to_datetime1 all_trades0 (widget.pair_filter w)
                         (widget.type_filter w) (widget.date_filter w) = Ok out0 /\
                       stats to_datetime1 all_trades0 = Ok (v_charts v) /\
                       (if df_empty out0
                        then v_table v = None /\ v_styles v = [] /\
                             Info "No trades found for selected filters." ∈ v_messages v
                        else v_table v = Some out0 /\
                             v_styles v
                             = (fun r => if decide (cell "trade_type" r = Text "Buy")
                                         then "color: green; font-weight: bold"
                                         else "color: red; font-weight: bold")
                               <$> df_rows out0)).
    { intros [= <- _ Hv]. apply Hend in Hv as (Hstats & Htable & Hstyles & _).
      exists all_trades, out. rewrite Hempty. repeat split; try done.
      rewrite Hstyles, <- list_fmap_compose. apply list_fmap_ext.
      intros k r _. cbn. unfold color_trade_type.
      by destruct (decide (cell "trade_type" r = Text "Buy")). }
    destruct pressed as [[]|]; try done.
    + by destruct (update_result_pips _ _ _ s2).
    + by destruct (delete_trade _ s2).
Qed.

Lemma session_never_crashes_witness :
  Forall (fun o => forall e, o ≠ Crashed e)
    (session reference_to_datetime sample_steps None None).1.
Proof.
  apply (session_never_crashes reference_to_datetime sample_steps None).
  - exact reference_to_datetime_strftime.
  - by repeat constructor.
  - by vm_compute.
Defined.

Lemma session_keeps_journal_witness :
  StronglySorted Z.lt (omap rowid [saved_row 1]) /\
  length (omap rowid [saved_row 1]) = length [saved_row 1] /\
  Forall (fun i => 0 < i <= Z.of_nat (length (take 2 sample_steps)))
    (omap rowid [saved_row 1]) /\
  Forall rr_consistent [saved_row 1] /\
  Forall (converts reference_to_datetime) [saved_row 1].
Proof.
  apply (session_keeps_journal reference_to_datetime (take 2 sample_steps) None
           {| df_columns := column_names fresh_table; df_rows := [saved_row 1] |}).
  - exact reference_to_datetime_strftime.
  - by repeat constructor.
  - by vm_compute.
  - vm_compute. reflexivity.
Defined.

Lemma page_view_keeps_store_witness :
  (page reference_to_datetime None sample_widgets sample_time None
     (Some sample_table)).1.1 = Some sample_table.
Proof.
  by apply (page_view_keeps_store reference_to_datetime None sample_widgets
              sample_time None (Some sample_table) (Some sample_table)).
Defined.

Lemma page_commits_before_crash_witness :
  page reference_to_datetime (Some SaveTrade) sample_widgets sample_time None
    (Some edited_table)
  = (Some {| columns := columns edited_table;
             rows := rows edited_table ++ [saved_row 4];
             seq := 4 |},
     Some (default true None), Crashed (ParserError "garbage")).
Proof.
  apply (page_commits_before_crash reference_to_datetime sample_widgets sample_time
           None (Some edited_table) (Some edited_table) _
           (success "✅ Trade saved successfully!")
           {| df_columns := column_names edited_table;
              df_rows := rows edited_table ++ [saved_row 4] |}).
  - reflexivity.
  - vm_compute. reflexivity.
  - reflexivity.
  - vm_compute. reflexivity.
Defined.

Lemma page_empty_filter_blocks_write_witness :
  (page reference_to_datetime (Some DeleteTrade) no_pair_widgets sample_time None
     (Some sample_table)).1.1 = Some sample_table /\
  forall said,
    (page reference_to_datetime (Some DeleteTrade) no_pair_widgets sample_time None
       (Some sample_table)).2 ≠ Rerun said.
Proof.
  apply (page_empty_filter_blocks_write reference_to_datetime (Some DeleteTrade)
           no_pair_widgets sample_time None (Some sample_table) (Some sample_table)
           sample_frame
           {| df_columns := column_names sample_table; df_rows := [] |}).
  - reflexivity.
  - by right.
  - reflexivity.
  - vm_compute. reflexivity.
  - reflexivity.
Defined.

Lemma page_rendered_shows_store_witness :
  exists all_trades out,
    get_all_trades (Some sample_table) = Ok all_trades /\
    filtered reference_to_datetime all_trades (widget.pair_filter sample_widgets)
      (widget.type_filter sample_widgets) (widget.date_filter sample_widgets) = Ok out /\
    stats reference_to_datetime all_trades = Ok (v_charts sample_view) /\
    (if df_empty out
     then v_table sample_view = None /\ v_styles sample_view = [] /\
          Info "No trades found for selected filters." ∈ v_messages sample_view
     else v_table sample_view = Some out /\
          v_styles sample_view
          = (fun r => if decide (cell "trade_type" r = Text "Buy")
                      then "color: green; font-weight: bold"
                      else "color: red; font-weight: bold") <$> df_rows out).
Proof.
  apply (page_rendered_shows_store reference_to_datetime None sample_widgets
           sample_time None (Some sample_table) (Some sample_table) (Some true)
           sample_view).
  vm_compute. reflexivity.
Defined.

(** ** Weeks *)

Lemma isoweek1monday_step y : isoweek1monday y + 359 <= isoweek1monday (y + 1).
Proof.
  pose proof (isoweek1monday_spec y) as [H0 _].
  pose proof (isoweek1monday_spec (y + 1)) as [H1 _].
  pose proof (days_before_year_succ y) as S.
  destruct (is_leap y); lia.
Qed.

Lemma isoweek1monday_mono y y' : y <= y' -> isoweek1monday y <= isoweek1monday y'.
Proof.
  intros Hle. replace y' with (y + Z.of_nat (Z.to_nat (y' - y))) by lia.
  induction (Z.to_nat (y' - y)) as [|n IH]; [by rewrite Z.add_0_r|].
  rewrite Nat2Z.inj_succ.
  replace (y + Z.succ (Z.of_nat n)) with (y + Z.of_nat n + 1) by lia.
  pose proof (isoweek1monday_step (y + Z.of_nat n)). lia.
Qed.

(** The ISO week of a day counts the weeks from the Monday of week 1 of
    the ISO year that the day falls in. *)
Lemma isocalendar_week_spec d :
  valid_date d = true ->
  exists y,
    isoweek1monday y <= ymd2ord d < isoweek1monday (y + 1) /\
    isocalendar_week d = (ymd2ord d - isoweek1monday y) / 7 + 1.
Proof.
  intros Hv. pose proof (day_of_year_range d Hv) as Hdoy.
  pose proof (isoweek1monday_spec (year d)) as [H0 M0].
  pose proof (isoweek1monday_spec (year d - 1)) as [Hp Mp].
  pose proof (isoweek1monday_spec (year d + 1)) as [Hn Mn].
  pose proof (isoweek1monday_spec (year d + 1 + 1)) as [Hn2 Mn2].
  pose proof (days_before_year_succ (year d)) as Sn.
  pose proof (days_before_year_succ (year d + 1)) as Sn2.
  pose proof (days_before_year_succ (year d - 1)) as Sp.
  replace (year d - 1 + 1) with (year d) in Sp by lia.
  unfold isocalendar_week.
  assert (Hord : ymd2ord d = days_before_year (year d) +
                             (days_before_month (year d) (month d) + day d))
    by (unfold ymd2ord; lia).
  revert Hdoy Hord. generalize (days_before_month (year d) (month d) + day d).
  generalize (ymd2ord d). intros today doy Hdoy Hord.
  destruct (Z.ltb_spec ((today - isoweek1monday (year d)) / 7) 0) as [Hneg|Hpos].
  - exists (year d - 1). replace (year d - 1 + 1) with (year d) by lia.
    split; [|done].
    assert (today < isoweek1monday (year d))
      by (Z.to_euclidean_division_equations; lia).
    destruct (is_leap (year d)), (is_leap (year d - 1)); lia.
  - assert (isoweek1monday (year d) <= today)
      by (Z.to_euclidean_division_equations; lia).
    destruct (Z.leb_spec (isoweek1monday (year d + 1)) today) as [Hnext|Hthis].
    + assert (H52 : 52 <= (today - isoweek1monday (year d)) / 7).
      { destruct (is_leap (year d)); Z.to_euclidean_division_equations; lia. }
      apply Z.leb_le in H52. rewrite H52. cbn [andb].
      exists (year d + 1). split.
      * destruct (is_leap (year d)), (is_leap (year d + 1)); lia.
      * assert (today - isoweek1monday (year d + 1) < 7)
          by (destruct (is_leap (year d)); lia).
        Z.to_euclidean_division_equations; lia.
    + rewrite andb_false_r. exists (year d). by split.
Qed.

(** X27: days of the same week are counted in the same week.  Two days of
    the calendar that fall in the same week from Monday to Sunday have the
    same ISO week number, also when the week runs across the end of a
    year. *)
Theorem same_week_same_number d1 d2 :
  valid_date d1 = true -> valid_date d2 = true ->
  ymd2ord d1 - weekday d1 = ymd2ord d2 - weekday d2 ->
  isocalendar_week d1 = isocalendar_week d2.
Proof.
  intros Hv1 Hv2. unfold weekday.
  destruct (isocalendar_week_spec d1 Hv1) as (y1 & Hy1 & ->).
  destruct (isocalendar_week_spec d2 Hv2) as (y2 & Hy2 & ->).
  generalize dependent (ymd2ord d2). generalize dependent (ymd2ord d1).
  intros o1 Hy1 o2 Hy2 Hweek.
  pose proof (isoweek1monday_spec y1) as [_ M1].
  pose proof (isoweek1monday_spec y2) as [_ M2].
  assert (y1 = y2) as ->.
  { destruct (Z.lt_trichotomy y1 y2) as [Hlt|[?|Hlt]]; [|done|].
    - pose proof (isoweek1monday_mono (y1 + 1) y2 ltac:(lia)).
      Z.to_euclidean_division_equations; lia.
    - pose proof (isoweek1monday_mono (y2 + 1) y1 ltac:(lia)).
      Z.to_euclidean_division_equations; lia. }
  Z.to_euclidean_division_equations; lia.
Qed.

Lemma same_week_same_number_witness :
  isocalendar_week {| year := 2024; month := 12; day := 30 |}
  = isocalendar_week {| year := 2025; month := 1; day := 5 |}.
Proof. by apply same_week_same_number. Defined.


